(** * Funding-rate history fetchers: a shallow embedding

    The repository holds three paginating fetchers (Binance, Bybit,
    Hyperliquid) that turn JSON pages served by an exchange into
    normalized funding records.  This file embeds

    - the Python values the fetchers inspect (decoded JSON) together with
      the built-ins applied to them ([int], truthiness, [or], [dict.get],
      key equality of a [dict]),
    - [iso_from_ms], with the binary64 division [ms / 1000.0] and the
      rounding done by [datetime.utcfromtimestamp] written out on integers,
    - the three fetch loops as fuel-bounded functions over a request
      oracle, recording the requests they issue,
    - the grouping done by [main] before rows are written,

    and then proves the properties of the specification about them. *)

From Stdlib Require Import ZArith List String Ascii Bool Lia Sorted.
From Stdlib Require Import OrdersEx Permutation RelationClasses.
Import ListNotations.

Set Implicit Arguments.
Set Warnings "-register-all".
Open Scope Z_scope.

(** ** Python values *)

Module Py.

(** A decoded JSON document.  Strings are sequences of code points below
    256.  A Python [float] is kept by its exact value [m * 2^e]; the
    non-finite floats are not JSON and are left out.  A [dict] is an
    association list read left to right (first binding wins). *)
Inductive value : Type :=
| VNone
| VBool (b : bool)
| VInt (n : Z)
| VFloat (m e : Z)
| VStr (s : string)
| VList (l : list value)
| VDict (kv : list (string * value)).

(** [bool(v)] *)
Definition truthy (v : value) : bool :=
  match v with
  | VNone => false
  | VBool b => b
  | VInt n => negb (n =? 0)
  | VFloat m _ => negb (m =? 0)
  | VStr s => match s with EmptyString => false | _ => true end
  | VList l => match l with [] => false | _ => true end
  | VDict kv => match kv with [] => false | _ => true end
  end.

(** [a or b] *)
Definition or_ (a b : value) : value := if truthy a then a else b.

Definition is_none (v : value) : bool :=
  match v with VNone => true | _ => false end.

Fixpoint assoc (k : string) (kv : list (string * value)) : option value :=
  match kv with
  | [] => None
  | (k', v) :: rest => if String.eqb k k' then Some v else assoc k rest
  end.

(** [k in d] for a dict [d] *)
Definition has_key (k : string) (kv : list (string * value)) : bool :=
  match assoc k kv with Some _ => true | None => false end.

(** [d.get(k)] on a dict *)
Definition dget (kv : list (string * value)) (k : string) : value :=
  match assoc k kv with Some v => v | None => VNone end.

(** [item.get(k)]: [None] stands for the [AttributeError] raised when
    [item] is not a dict; an absent key gives Python's [None]. *)
Definition get (item : value) (k : string) : option value :=
  match item with
  | VDict kv => Some (dget kv k)
  | _ => None
  end.

(** *** [int(x)] *)

Definition is_space (c : ascii) : bool :=
  let n := N_of_ascii c in
  (((9 <=? n) && (n <=? 13)) || (n =? 32) || (n =? 133) || (n =? 160))%N.

Definition is_digit (c : ascii) : bool :=
  let n := N_of_ascii c in ((48 <=? n) && (n <=? 57))%N.

Definition digit_val (c : ascii) : Z := Z.of_N (N_of_ascii c) - 48.

Fixpoint only_spaces (s : string) : bool :=
  match s with
  | EmptyString => true
  | String c r => is_space c && only_spaces r
  end.

Fixpoint skip_spaces (s : string) : string :=
  match s with
  | String c r => if is_space c then skip_spaces r else s
  | EmptyString => s
  end.

(** Digits with single underscores between them, then optional spaces.
    [after_us] says that the previous character was an underscore. *)
Fixpoint digits (after_us : bool) (acc : Z) (s : string) : option Z :=
  match s with
  | EmptyString => if after_us then None else Some acc
  | String c r =>
      if is_digit c then digits false (10 * acc + digit_val c) r
      else if Ascii.eqb c "_"%char
           then (if after_us then None else digits true acc r)
           else if after_us then None
                else if only_spaces s then Some acc else None
  end.

Definition unsigned_literal (s : string) : option Z :=
  match s with
  | String c _ => if is_digit c then digits false 0 s else None
  | EmptyString => None
  end.

(** The number of decimal digits written in [s]. *)
Fixpoint digit_count (s : string) : Z :=
  match s with
  | EmptyString => 0
  | String c r => (if is_digit c then 1 else 0) + digit_count r
  end.

(** [sys.get_int_max_str_digits()], as the interpreter starts
    (CPython 3.11 and later, which [datetime.UTC] asks for). *)
Definition max_str_digits : Z := 4300.

(** [int(s)] for a string: a literal with more than [max_str_digits]
    digits raises [ValueError] like one that is not a number. *)
Definition int_of_string (s : string) : option Z :=
  if max_str_digits <? digit_count s then None
  else
    match skip_spaces s with
    | String "+"%char r => unsigned_literal r
    | String "-"%char r => option_map Z.opp (unsigned_literal r)
    | s' => unsigned_literal s'
    end.

(** Truncation toward zero of [m * 2^e]. *)
Definition trunc_float (m e : Z) : Z :=
  if 0 <=? e then m * 2 ^ e else Z.quot m (2 ^ (- e)).

(** [int(x)]; [None] stands for the [TypeError] or [ValueError]. *)
Definition int (v : value) : option Z :=
  match v with
  | VInt n => Some n
  | VBool b => Some (if b then 1 else 0)
  | VFloat m e => Some (trunc_float m e)
  | VStr s => int_of_string s
  | VNone | VList _ | VDict _ => None
  end.

(** *** Keys of a dict *)

Definition hashable (v : value) : bool :=
  match v with VList _ | VDict _ => false | _ => true end.

(** [m1 * 2^e1 == m2 * 2^e2] *)
Definition dyadic_eqb (m1 e1 m2 e2 : Z) : bool :=
  let e := Z.min e1 e2 in
  m1 * 2 ^ (e1 - e) =? m2 * 2 ^ (e2 - e).

Definition num_of (v : value) : option (Z * Z) :=
  match v with
  | VBool b => Some (if b then 1 else 0, 0)
  | VInt n => Some (n, 0)
  | VFloat m e => Some (m, e)
  | _ => None
  end.

(** [a == b] on hashable values: numbers compare by value across
    [bool], [int] and [float]; otherwise the types must agree. *)
Definition key_eqb (a b : value) : bool :=
  match num_of a, num_of b with
  | Some (m1, e1), Some (m2, e2) => dyadic_eqb m1 e1 m2 e2
  | None, None =>
      match a, b with
      | VNone, VNone => true
      | VStr s, VStr t => String.eqb s t
      | _, _ => false
      end
  | _, _ => false
  end.

(** [s.replace(old, new)] for a non-empty [old]: leftmost matches, not
    overlapping.  [skip] counts the characters of a match still to drop. *)
Fixpoint replace_from (old new : string) (skip : nat) (s : string) : string :=
  match s with
  | EmptyString => EmptyString
  | String c r =>
      match skip with
      | S k => replace_from old new k r
      | O => if String.prefix old s
             then new ++ replace_from old new (Nat.pred (String.length old)) r
             else String c (replace_from old new O r)
      end
  end%string.

Definition replace (old new s : string) : string := replace_from old new O s.

End Py.

(** ** Timestamps and their ISO-8601 rendering *)

Module Clock.

(** Nearest integer to [a / b] for [b > 0], ties to the even one. *)
Definition rne (a b : Z) : Z :=
  let q := a / b in
  let r := a mod b in
  if 2 * r <? b then q
  else if b <? 2 * r then q + 1
  else if Z.even q then q else q + 1.

(** [2^k <= n / d] for [n, d > 0] *)
Definition ge_pow2 (n d k : Z) : bool :=
  if 0 <=? k then d * 2 ^ k <=? n else d <=? n * 2 ^ (- k).

(** The binary64 float nearest to [n / d] ([d > 0]), ties to even, as a
    pair [(m, e)] of value [m * 2^e] with a 53-bit [m].  The exponent is
    unbounded: callers stay within the normal range or test for
    overflow themselves. *)
Definition round53 (n d : Z) : Z * Z :=
  if n =? 0 then (0, 0)
  else
    let k0 := Z.log2 (Z.abs n) - Z.log2 d in
    let k := if ge_pow2 (Z.abs n) d k0 then k0 else k0 - 1 in
    let e := k - 52 in
    (if 0 <=? e then rne n (d * 2 ^ e) else rne (n * 2 ^ (- e)) d, e).

(** [float(n)] for an [int]; [None] is the [OverflowError]. *)
Definition float_of_int (n : Z) : option (Z * Z) :=
  let '(m, e) := round53 n 1 in
  if 2 ^ 1024 <=? Z.abs m * 2 ^ e then None else Some (m, e).

(** [x / 1000.0] for a float [x = m * 2^e] *)
Definition div1000 (x : Z * Z) : Z * Z :=
  let '(m, e) := x in
  if 0 <=? e then round53 (m * 2 ^ e) 1000 else round53 m (1000 * 2 ^ (- e)).

(** C [modf]: integral part (toward zero) and the exact remainder. *)
Definition modf (x : Z * Z) : Z * (Z * Z) :=
  let '(m, e) := x in
  let ip := Py.trunc_float m e in
  (ip, if 0 <=? e then (0, 0) else (m - ip * 2 ^ (- e), e)).

(** [x * 1e6] *)
Definition mul1e6 (x : Z * Z) : Z * Z :=
  let '(m, e) := x in
  if 0 <=? e then round53 (m * 1000000 * 2 ^ e) 1
  else round53 (m * 1000000) (2 ^ (- e)).

(** Rounding half to even of a float to an integer. *)
Definition round_half_even (x : Z * Z) : Z :=
  let '(m, e) := x in
  if 0 <=? e then m * 2 ^ e else rne m (2 ^ (- e)).

(** Seconds and microseconds of a float timestamp, as
    [datetime.utcfromtimestamp] splits it. *)
Definition timeval_of_float (x : Z * Z) : Z * Z :=
  let '(ip, fp) := modf x in
  let us := round_half_even (mul1e6 fp) in
  if 1000000 <=? us then (ip + 1, us - 1000000)
  else if us <? 0 then (ip - 1, us + 1000000)
  else (ip, us).

(** Proleptic Gregorian date of the day numbered [z] from 1970-01-01. *)
Definition civil_from_days (z : Z) : Z * Z * Z :=
  let z := z + 719468 in
  let era := z / 146097 in
  let doe := z mod 146097 in
  let yoe := (doe - doe / 1460 + doe / 36524 - doe / 146096) / 365 in
  let doy := doe - (365 * yoe + yoe / 4 - yoe / 100) in
  let mp := (5 * doy + 2) / 153 in
  let d := doy - (153 * mp + 2) / 5 + 1 in
  let m := if mp <? 10 then mp + 3 else mp - 9 in
  (yoe + era * 400 + (if m <=? 2 then 1 else 0), m, d).

Record datetime : Type := mkDatetime {
  year : Z; month : Z; day : Z;
  hour : Z; minute : Z; second : Z; microsecond : Z
}.

(** [datetime.utcfromtimestamp(x)]; [None] stands for the exception
    raised when the year leaves 1..9999 (which also covers a seconds
    count outside the platform's [time_t]). *)
Definition utcfromtimestamp (x : Z * Z) : option datetime :=
  let '(sec, us) := timeval_of_float x in
  let '(y, m, d) := civil_from_days (sec / 86400) in
  let r := sec mod 86400 in
  if (1 <=? y) && (y <=? 9999)
  then Some (mkDatetime y m d (r / 3600) (r mod 3600 / 60) (r mod 60) us)
  else None.

Definition digit_char (n : Z) : ascii := ascii_of_N (Z.to_N (48 + n mod 10)).

Definition pad2 (n : Z) : string :=
  String (digit_char (n / 10)) (String (digit_char n) EmptyString).

Definition pad4 (n : Z) : string := (pad2 (n / 100) ++ pad2 (n mod 100))%string.

Definition pad6 (n : Z) : string := (pad2 (n / 10000) ++ pad4 (n mod 10000))%string.

(** [dt.isoformat()] of a naive datetime *)
Definition isoformat (dt : datetime) : string :=
  (pad4 (year dt) ++ "-" ++ pad2 (month dt) ++ "-" ++ pad2 (day dt) ++ "T"
   ++ pad2 (hour dt) ++ ":" ++ pad2 (minute dt) ++ ":" ++ pad2 (second dt)
   ++ (if Z.eqb (microsecond dt) 0 then "" else "." ++ pad6 (microsecond dt)))%string.

(** [ms / 1000.0] *)
Definition ms_to_seconds (ms : Z) : option (Z * Z) :=
  option_map div1000 (float_of_int ms).

(** [iso_from_ms] of fetch_binance_funding.py, fetch_bybit_funding.py and
    fetch_funding_rates.py:
    [datetime.datetime.utcfromtimestamp(ms / 1000.0).isoformat() + "Z"] *)
Definition iso_from_ms (ms : Z) : option string :=
  match ms_to_seconds ms with
  | None => None
  | Some x =>
      match utcfromtimestamp x with
      | None => None
      | Some dt => Some (isoformat dt ++ "Z")%string
      end
  end.

(** [iso_from_ms] of fetch_hyperliquid_funding.py: the datetime is made
    aware of UTC, so [isoformat] ends in the offset, which is then
    replaced:
    [datetime.datetime.fromtimestamp(ms / 1000.0, datetime.UTC)
       .isoformat().replace("+00:00", "Z")] *)
Definition iso_from_ms_aware (ms : Z) : option string :=
  match ms_to_seconds ms with
  | None => None
  | Some x =>
      match utcfromtimestamp x with
      | None => None
      | Some dt => Some (Py.replace "+00:00" "Z" (isoformat dt ++ "+00:00"))%string
      end
  end.

End Clock.

(** ** Records, responses and outcomes shared by the fetchers *)

(** One output row: the dict built by every fetcher. *)
Record FundingRecord : Type := mkRecord {
  exchange : string;
  symbol : string;
  funding_time_ms : Z;
  funding_time_iso : string;
  funding_rate : Py.value
}.

(** Orders on rows by funding time. *)
Definition earlier (a b : FundingRecord) : Prop :=
  funding_time_ms a < funding_time_ms b.

Definition later (a b : FundingRecord) : Prop :=
  funding_time_ms b < funding_time_ms a.

Definition not_later (a b : FundingRecord) : Prop :=
  funding_time_ms a <= funding_time_ms b.

(** Every row of a fetcher carries the symbol asked for, the name of
    the exchange, and the rendering of its own time. *)
Definition row_of (exch sym : string) (iso : Z -> option string)
    (r : FundingRecord) : Prop :=
  exchange r = exch /\ symbol r = sym
  /\ iso (funding_time_ms r) = Some (funding_time_iso r).

(** What one page request gives: [Failed] when [requests.get] /
    [requests.post], [raise_for_status] or [r.json()] raises (timeout,
    non-2xx status, undecodable body), else the decoded body. *)
Inductive response : Type :=
| Failed
| Body (j : Py.value).

(** How a pagination loop ended. *)
Inductive stop : Type :=
| StopEmpty     (* [break] on an empty or absent list *)
| StopShort     (* [break] on a page shorter than the limit *)
| StopRaised    (* an exception reached the [except] clause, then [break] *)
| StopWindow.   (* Hyperliquid: [cur_start <= end_ms] became false *)

(** What one entry of a page contributes. *)
Inductive item_result : Type :=
| ItemRaise                     (* an exception leaves the [for] loop *)
| ItemSkip                      (* [continue] *)
| ItemRow (r : FundingRecord).  (* [results.append(...)] *)

(** The [for item in ...] loop: rows are appended to [results] one by
    one; the flag is [false] when an entry raised, in which case the rows
    appended before it stay. *)
Fixpoint append_items (parse : Py.value -> item_result)
    (items : list Py.value) (results : list FundingRecord)
    : list FundingRecord * bool :=
  match items with
  | [] => (results, true)
  | item :: rest =>
      match parse item with
      | ItemRaise => (results, false)
      | ItemSkip => append_items parse rest results
      | ItemRow r => append_items parse rest (results ++ [r])
      end
  end.

(** A body without entries: anything but a non-empty list. *)
Definition no_entries (j : Py.value) : bool :=
  match j with Py.VList (_ :: _) => false | _ => true end.

(** [by_sym.setdefault(sym, []).append(r)] on an insertion-ordered dict *)
Fixpoint group_add (r : FundingRecord)
    (groups : list (string * list FundingRecord))
    : list (string * list FundingRecord) :=
  match groups with
  | [] => [(symbol r, [r])]
  | (k, rows) :: rest =>
      if String.eqb k (symbol r) then (k, rows ++ [r]) :: rest
      else (k, rows) :: group_add r rest
  end.

(** The grouping loop of [main]; each group is then written in order by
    [save_rows_to_csv]. *)
Definition group_by_symbol (all_rows : list FundingRecord)
    : list (string * list FundingRecord) :=
  fold_left (fun groups r => group_add r groups) all_rows [].

(** A run of rows under their symbol, as [main] lays them out. *)
Definition keyed (b : string * list FundingRecord) : Prop :=
  Forall (fun r => symbol r = fst b) (snd b).

Definition nonempty (b : string * list FundingRecord) : bool :=
  match snd b with [] => false | _ => true end.

(** ** fetch_binance_funding.py *)

(** A count of seconds, taken to be below [10 ^ 12], in milliseconds. *)
Definition scaled (t : Z) : Z := if t <? 10 ^ 12 then t * 1000 else t.

Module Binance.

Record request : Type := mkRequest {
  req_symbol : string;
  startTime : Z;
  endTime : Z;
  req_limit : Z
}.

Record outcome : Type := mkOutcome {
  results : list FundingRecord;
  requests : list request;
  why : stop
}.

Definition limit : Z := 1000.

Definition iso_from_ms := Clock.iso_from_ms.

(** Body of [for item in data]. *)
Definition parse_item (symbol : string) (item : Py.value) : item_result :=
  match Py.get item "fundingTime" with
  | None => ItemRaise
  | Some v =>
      match Py.int v with
      | None => ItemRaise
      | Some ft =>
          match Py.get item "fundingRate" with
          | None => ItemRaise
          | Some fr =>
              match iso_from_ms ft with
              | None => ItemRaise
              | Some iso => ItemRow (mkRecord "binance" symbol ft iso fr)
              end
          end
      end
  end.

(** [int(data[-1].get("fundingTime"))] *)
Definition last_time (data : list Py.value) : option Z :=
  match Py.get (last data Py.VNone) "fundingTime" with
  | None => None
  | Some v => Py.int v
  end.

(** [fetch_binance_funding]: the [while True] loop, one iteration per
    unit of fuel.  [srv n req] is the answer to the request [req] issued
    after [n] earlier ones.  [None]: the fuel ran out first. *)
Fixpoint fetch_loop (fuel : nat) (srv : nat -> request -> response)
    (n : nat) (symbol : string) (cur_start end_ms : Z)
    (results : list FundingRecord) (trace : list request) : option outcome :=
  match fuel with
  | O => None
  | S fuel' =>
      let req := mkRequest symbol cur_start end_ms limit in
      let trace' := trace ++ [req] in
      match srv n req with
      | Failed => Some (mkOutcome results trace' StopRaised)
      | Body (Py.VList ((_ :: _) as data)) =>
          let '(results', ok) := append_items (parse_item symbol) data results in
          if negb ok then Some (mkOutcome results' trace' StopRaised)
          else if Z.of_nat (List.length data) <? limit
          then Some (mkOutcome results' trace' StopShort)
          else
            match last_time data with
            | None => Some (mkOutcome results' trace' StopRaised)
            | Some t =>
                fetch_loop fuel' srv (S n) symbol (t + 1) end_ms results' trace'
            end
      | Body _ => Some (mkOutcome results trace' StopEmpty)
      end
  end.

Definition fetch_binance_funding (fuel : nat)
    (srv : nat -> request -> response) (symbol : string) (start_ms end_ms : Z)
    : option outcome :=
  fetch_loop fuel srv O symbol start_ms end_ms [] [].

(** The symbol loop of [main] followed by the grouping.  [k] counts the
    requests made for earlier symbols. *)
Fixpoint fetch_all (fuel : nat) (srv : nat -> request -> response) (k : nat)
    (syms : list string) (start_ms end_ms : Z) (all_rows : list FundingRecord)
    : option (list FundingRecord) :=
  match syms with
  | [] => Some all_rows
  | symbol :: rest =>
      match fetch_binance_funding fuel (fun i => srv (k + i)%nat)
              symbol start_ms end_ms with
      | None => None
      | Some o =>
          fetch_all fuel srv (k + List.length (requests o))%nat rest start_ms end_ms
            (all_rows ++ results o)
      end
  end.

Definition main (fuel : nat) (srv : nat -> request -> response)
    (syms : list string) (start_ms end_ms : Z)
    : option (list (string * list FundingRecord)) :=
  option_map group_by_symbol (fetch_all fuel srv O syms start_ms end_ms []).

(** *** Vocabulary for statements about runs *)

(** [int(item.get("fundingTime"))] raises. *)
Definition unreadable (item : Py.value) : Prop :=
  match Py.get item "fundingTime" with
  | Some v => Py.int v = None
  | None => True
  end.

(** The timestamp the cursor reads from an entry. *)
Definition entry_time (item : Py.value) : option Z :=
  match Py.get item "fundingTime" with
  | None => None
  | Some v => Py.int v
  end.

(** Every entry carries an integer time within [lo .. hi]. *)
Definition entries_within (lo hi : Z) (data : list Py.value) : bool :=
  forallb (fun item =>
             match entry_time item with
             | Some t => (lo <=? t) && (t <=? hi)
             | None => false
             end) data.

(** As [entries_within], and the times increase strictly. *)
Fixpoint ascending_within (lo hi : Z) (data : list Py.value) : bool :=
  match data with
  | [] => true
  | item :: rest =>
      match entry_time item with
      | Some t => (lo <=? t) && (t <=? hi) && ascending_within (t + 1) hi rest
      | None => false
      end
  end.

(** The rows one page contributes. *)
Definition page_rows (symbol : string) (data : list Py.value)
    : list FundingRecord :=
  fst (append_items (parse_item symbol) data []).

(** The first requests, from the [n]-th on with cursor [cur], are
    answered by the full pages [pages], each of which lets the loop go
    on, and the request after them satisfies [last]. *)
Fixpoint served (srv : nat -> request -> response) (symbol : string)
    (end_ms : Z) (n : nat) (cur : Z) (pages : list (list Py.value))
    (last : response -> Prop) : Prop :=
  match pages with
  | [] => last (srv n (mkRequest symbol cur end_ms limit))
  | data :: rest =>
      srv n (mkRequest symbol cur end_ms limit) = Body (Py.VList data)
      /\ snd (append_items (parse_item symbol) data []) = true
      /\ limit <= Z.of_nat (List.length data)
      /\ exists t, last_time data = Some t
           /\ served srv symbol end_ms (S n) (t + 1) rest last
  end.

(** The cursor after a page: one past the time of its last entry. *)
Definition next_cursor (cur : Z) (data : list Py.value) : Z :=
  match last_time data with Some t => t + 1 | None => cur end.

Definition cursor_after (cur : Z) (pages : list (list Py.value)) : Z :=
  fold_left next_cursor pages cur.

(** The requests that fetch [pages], from the cursor [cur]. *)
Fixpoint requests_for (symbol : string) (end_ms cur : Z)
    (pages : list (list Py.value)) : list request :=
  match pages with
  | [] => []
  | data :: rest =>
      mkRequest symbol cur end_ms limit
        :: requests_for symbol end_ms (next_cursor cur data) rest
  end.

End Binance.

(** ** fetch_bybit_funding.py *)

Module Bybit.

Record request : Type := mkRequest {
  category : string;
  req_symbol : string;
  startTime : Z;
  endTime : Z;
  req_limit : Z
}.

Record outcome : Type := mkOutcome {
  results : list FundingRecord;
  requests : list request;
  why : stop
}.

Definition limit : Z := 200.

Definition iso_from_ms := Clock.iso_from_ms.

(** The list of entries looked for in the decoded body [j]. *)
Definition page_list (j : Py.value) : Py.value :=
  let result_obj :=
    match j with Py.VDict kv => Py.dget kv "result" | _ => Py.VNone end in
  match result_obj with
  | Py.VDict kv => Py.or_ (Py.dget kv "list") (Py.VList [])
  | Py.VList _ => result_obj
  | _ => Py.VList []
  end.

Section WithIsoParser.

(** [datetime.fromisoformat] and [datetime.timestamp] belong to the
    Python library: [fromisoformat_ms s] stands for
    [int(datetime.datetime.fromisoformat(s).timestamp() * 1000)], with
    [None] when it raises. *)
Variable fromisoformat_ms : string -> option Z.

(** The inner [except] branch.  [str(ft)] of a list or of a dict opens
    with a bracket, which no ISO date does. *)
Definition iso_fallback (ft : Py.value) : option Z :=
  match ft with
  | Py.VStr s => fromisoformat_ms (Py.replace "Z" "+00:00" s)
  | _ => None
  end.

(** The timestamp of an entry in milliseconds, [None] when the entry is
    to be skipped. *)
Definition normalize (ft : Py.value) : option Z :=
  match Py.int ft with
  | Some ft_i => Some (if ft_i <? 10 ^ 12 then ft_i * 1000 else ft_i)
  | None => iso_fallback ft
  end.

(** Body of [for item in lst]. *)
Definition parse_item (symbol : string) (item : Py.value) : item_result :=
  match item with
  | Py.VDict kv =>
      let fr := Py.or_ (Py.or_ (Py.dget kv "fundingRate")
                               (Py.dget kv "funding_rate"))
                       (Py.dget kv "funding") in
      let ft := Py.or_ (Py.or_ (Py.or_ (Py.dget kv "fundingRateTimestamp")
                                       (Py.dget kv "funding_time"))
                               (Py.dget kv "timestamp"))
                       (Py.dget kv "time") in
      if Py.is_none ft then ItemSkip
      else
        match normalize ft with
        | None => ItemSkip
        | Some ft_i =>
            match iso_from_ms ft_i with
            | None => ItemRaise
            | Some iso => ItemRow (mkRecord "bybit" symbol ft_i iso fr)
            end
        end
  | _ => ItemRaise
  end.

(** [int(lst[-1].get("fundingRateTimestamp"))] *)
Definition last_time (lst : list Py.value) : option Z :=
  match Py.get (last lst Py.VNone) "fundingRateTimestamp" with
  | None => None
  | Some v => Py.int v
  end.

(** [fetch_bybit_funding_v5]: the cursor [cur_end] recedes. *)
Fixpoint fetch_loop (fuel : nat) (srv : nat -> request -> response)
    (n : nat) (symbol : string) (start_ts cur_end : Z)
    (results : list FundingRecord) (trace : list request) : option outcome :=
  match fuel with
  | O => None
  | S fuel' =>
      let req := mkRequest "linear" symbol start_ts cur_end limit in
      let trace' := trace ++ [req] in
      match srv n req with
      | Failed => Some (mkOutcome results trace' StopRaised)
      | Body j =>
          let lst := page_list j in
          if negb (Py.truthy lst) then Some (mkOutcome results trace' StopEmpty)
          else
            match lst with
            | Py.VList items =>
                let '(results', ok) :=
                  append_items (parse_item symbol) items results in
                if negb ok then Some (mkOutcome results' trace' StopRaised)
                else if Z.of_nat (List.length items) <? limit
                then Some (mkOutcome results' trace' StopShort)
                else
                  match last_time items with
                  | None => Some (mkOutcome results' trace' StopRaised)
                  | Some t =>
                      fetch_loop fuel' srv (S n) symbol start_ts (t - 1)
                        results' trace'
                  end
            | _ =>
                (* iterating a number raises; iterating a string or a dict
                   yields strings, which have no [get] *)
                Some (mkOutcome results trace' StopRaised)
            end
      end
  end.

Definition fetch_bybit_funding_v5 (fuel : nat)
    (srv : nat -> request -> response) (symbol : string) (start_ts end_ts : Z)
    : option outcome :=
  fetch_loop fuel srv O symbol start_ts end_ts [] [].

(** The symbol loop of [main]: [all_rows.extend(rows[::-1])]. *)
Fixpoint fetch_all (fuel : nat) (srv : nat -> request -> response) (k : nat)
    (syms : list string) (start_ms end_ms : Z) (all_rows : list FundingRecord)
    : option (list FundingRecord) :=
  match syms with
  | [] => Some all_rows
  | symbol :: rest =>
      match fetch_bybit_funding_v5 fuel (fun i => srv (k + i)%nat)
              symbol start_ms end_ms with
      | None => None
      | Some o =>
          fetch_all fuel srv (k + List.length (requests o))%nat rest
            start_ms end_ms (all_rows ++ rev (results o))
      end
  end.

Definition main (fuel : nat) (srv : nat -> request -> response)
    (syms : list string) (start_ms end_ms : Z)
    : option (list (string * list FundingRecord)) :=
  option_map group_by_symbol (fetch_all fuel srv O syms start_ms end_ms []).

(** The rows one page contributes. *)
Definition page_rows (symbol : string) (items : list Py.value)
    : list FundingRecord :=
  fst (append_items (parse_item symbol) items []).

(** The first requests, from the [n]-th on with cursor [cur], are
    answered by the bodies [bodies], each holding a full list that lets
    the loop go on, and the request after them satisfies [last]. *)
Fixpoint served (srv : nat -> request -> response) (symbol : string)
    (start_ts : Z) (n : nat) (cur : Z) (pages : list (list Py.value))
    (last : response -> Prop) : Prop :=
  match pages with
  | [] => last (srv n (mkRequest "linear" symbol start_ts cur limit))
  | items :: rest =>
      (exists j, srv n (mkRequest "linear" symbol start_ts cur limit) = Body j
                 /\ page_list j = Py.VList items)
      /\ snd (append_items (parse_item symbol) items []) = true
      /\ limit <= Z.of_nat (List.length items)
      /\ exists t, last_time items = Some t
           /\ served srv symbol start_ts (S n) (t - 1) rest last
  end.

End WithIsoParser.

(** *** Vocabulary for statements about runs *)

(** The value [ft] the loop reads from an entry. *)
Definition raw_time (kv : list (string * Py.value)) : Py.value :=
  Py.or_ (Py.or_ (Py.or_ (Py.dget kv "fundingRateTimestamp")
                         (Py.dget kv "funding_time"))
                 (Py.dget kv "timestamp"))
         (Py.dget kv "time").

(** The entry has no timestamp, or one that neither [int] nor the ISO
    reading accepts. *)
Definition unreadable (fromisoformat_ms : string -> option Z)
    (kv : list (string * Py.value)) : Prop :=
  Py.is_none (raw_time kv) = true
  \/ (Py.int (raw_time kv) = None
      /\ iso_fallback fromisoformat_ms (raw_time kv) = None).

(** The timestamp the cursor reads from an entry; it is also the first
    field [parse_item] probes, and is used there when it is truthy. *)
Definition entry_time (item : Py.value) : option Z :=
  match item with
  | Py.VDict kv =>
      let v := Py.dget kv "fundingRateTimestamp" in
      if Py.truthy v then Py.int v else None
  | _ => None
  end.

(** Every entry carries an integer time within [lo .. hi], and the times
    decrease strictly. *)
Fixpoint descending_within (lo hi : Z) (items : list Py.value) : bool :=
  match items with
  | [] => true
  | item :: rest =>
      match entry_time item with
      | Some t => (lo <=? t) && (t <=? hi) && descending_within lo (t - 1) rest
      | None => false
      end
  end.

(** The cursor after a page: one before the time of its last entry. *)
Definition next_cursor (cur : Z) (items : list Py.value) : Z :=
  match last_time items with Some t => t - 1 | None => cur end.

Definition cursor_after (cur : Z) (pages : list (list Py.value)) : Z :=
  fold_left next_cursor pages cur.

(** The requests that fetch [pages], from the cursor [cur]. *)
Fixpoint requests_for (symbol : string) (start_ts cur : Z)
    (pages : list (list Py.value)) : list request :=
  match pages with
  | [] => []
  | items :: rest =>
      mkRequest "linear" symbol start_ts cur limit
        :: requests_for symbol start_ts (next_cursor cur items) rest
  end.

End Bybit.

(** ** fetch_hyperliquid_funding.py *)

Module Hyperliquid.

Record request : Type := mkRequest {
  req_type : string;
  coin : string;
  startTime : Z;
  endTime : Z
}.

(** What the call gives back: the list, or the [TypeError] of the
    deduplicating dict when a funding rate is a list or a dict. *)
Inductive returned : Type :=
| Returns (rows : list FundingRecord)
| Raises.

Record outcome : Type := mkOutcome {
  result : returned;
  accumulated : list FundingRecord;   (* [results] when the loop ended *)
  requests : list request;
  why : stop
}.

Definition window_ms : Z := 30 * 24 * 3600 * 1000.

Definition iso_from_ms := Clock.iso_from_ms_aware.

Definition is_letter (c : ascii) : bool :=
  let n := N_of_ascii c in
  (((65 <=? n) && (n <=? 90)) || ((97 <=? n) && (n <=? 122)))%N.

(** The longest prefix matched by [[A-Za-z]*]. *)
Fixpoint leading_letters (s : string) : string :=
  match s with
  | String c r => if is_letter c then String c (leading_letters r) else EmptyString
  | EmptyString => EmptyString
  end.

(** [re.match(r"^([A-Za-z]+)", symbol)], group 1 on a match, else the
    symbol. *)
Definition extract_coin_from_symbol (symbol : string) : string :=
  match leading_letters symbol with
  | EmptyString => symbol
  | m => m
  end.

(** Body of [for item in j]. *)
Definition parse_item (symbol : string) (item : Py.value) : item_result :=
  match item with
  | Py.VDict kv =>
      let ft := Py.or_ (Py.or_ (Py.dget kv "time") (Py.dget kv "timestamp"))
                       (Py.dget kv "t") in
      let fr := Py.or_ (Py.or_ (Py.or_ (Py.dget kv "fundingRate")
                                       (Py.dget kv "funding_rate"))
                               (Py.dget kv "rate"))
                       (Py.dget kv "funding") in
      if Py.is_none ft then ItemSkip
      else
        match Py.int ft with
        | None => ItemSkip
        | Some t =>
            let ft_i := if t <? 10 ^ 12 then t * 1000 else t in
            match iso_from_ms ft_i with
            | None => ItemRaise
            | Some iso => ItemRow (mkRecord "hyperliquid" symbol ft_i iso fr)
            end
        end
  | _ => ItemRaise
  end.

(** [int(j[-1].get("time") or j[-1].get("timestamp") or j[-1].get("t"))] *)
Definition last_time (j : list Py.value) : option Z :=
  match last j Py.VNone with
  | Py.VDict kv =>
      Py.int (Py.or_ (Py.or_ (Py.dget kv "time") (Py.dget kv "timestamp"))
                     (Py.dget kv "t"))
  | _ => None
  end.

(** [len(j)] is defined *)
Definition has_len (j : Py.value) : bool :=
  match j with
  | Py.VStr _ | Py.VList _ | Py.VDict _ => true
  | _ => false
  end.

(** The [while cur_start <= end_ms] loop.  The accumulated rows, the
    requests issued and the way the loop ended. *)
Fixpoint fetch_loop (fuel : nat) (srv : nat -> request -> response)
    (n : nat) (symbol coin : string) (cur_start end_ms : Z)
    (results : list FundingRecord) (trace : list request)
    : option (list FundingRecord * list request * stop) :=
  match fuel with
  | O => None
  | S fuel' =>
      if end_ms <? cur_start then Some (results, trace, StopWindow)
      else
        let cur_end := Z.min end_ms (cur_start + window_ms - 1) in
        let req := mkRequest "fundingHistory" coin cur_start cur_end in
        let trace' := trace ++ [req] in
        match srv n req with
        | Failed => Some (results, trace', StopRaised)
        | Body j =>
            if negb (has_len j) then Some (results, trace', StopRaised)
            else
              match j with
              | Py.VList ((_ :: _) as items) =>
                  let '(results', ok) :=
                    append_items (parse_item symbol) items results in
                  if negb ok then Some (results', trace', StopRaised)
                  else
                    match last_time items with
                    | None => Some (results', trace', StopRaised)
                    | Some t =>
                        fetch_loop fuel' srv (S n) symbol coin (t + 1) end_ms
                          results' trace'
                    end
              | _ =>
                  fetch_loop fuel' srv (S n) symbol coin (cur_end + 1) end_ms
                    results trace'
              end
        end
  end.

(** Equality of the keys [(funding_time_ms, funding_rate)] of two rows. *)
Definition same_key (a b : FundingRecord) : bool :=
  (funding_time_ms a =? funding_time_ms b)
  && Py.key_eqb (funding_rate a) (funding_rate b).

(** [d[key(r)] = r] on the values of an insertion-ordered dict: a key
    already present keeps its place and takes the new value. *)
Fixpoint dict_put (r : FundingRecord) (d : list FundingRecord)
    : list FundingRecord :=
  match d with
  | [] => [r]
  | x :: rest => if same_key x r then r :: rest else x :: dict_put r rest
  end.

(** [{(r['funding_time_ms'], r['funding_rate']): r for r in results}.values()];
    [None] is the [TypeError] for an unhashable funding rate. *)
Definition dedup (results : list FundingRecord) : option (list FundingRecord) :=
  if forallb (fun r => Py.hashable (funding_rate r)) results
  then Some (fold_left (fun d r => dict_put r d) results [])
  else None.

Fixpoint insert_by_time (r : FundingRecord) (l : list FundingRecord)
    : list FundingRecord :=
  match l with
  | [] => [r]
  | x :: rest =>
      if funding_time_ms r <=? funding_time_ms x then r :: l
      else x :: insert_by_time r rest
  end.

(** [sorted(rows, key=lambda x: x["funding_time_ms"])], a stable sort. *)
Definition sorted_by_time (rows : list FundingRecord) : list FundingRecord :=
  fold_right insert_by_time [] rows.

Definition dedup_sorted (results : list FundingRecord) : returned :=
  match dedup results with
  | None => Raises
  | Some rows => Returns (sorted_by_time rows)
  end.

Definition fetch_hyper_funding_for_symbol (fuel : nat)
    (srv : nat -> request -> response) (symbol : string) (start_ms end_ms : Z)
    : option outcome :=
  match fetch_loop fuel srv O symbol (extract_coin_from_symbol symbol)
          start_ms end_ms [] [] with
  | None => None
  | Some (results, trace, w) =>
      Some (mkOutcome (dedup_sorted results) results trace w)
  end.

(** How [main] ends: out of fuel, stopped by the uncaught [TypeError], or
    with its groups written. *)
Inductive run : Type :=
| OutOfFuel
| Crashed
| Done (groups : list (string * list FundingRecord)).

Fixpoint fetch_all (fuel : nat) (srv : nat -> request -> response) (k : nat)
    (syms : list string) (start_ms end_ms : Z) (all_rows : list FundingRecord)
    : run :=
  match syms with
  | [] => Done (group_by_symbol all_rows)
  | symbol :: rest =>
      match fetch_hyper_funding_for_symbol fuel (fun i => srv (k + i)%nat)
              symbol start_ms end_ms with
      | None => OutOfFuel
      | Some o =>
          match result o with
          | Raises => Crashed
          | Returns rows =>
              fetch_all fuel srv (k + List.length (requests o))%nat rest
                start_ms end_ms (all_rows ++ rows)
          end
      end
  end.

Definition main (fuel : nat) (srv : nat -> request -> response)
    (syms : list string) (start_ms end_ms : Z) : run :=
  fetch_all fuel srv O syms start_ms end_ms [].

(** *** Vocabulary for statements about runs *)

(** The value [ft] the loop reads from an entry. *)
Definition raw_time (kv : list (string * Py.value)) : Py.value :=
  Py.or_ (Py.or_ (Py.dget kv "time") (Py.dget kv "timestamp")) (Py.dget kv "t").

(** The entry has no timestamp, or one that [int] does not accept. *)
Definition unreadable (kv : list (string * Py.value)) : Prop :=
  Py.int (raw_time kv) = None.

(** The timestamp read from an entry, by the rows and by the cursor. *)
Definition entry_time (item : Py.value) : option Z :=
  match item with
  | Py.VDict kv =>
      Py.int (Py.or_ (Py.or_ (Py.dget kv "time") (Py.dget kv "timestamp"))
                     (Py.dget kv "t"))
  | _ => None
  end.

(** Every entry carries an integer time within [lo .. hi]. *)
Definition entries_within (lo hi : Z) (data : list Py.value) : bool :=
  forallb (fun item =>
             match entry_time item with
             | Some t => (lo <=? t) && (t <=? hi)
             | None => false
             end) data.

(** As [entries_within], and the times increase strictly. *)
Fixpoint ascending_within (lo hi : Z) (data : list Py.value) : bool :=
  match data with
  | [] => true
  | item :: rest =>
      match entry_time item with
      | Some t => (lo <=? t) && (t <=? hi) && ascending_within (t + 1) hi rest
      | None => false
      end
  end.

(** The rows one body contributes: those of a non-empty list. *)
Definition page_rows (symbol : string) (j : Py.value) : list FundingRecord :=
  match j with
  | Py.VList items => fst (append_items (parse_item symbol) items [])
  | _ => []
  end.

(** The request issued with the cursor at [cur]. *)
Definition request_at (symbol : string) (cur end_ms : Z) : request :=
  mkRequest "fundingHistory" (extract_coin_from_symbol symbol) cur
    (Z.min end_ms (cur + window_ms - 1)).

(** The first requests, from the [n]-th on with cursor [cur], are
    answered by [bodies], each of which lets the loop go on (an empty
    answer moves to the next window), and the request after them is
    issued and satisfies [last]. *)
Fixpoint served (srv : nat -> request -> response) (symbol : string)
    (end_ms : Z) (n : nat) (cur : Z) (bodies : list Py.value)
    (last : response -> Prop) : Prop :=
  match bodies with
  | [] => cur <= end_ms /\ last (srv n (request_at symbol cur end_ms))
  | j :: rest =>
      cur <= end_ms
      /\ srv n (request_at symbol cur end_ms) = Body j
      /\ has_len j = true
      /\ match j with
         | Py.VList ((_ :: _) as items) =>
             snd (append_items (parse_item symbol) items []) = true
             /\ exists t, last_time items = Some t
                  /\ served srv symbol end_ms (S n) (t + 1) rest last
         | _ =>
             served srv symbol end_ms (S n)
               (Z.min end_ms (cur + window_ms - 1) + 1) rest last
         end
  end.

(** The windows of a segmentation fixed in advance: [count] windows of
    30 days from [cur], the last cut at [end_ms]. *)
Fixpoint fixed_windows (count : nat) (symbol : string) (cur end_ms : Z)
    : list request :=
  match count with
  | O => []
  | S k =>
      if end_ms <? cur then []
      else request_at symbol cur end_ms
             :: fixed_windows k symbol (cur + window_ms) end_ms
  end.

(** The cursor after a body: one past the time of the last entry of a
    non-empty list, else one past the end of the window. *)
Definition next_cursor (end_ms cur : Z) (j : Py.value) : Z :=
  match j with
  | Py.VList ((_ :: _) as items) =>
      match last_time items with Some t => t + 1 | None => cur end
  | _ => Z.min end_ms (cur + window_ms - 1) + 1
  end.

Definition cursor_after (end_ms cur : Z) (bodies : list Py.value) : Z :=
  fold_left (next_cursor end_ms) bodies cur.

(** The requests that fetch [bodies], from the cursor [cur]. *)
Fixpoint requests_for (symbol : string) (end_ms cur : Z)
    (bodies : list Py.value) : list request :=
  match bodies with
  | [] => []
  | j :: rest =>
      request_at symbol cur end_ms
        :: requests_for symbol end_ms (next_cursor end_ms cur j) rest
  end.

(** The requests from the [n]-th on, the first with cursor [cur], are
    issued and answered by [bodies]. *)
Fixpoint answered (srv : nat -> request -> response) (symbol : string)
    (end_ms : Z) (n : nat) (cur : Z) (bodies : list Py.value) : Prop :=
  match bodies with
  | [] => True
  | j :: rest =>
      cur <= end_ms
      /\ srv n (request_at symbol cur end_ms) = Body j
      /\ answered srv symbol end_ms (S n) (next_cursor end_ms cur j) rest
  end.

(** The requests from the [n]-th on, the first with cursor [cur], are
    answered by [bodies], each of which lets the loop go on, and after
    the last of them the cursor has passed [end_ms]: the loop ends by
    itself. *)
Fixpoint completes (srv : nat -> request -> response) (symbol : string)
    (end_ms : Z) (n : nat) (cur : Z) (bodies : list Py.value) : Prop :=
  match bodies with
  | [] => end_ms < cur
  | j :: rest =>
      cur <= end_ms
      /\ srv n (request_at symbol cur end_ms) = Body j
      /\ has_len j = true
      /\ match j with
         | Py.VList ((_ :: _) as items) =>
             snd (append_items (parse_item symbol) items []) = true
             /\ exists t, last_time items = Some t
                  /\ completes srv symbol end_ms (S n) (t + 1) rest
         | _ =>
             completes srv symbol end_ms (S n)
               (Z.min end_ms (cur + window_ms - 1) + 1) rest
         end
  end.

(** The rows the loop keeps from the answer that ended it: those read
    before the entry, or the cursor, that raised. *)
Definition rows_of_response (symbol : string) (r : response)
    : list FundingRecord :=
  match r with
  | Body j => page_rows symbol j
  | Failed => []
  end.

End Hyperliquid.

(** ** Reading an ISO-8601 instant back *)

Module Iso8601.

(** Day number from 1970-01-01 of a proleptic Gregorian date. *)
Definition days_from_civil (y m d : Z) : Z :=
  let y := if m <=? 2 then y - 1 else y in
  let era := y / 400 in
  let yoe := y mod 400 in
  let doy := (153 * (if 2 <? m then m - 3 else m + 9) + 2) / 5 + d - 1 in
  let doe := yoe * 365 + yoe / 4 - yoe / 100 + doy in
  era * 146097 + doe - 719468.

(** Reads [n] decimal digits. *)
Fixpoint read_digits (n : nat) (acc : Z) (s : string) : option (Z * string) :=
  match n with
  | O => Some (acc, s)
  | S k =>
      match s with
      | String c r =>
          if Py.is_digit c then read_digits k (10 * acc + Py.digit_val c) r
          else None
      | EmptyString => None
      end
  end.

Definition expect (c : ascii) (s : string) : option string :=
  match s with
  | String c' r => if Ascii.eqb c c' then Some r else None
  | EmptyString => None
  end.

(** Reads [n] digits and then the separator [c]. *)
Definition field (n : nat) (c : ascii) (s : string) : option (Z * string) :=
  match read_digits n 0 s with
  | Some (v, r) => option_map (pair v) (expect c r)
  | None => None
  end.

(** Microseconds and the closing [Z]: either [Z] alone or a point, six
    digits and [Z]. *)
Definition fraction (s : string) : option Z :=
  match s with
  | String "Z" EmptyString => Some 0
  | String "." r =>
      match read_digits 6 0 r with
      | Some (us, String "Z" EmptyString) => Some us
      | _ => None
      end
  | _ => None
  end.

(** The instant written [YYYY-MM-DDTHH:MM:SS[.ffffff]Z], read as UTC, in
    whole milliseconds since the epoch. *)
Definition ms_of_iso (s : string) : option Z :=
  match field 4 "-" s with
  | Some (y, s1) =>
    match field 2 "-" s1 with
    | Some (mo, s2) =>
      match field 2 "T" s2 with
      | Some (d, s3) =>
        match field 2 ":" s3 with
        | Some (h, s4) =>
          match field 2 ":" s4 with
          | Some (mi, s5) =>
            match read_digits 2 0 s5 with
            | Some (sec, s6) =>
              match fraction s6 with
              | Some us =>
                  Some ((days_from_civil y mo d * 86400
                         + h * 3600 + mi * 60 + sec) * 1000 + us / 1000)
              | None => None
              end
            | None => None
            end
          | None => None
          end
        | None => None
        end
      | None => None
      end
    | None => None
    end
  | None => None
  end.

(** Checks used to settle the calendar computation on one 400-year era:
    [all_below n p] tests [p] on [0 .. n-1]; [doe_ok doe] replays
    [Clock.civil_from_days] on the day-of-era [doe] and asks
    [days_from_civil] to give it back. *)
Fixpoint all_from (n : nat) (z : Z) (p : Z -> bool) : bool :=
  match n with
  | O => true
  | S k => p z && all_from k (z + 1) p
  end.

Definition all_below (n : Z) (p : Z -> bool) : bool :=
  all_from (Z.to_nat n) 0 p.

Definition doe_ok (doe : Z) : bool :=
  let yoe := (doe - doe / 1460 + doe / 36524 - doe / 146096) / 365 in
  let doy := doe - (365 * yoe + yoe / 4 - yoe / 100) in
  let mp := (5 * doy + 2) / 153 in
  let d := doy - (153 * mp + 2) / 5 + 1 in
  let m := if mp <? 10 then mp + 3 else mp - 9 in
  (0 <=? yoe) && (yoe <=? 399) && (1 <=? m) && (m <=? 12)
  && (1 <=? d) && (d <=? 31)
  && (yoe * 365 + yoe / 4 - yoe / 100
      + ((153 * (if 2 <? m then m - 3 else m + 9) + 2) / 5 + d - 1) =? doe).

End Iso8601.

(** The fields [isoformat] prints are those of a valid date and time. *)
Definition well_formed (dt : Clock.datetime) : Prop :=
  1 <= Clock.year dt <= 9999 /\ 1 <= Clock.month dt <= 12
  /\ 1 <= Clock.day dt <= 31 /\ 0 <= Clock.hour dt < 24
  /\ 0 <= Clock.minute dt < 60 /\ 0 <= Clock.second dt < 60
  /\ 0 <= Clock.microsecond dt < 1000000.

(** Milliseconds since the epoch of the instant [dt] names in UTC. *)
Definition instant_ms (dt : Clock.datetime) : Z :=
  (Iso8601.days_from_civil (Clock.year dt) (Clock.month dt) (Clock.day dt) * 86400
   + Clock.hour dt * 3600 + Clock.minute dt * 60 + Clock.second dt) * 1000
  + Clock.microsecond dt / 1000.

(** ** Endpoints used in examples *)

Module Scenario.

Import Py.

(** 2024-12-16T00:00:00Z, the start of the window hardcoded in [main]
    for a host whose local time is UTC. *)
Definition start_ms : Z := 1734307200000.

Definition eight_hours : Z := 28800000.

(** [n] funding times, eight hours apart, from [first]. *)
Definition every_8h (first : Z) (n : nat) : list Z :=
  map (fun i => first + Z.of_nat i * eight_hours) (seq 0 n).

Definition in_window (lo hi t : Z) : bool := (lo <=? t) && (t <=? hi).

Local Open Scope string_scope.

(** Decimal digits of a natural number, the way the endpoints print
    their timestamps. *)
Fixpoint dec_digits (fuel : nat) (z : Z) (acc : string) : string :=
  match fuel with
  | O => acc
  | S k =>
      let acc' := String (Clock.digit_char z) acc in
      if Z.ltb z 10 then acc' else dec_digits k (Z.div z 10) acc'
  end.

Definition dec (z : Z) : string := dec_digits 40 z "".

(** *** Binance *)

Definition binance_entry (symbol : string) (t : Z) : value :=
  VDict [("symbol", VStr symbol); ("fundingTime", VInt t);
         ("fundingRate", VStr "0.00010000")].

(** An endpoint holding the history [times] (ascending): it answers with
    the oldest entries of the requested window, up to the limit. *)
Definition binance_history (times : list Z)
    : nat -> Binance.request -> response :=
  fun _ req =>
    Body (VList (map (binance_entry (Binance.req_symbol req))
                   (firstn (Z.to_nat (Binance.req_limit req))
                      (filter (in_window (Binance.startTime req)
                                 (Binance.endTime req)) times)))).

(** An entry without [fundingTime]. *)
Definition binance_entry_no_time : value :=
  VDict [("symbol", VStr "BTCUSDT"); ("fundingRate", VStr "0.00010000")].

(** *** Bybit *)

Definition bybit_entry (symbol : string) (t : Z) : value :=
  VDict [("symbol", VStr symbol); ("fundingRate", VStr "0.0001");
         ("fundingRateTimestamp", VStr (dec t))].

Definition bybit_body (items : list value) : value :=
  VDict [("retCode", VInt 0); ("retMsg", VStr "OK");
         ("result", VDict [("category", VStr "linear"); ("list", VList items)])].

(** An endpoint holding the history [times] (ascending): it answers with
    the newest entries of the requested window, newest first, up to the
    limit. *)
Definition bybit_history (times : list Z) : nat -> Bybit.request -> response :=
  fun _ req =>
    Body (bybit_body
            (map (bybit_entry (Bybit.req_symbol req))
               (firstn (Z.to_nat (Bybit.req_limit req))
                  (rev (filter (in_window (Bybit.startTime req)
                                  (Bybit.endTime req)) times))))).

(** No ISO string is accepted: the fallback always fails. *)
Definition no_iso : string -> option Z := fun _ => None.

(** *** Hyperliquid *)

Definition hyper_entry (coin : string) (t : Z) (rate : value) : value :=
  VDict [("coin", VStr coin); ("fundingRate", rate);
         ("premium", VStr "0.0"); ("time", VInt t)].

(** An endpoint holding the entries [history] (time and rate): it
    answers with those of the requested window, in order. *)
Definition hyper_history (history : list (Z * value))
    : nat -> Hyperliquid.request -> response :=
  fun _ req =>
    Body (VList (map (fun e => hyper_entry (Hyperliquid.coin req) (fst e) (snd e))
                   (filter (fun e => in_window (Hyperliquid.startTime req)
                                       (Hyperliquid.endTime req) (fst e))
                      history))).

(** An endpoint answering by the rank of the request, then failing. *)
Definition scripted {R : Type} (answers : list response) : nat -> R -> response :=
  fun n _ => nth n answers Failed.

(** *** A page, then a failure *)

Definition end_ms : Z := start_ms + 400 * 86400000.

Definition binance_page1000 : list value :=
  map (binance_entry "BTCUSDT") (every_8h start_ms 1000).

Definition binance_then_failed : nat -> Binance.request -> response :=
  scripted [Body (VList binance_page1000)].

Definition bybit_page200 : list value :=
  map (bybit_entry "BTCUSDT") (rev (every_8h start_ms 200)).

Definition bybit_then_failed : nat -> Bybit.request -> response :=
  scripted [Body (bybit_body bybit_page200)].

Definition hyper_page : list value :=
  [hyper_entry "ETH" start_ms (VStr "0.0000125");
   hyper_entry "ETH" (start_ms + 3600000) (VStr "0.0000125")].

Definition hyper_then_failed : nat -> Hyperliquid.request -> response :=
  scripted [Body (VList hyper_page)].

(** The same entry served twice in one page, then a failure. *)
Definition hyper_twice : nat -> Hyperliquid.request -> response :=
  scripted [Body (VList [hyper_entry "ETH" start_ms (VStr "0.0000125");
                         hyper_entry "ETH" start_ms (VStr "0.0000125")])].

(** A funding rate that is a list, then a failure. *)
Definition hyper_list_rate : nat -> Hyperliquid.request -> response :=
  scripted [Body (VList [hyper_entry "ETH" start_ms (VList [VStr "0.0000125"])])].

(** *** Empty answers *)

(** An empty list for the first window, entries for the second. *)
Definition hyper_empty_then_page : nat -> Hyperliquid.request -> response :=
  scripted
    [Body (VList []);
     Body (VList [hyper_entry "ETH" (start_ms + Hyperliquid.window_ms)
                    (VStr "0.0000125")])].

Definition hyper_always_empty : nat -> Hyperliquid.request -> response :=
  fun _ _ => Body (VList []).

Definition binance_page_then_empty : nat -> Binance.request -> response :=
  scripted [Body (VList binance_page1000); Body (VList [])].

(** A body without the [result] object. *)
Definition bybit_page_then_empty : nat -> Bybit.request -> response :=
  scripted [Body (bybit_body bybit_page200);
            Body (VDict [("retCode", VInt 10001); ("retMsg", VStr "error")])].

(** *** 1040 funding times at Binance, 605 at Bybit *)

Definition binance_1040 : nat -> Binance.request -> response :=
  binance_history (every_8h start_ms 1040).

Definition binance_page40 : list value :=
  map (binance_entry "BTCUSDT") (every_8h (start_ms + 1000 * eight_hours) 40).

Definition bybit_605 : nat -> Bybit.request -> response :=
  bybit_history (every_8h start_ms 605).

(** The four pages of that history, newest first: entries 405..604,
    205..404, 5..204 and 0..4. *)
Definition bybit_newest (first count : Z) : list value :=
  map (bybit_entry "BTCUSDT")
    (rev (every_8h (start_ms + first * eight_hours) (Z.to_nat count))).

(** *** Endpoints that answer within any window *)

(** Two entries with one funding time and two rates. *)
Definition hyper_two_rates : nat -> Hyperliquid.request -> response :=
  hyper_history [(start_ms + 1000, VStr "0.0000125");
                 (start_ms + 1000, VStr "0.0000250")].

Definition short_end : Z := start_ms + 2.

(** One entry per answer, at the start of the requested window. *)
Definition binance_echo : nat -> Binance.request -> response :=
  fun _ q =>
    Body (VList (if Z.leb (Binance.startTime q) (Binance.endTime q)
                 then [binance_entry (Binance.req_symbol q) (Binance.startTime q)]
                 else [])).

(** One entry per answer, at the end of the requested window, the time
    given as a number. *)
Definition bybit_echo : nat -> Bybit.request -> response :=
  fun _ q =>
    Body (bybit_body
            (if Z.leb (10 ^ 12) (Bybit.startTime q)
                && Z.leb (Bybit.startTime q) (Bybit.endTime q)
             then [VDict [("symbol", VStr (Bybit.req_symbol q));
                          ("fundingRate", VStr "0.0001");
                          ("fundingRateTimestamp", VInt (Bybit.endTime q))]]
             else [])).

Definition hyper_echo : nat -> Hyperliquid.request -> response :=
  fun _ q =>
    Body (VList (if Z.leb (10 ^ 12) (Hyperliquid.startTime q)
                    && Z.leb (Hyperliquid.startTime q) (Hyperliquid.endTime q)
                 then [hyper_entry (Hyperliquid.coin q)
                         (Hyperliquid.startTime q) (VStr "0.0000125")]
                 else [])).

(** *** Timestamps in seconds and as text *)

Definition seconds : Z := 1700000000.

Definition iso_text : string := "2023-11-14T22:13:20Z".

(** Reads the text [fromisoformat] is given, a UTC instant with the
    offset written out. *)
Definition utc_iso : string -> option Z :=
  fun s => Iso8601.ms_of_iso (replace "+00:00" "Z" s).

Definition binance_seconds : nat -> Binance.request -> response :=
  scripted [Body (VList [binance_entry "BTCUSDT" seconds])].

Definition bybit_timed (ft : value) : value :=
  VDict [("symbol", VStr "BTCUSDT"); ("fundingRate", VStr "0.0001");
         ("fundingRateTimestamp", ft)].

Definition hyper_text : nat -> Hyperliquid.request -> response :=
  scripted [Body (VList [VDict [("coin", VStr "ETH");
                                ("fundingRate", VStr "0.0000125");
                                ("premium", VStr "0.0");
                                ("time", VStr iso_text)]])].

(** The same entry in the answers to two requests. *)
Definition hyper_repeat : nat -> Hyperliquid.request -> response :=
  scripted [Body (VList [hyper_entry "ETH" start_ms (VStr "0.0000125")]);
            Body (VList [hyper_entry "ETH" start_ms (VStr "0.0000125")])].

(** Two funding times in the first 30 days and one in the sixth week,
    asked for over 40 days. *)
Definition hyper_six_weeks : nat -> Hyperliquid.request -> response :=
  hyper_history [(start_ms, VStr "0.0000125");
                 (start_ms + 3600000, VStr "0.0000125");
                 (start_ms + 35 * 86400000, VStr "0.0000250")].

Definition end_40d : Z := start_ms + 40 * 86400000.

(** *** Entries without a timestamp *)

Definition bybit_entry_no_time : value :=
  VDict [("symbol", VStr "BTCUSDT"); ("fundingRate", VStr "0.0001")].

Definition hyper_entry_no_time : value :=
  VDict [("coin", VStr "ETH"); ("fundingRate", VStr "0.0000125")].

(** Three entries, the second without [fundingTime]. *)
Definition binance_gap : nat -> Binance.request -> response :=
  scripted [Body (VList [binance_entry "BTCUSDT" start_ms;
                         binance_entry_no_time;
                         binance_entry "BTCUSDT" (start_ms + eight_hours)])].

(** A full page whose oldest entry has no timestamp, then an older
    entry. *)
Definition bybit_gap_last : nat -> Bybit.request -> response :=
  scripted [Body (bybit_body (bybit_newest 2 199 ++ [bybit_entry_no_time]));
            Body (bybit_body (bybit_newest 0 1))].

(** A full page with an entry without timestamp in it, then an older
    entry. *)
Definition bybit_gap : nat -> Bybit.request -> response :=
  scripted [Body (bybit_body (bybit_newest 101 99 ++ bybit_entry_no_time
                              :: bybit_newest 1 100));
            Body (bybit_body (bybit_newest 0 1))].

Definition hyper_gap : nat -> Hyperliquid.request -> response :=
  scripted [Body (VList [hyper_entry "ETH" start_ms (VStr "0.0000125");
                         hyper_entry_no_time;
                         hyper_entry "ETH" (start_ms + 3600000)
                           (VStr "0.0000125")]);
            Body (VList [hyper_entry "ETH" (start_ms + 7200000)
                           (VStr "0.0000125")])].

End Scenario.

(** ** Symbol files *)

Module Symbols.

Local Open Scope N_scope.

(** [c.isspace()] for a code point below 256 *)
Definition isspace (c : ascii) : bool :=
  let n := N_of_ascii c in
  ((9 <=? n) && (n <=? 13)) || ((28 <=? n) && (n <=? 32))
  || (n =? 133) || (n =? 160).

(** [c in '`\n\r '] *)
Definition fence_char (c : ascii) : bool :=
  let n := N_of_ascii c in
  (n =? 96) || (n =? 10) || (n =? 13) || (n =? 32).

Local Close Scope N_scope.

Fixpoint lstrip (drop : ascii -> bool) (s : string) : string :=
  match s with
  | String c r => if drop c then lstrip drop r else s
  | EmptyString => EmptyString
  end.

Fixpoint rstrip (drop : ascii -> bool) (s : string) : string :=
  match s with
  | EmptyString => EmptyString
  | String c r =>
      match rstrip drop r with
      | EmptyString => if drop c then EmptyString else String c EmptyString
      | r' => String c r'
      end
  end.

(** [s.strip()] with [drop := isspace], [s.strip(chars)] with [drop] the
    membership in [chars]. *)
Definition strip (drop : ascii -> bool) (s : string) : string :=
  rstrip drop (lstrip drop s).

(** Every character of [s] satisfies [p]. *)
Fixpoint all_chars (p : ascii -> bool) (s : string) : bool :=
  match s with
  | EmptyString => true
  | String c r => p c && all_chars p r
  end.

(** What one line of a symbol file adds to [syms]: nothing when it is
    blank. *)
Definition clean_line (line : string) : option string :=
  match strip isspace line with
  | EmptyString => None
  | s => Some (strip fence_char s)
  end.

Fixpoint clean_lines (lines : list string) : list string :=
  match lines with
  | [] => []
  | line :: rest =>
      match clean_line line with
      | None => clean_lines rest
      | Some s => s :: clean_lines rest
      end
  end.

(** [list(dict.fromkeys(syms))]: the first occurrence of each string, in
    order. *)
Definition fromkeys (syms : list string) : list string :=
  fold_left (fun d s => if existsb (String.eqb s) d then d else d ++ [s])
    syms [].

(** [a < b] on strings: code points, left to right. *)
Definition str_lt (a b : string) : bool :=
  match String_as_OT.compare a b with Lt => true | _ => false end.

(** [sorted] is stable: an element goes before the first one greater
    than it. *)
Fixpoint insert (x : string) (l : list string) : list string :=
  match l with
  | [] => [x]
  | y :: r => if str_lt x y then x :: l else y :: insert x r
  end.

Definition sorted (l : list string) : list string :=
  fold_left (fun acc x => insert x acc) l [].

(** [read_symbols_from_files]: a file is given by its lines, [None] when
    [os.path.isfile] is false. *)
Definition read_symbols_from_files (files : list (option (list string)))
    : list string :=
  sorted (fromkeys
            (flat_map (fun f => match f with
                                | None => []
                                | Some lines => clean_lines lines
                                end) files)).

End Symbols.

(** ** File names *)

Module Files.

Local Open Scope N_scope.

(** [c.isalnum()] for a code point below 256 *)
Definition isalnum (c : ascii) : bool :=
  let n := N_of_ascii c in
  ((48 <=? n) && (n <=? 57)) || ((65 <=? n) && (n <=? 90))
  || ((97 <=? n) && (n <=? 122)) || (n =? 170)
  || ((178 <=? n) && (n <=? 179)) || (n =? 181)
  || ((185 <=? n) && (n <=? 186)) || ((188 <=? n) && (n <=? 190))
  || ((192 <=? n) && (n <=? 214)) || ((216 <=? n) && (n <=? 246))
  || ((248 <=? n) && (n <=? 255)).

(** [c.isalnum() or c in ('-', '_')] *)
Definition kept (c : ascii) : bool :=
  isalnum c || (N_of_ascii c =? 45) || (N_of_ascii c =? 95).

Local Close Scope N_scope.

Fixpoint sanitize_filename (name : string) : string :=
  match name with
  | EmptyString => EmptyString
  | String c r =>
      String (if kept c then c else "_"%char) (sanitize_filename r)
  end.

(** [f"{exch}_funding_{sanitize_filename(sym)}.csv"] *)
Definition file_name (exch sym : string) : string :=
  (exch ++ "_funding_" ++ sanitize_filename sym ++ ".csv")%string.

(** The files left by the writing loop of a [main]: each group is
    written to its path, a later group replacing an earlier one with the
    same path. *)
Fixpoint write_all (exch : string)
    (groups : list (string * list FundingRecord))
    (files : list (string * list FundingRecord))
    : list (string * list FundingRecord) :=
  match groups with
  | [] => files
  | (sym, rows) :: rest =>
      let path := file_name exch sym in
      write_all exch rest
        ((path, rows)
         :: filter (fun f => negb (String.eqb (fst f) path)) files)
  end.

(** The rows in the file [path], if it was written. *)
Definition content (path : string)
    (files : list (string * list FundingRecord))
    : option (list FundingRecord) :=
  match find (fun f => String.eqb (fst f) path) files with
  | Some f => Some (snd f)
  | None => None
  end.

End Files.

(** ** Endpoints that repeat themselves *)

Module Endpoints.

(** The same full page, whatever is asked. *)
Definition binance_stuck : nat -> Binance.request -> response :=
  fun _ _ => Body (Py.VList Scenario.binance_page1000).

Definition bybit_stuck : nat -> Bybit.request -> response :=
  fun _ _ => Body (Scenario.bybit_body Scenario.bybit_page200).

Definition hyper_stuck : nat -> Hyperliquid.request -> response :=
  fun _ _ => Body (Py.VList Scenario.hyper_page).

End Endpoints.

(** ** fetch_funding_rates.py: the lenient search for the entries *)

Module Extract.

Local Open Scope N_scope.

(** [c.lower()] for a code point below 256 *)
Definition lower (c : ascii) : ascii :=
  let n := N_of_ascii c in
  if ((65 <=? n) && (n <=? 90))
     || ((192 <=? n) && (n <=? 222) && negb (n =? 215))
  then ascii_of_N (n + 32) else c.

Local Close Scope N_scope.

(** [k.lower().replace('-', '_')] *)
Fixpoint normalize (k : string) : string :=
  match k with
  | EmptyString => EmptyString
  | String c r =>
      let c' := lower c in
      String (if Ascii.eqb c' "-"%char then "_"%char else c') (normalize r)
  end.

Definition funding_key (k : string) : bool :=
  String.eqb (normalize k) "fundingrate"
  || String.eqb (normalize k) "funding_rate".

(** The test [walk] makes on a list: its first item is a dict and some
    dict among its items has a funding-rate key. *)
Definition is_candidate (x : list Py.value) : bool :=
  match x with
  | Py.VDict _ :: _ =>
      existsb (fun i => match i with
                        | Py.VDict kv => existsb (fun p => funding_key (fst p)) kv
                        | _ => false
                        end) x
  | _ => false
  end.

(** The first list [walk] appends to [candidates]. *)
Fixpoint walk (x : Py.value) : option (list Py.value) :=
  match x with
  | Py.VList l =>
      if is_candidate l then Some l
      else (fix first (l : list Py.value) : option (list Py.value) :=
              match l with
              | [] => None
              | y :: r =>
                  match walk y with
                  | Some c => Some c
                  | None => first r
                  end
              end) l
  | Py.VDict kv =>
      (fix first (kv : list (string * Py.value)) : option (list Py.value) :=
         match kv with
         | [] => None
         | (_, v) :: r =>
             match walk v with
             | Some c => Some c
             | None => first r
             end
         end) kv
  | _ => None
  end.

Definition try_extract_list_from_json (obj : Py.value) : list Py.value :=
  match walk obj with
  | Some c => c
  | None => []
  end.

(** [x] is [obj] or lies somewhere inside it. *)
Inductive inside (x : Py.value) : Py.value -> Prop :=
| inside_here : inside x x
| inside_list : forall l y, In y l -> inside x y -> inside x (Py.VList l)
| inside_dict : forall kv k v, In (k, v) kv -> inside x v ->
                               inside x (Py.VDict kv).

End Extract.

(** * Properties *)

(** ** Rounding *)

Section Rounding.

Local Open Scope Z_scope.

Lemma rne_bound (a b : Z) :
  0 < b -> - b <= 2 * (a - Clock.rne a b * b) <= b.
Proof.
  intros Hb. unfold Clock.rne.
  pose proof (Z.div_mod a b ltac:(lia)) as Hdm.
  pose proof (Z.mod_pos_bound a b Hb) as Hr.
  set (q := a / b) in *. set (r := a mod b) in *.
  destruct (2 * r <? b) eqn:H1; [apply Z.ltb_lt in H1; nia|].
  apply Z.ltb_ge in H1.
  destruct (b <? 2 * r) eqn:H2; [apply Z.ltb_lt in H2; nia|].
  apply Z.ltb_ge in H2.
  destruct (Z.even q); nia.
Qed.

Lemma rne_nearest (a b z : Z) :
  0 < b -> - b < 2 * (a - z * b) < b -> Clock.rne a b = z.
Proof.
  intros Hb Hz. unfold Clock.rne.
  pose proof (Z.div_mod a b ltac:(lia)) as Hdm.
  pose proof (Z.mod_pos_bound a b Hb) as Hr.
  set (q := a / b) in *. set (r := a mod b) in *.
  assert (Hq : q = z \/ q = z - 1).
  { assert (q - z < 1) by nia. assert (- 2 < q - z) by nia. lia. }
  destruct (2 * r <? b) eqn:H1.
  - apply Z.ltb_lt in H1. destruct Hq; [assumption | nia].
  - apply Z.ltb_ge in H1.
    destruct (b <? 2 * r) eqn:H2.
    + apply Z.ltb_lt in H2. destruct Hq; nia.
    + apply Z.ltb_ge in H2. destruct Hq; nia.
Qed.

Lemma rne_unit (a : Z) : Clock.rne a 1 = a.
Proof. apply rne_nearest; lia. Qed.

(** The exponent chosen by [round53] for a quotient below [2^j]. *)
Lemma round53_below (n d j : Z) :
  0 < n -> 0 < d -> 0 <= j <= 52 -> n < d * 2 ^ j ->
  exists e, e <= j - 53 /\
    Clock.round53 n d = (Clock.rne (n * 2 ^ (- e)) d, e).
Proof.
  intros Hn Hd Hj Hlt. unfold Clock.round53.
  replace (n =? 0) with false by (symmetry; apply Z.eqb_neq; lia).
  rewrite (Z.abs_eq n) by lia.
  pose proof (Z.log2_spec n Hn) as [Ha1 Ha2].
  pose proof (Z.log2_spec d Hd) as [Hb1 Hb2].
  pose proof (Z.log2_nonneg n) as Ha0. pose proof (Z.log2_nonneg d) as Hb0.
  set (a := Z.log2 n) in *. set (b := Z.log2 d) in *.
  assert (Hk0 : a - b <= j).
  { destruct (Z.le_gt_cases (a - b) j) as [|Hgt]; [assumption|exfalso].
    assert (2 ^ (b + 1 + j) <= 2 ^ a) by (apply Z.pow_le_mono_r; lia).
    rewrite Z.pow_add_r in H by lia.
    assert (0 < 2 ^ j) by (apply Z.pow_pos_nonneg; lia).
    nia. }
  set (k := if Clock.ge_pow2 n d (a - b) then a - b else a - b - 1).
  assert (Hk : k <= j - 1).
  { unfold k. destruct (Clock.ge_pow2 n d (a - b)) eqn:Hge; [|lia].
    destruct (Z.eq_dec (a - b) j) as [Heq|]; [exfalso|lia].
    unfold Clock.ge_pow2 in Hge. rewrite Heq in Hge.
    replace (0 <=? j) with true in Hge by (symmetry; apply Z.leb_le; lia).
    apply Z.leb_le in Hge. lia. }
  exists (k - 52). split; [lia|].
  replace (0 <=? k - 52) with false by (symmetry; apply Z.leb_gt; lia).
  reflexivity.
Qed.

End Rounding.

(** ** [ms / 1000.0] and its split into seconds and microseconds *)

Section Timeval.

Local Open Scope Z_scope.

Lemma pow2_pos (e : Z) : 0 <= e -> 0 < 2 ^ e.
Proof. intros; apply Z.pow_pos_nonneg; lia. Qed.

Lemma pow2_ge (a e : Z) : 0 <= a <= e -> 2 ^ a <= 2 ^ e.
Proof. intros; apply Z.pow_le_mono_r; lia. Qed.

(** An [int] below [2^52] converts to a float without rounding. *)
Lemma float_of_int_exact (n : Z) :
  0 < n < 2 ^ 52 ->
  exists e, e < 0 /\ Clock.float_of_int n = Some (n * 2 ^ (- e), e).
Proof.
  intros Hn. unfold Clock.float_of_int.
  destruct (round53_below (n := n) (d := 1) (j := 52)) as (e & He & Hr);
    try lia.
  rewrite Hr, rne_unit. exists e. split; [lia|].
  rewrite (Z.pow_neg_r 2 e) by lia. rewrite Z.mul_0_r.
  replace (2 ^ 1024 <=? 0) with false; [reflexivity|].
  symmetry; apply Z.leb_gt. apply pow2_pos; lia.
Qed.

(** The float [m * 2^e] nearest to [t / 1000] lies within [1 / 2^21] of
    it when [t / 1000 < 2^33]. *)
Lemma div1000_close (t e0 : Z) :
  0 < t < 2 ^ 33 * 1000 -> e0 < 0 ->
  exists m e, e <= - 20 /\
    Clock.div1000 (t * 2 ^ (- e0), e0) = (m, e) /\
    - 500 <= t * 2 ^ (- e) - 1000 * m <= 500.
Proof.
  intros Ht He0. unfold Clock.div1000.
  replace (0 <=? e0) with false by (symmetry; apply Z.leb_gt; lia).
  pose proof (pow2_pos (e := - e0) ltac:(lia)) as HP0.
  set (P0 := 2 ^ (- e0)) in *.
  assert (Hn1 : 0 < t * P0) by nia.
  assert (Hn2 : t * P0 < 1000 * P0 * 2 ^ 33)
    by (change (2 ^ 33) with 8589934592 in *; nia).
  destruct (round53_below (d := 1000 * P0) (j := 33) Hn1 ltac:(lia) ltac:(lia) Hn2)
    as (e & He & Hr).
  exists (Clock.rne (t * P0 * 2 ^ (- e)) (1000 * P0)), e.
  split; [lia|]. split; [exact Hr|].
  pose proof (rne_bound (t * P0 * 2 ^ (- e)) (b := 1000 * P0) ltac:(lia)) as Hb.
  set (m := Clock.rne (t * P0 * 2 ^ (- e)) (1000 * P0)) in *.
  set (P := 2 ^ (- e)) in *.
  nia.
Qed.

(** Seconds and microseconds computed for [t] milliseconds are exact up
    to the year 2242. *)
Lemma timeval_of_ms (t : Z) :
  0 <= t < 2 ^ 33 * 1000 ->
  exists x, Clock.ms_to_seconds t = Some x /\
    Clock.timeval_of_float x = (t / 1000, t mod 1000 * 1000).
Proof.
  intros Ht.
  destruct (Z.eq_dec t 0) as [->|Hne].
  { eexists; split; reflexivity. }
  assert (Ht' : 0 < t < 2 ^ 33 * 1000) by lia.
  assert (Ht52 : 0 < t < 2 ^ 52) by (change (2 ^ 52) with (2 ^ 33 * 524288); lia).
  destruct (float_of_int_exact Ht52) as (e0 & He0 & Hf).
  destruct (div1000_close Ht' He0) as (m & e & He & Hd & Hm).
  unfold Clock.ms_to_seconds. rewrite Hf. cbn [option_map]. rewrite Hd.
  eexists; split; [reflexivity|].
  pose proof (Z.div_mod t 1000 ltac:(lia)) as Hdm.
  pose proof (Z.mod_pos_bound t 1000 ltac:(lia)) as Hk.
  set (s := t / 1000) in *. set (k := t mod 1000) in *.
  assert (HP : 2 ^ 20 <= 2 ^ (- e)) by (apply pow2_ge; lia).
  set (P := 2 ^ (- e)) in *. change (2 ^ 20) with 1048576 in HP.
  assert (Hs : m / P = s).
  { symmetry. apply (Z.div_unique_pos m P s (m - s * P)); nia. }
  unfold Clock.timeval_of_float, Clock.modf, Py.trunc_float.
  replace (0 <=? e) with false by (symmetry; apply Z.leb_gt; lia).
  fold P. rewrite Z.quot_div_nonneg by nia. rewrite Hs.
  set (fm := m - s * P).
  assert (Hfm : - 500 <= k * P - 1000 * fm <= 500) by (unfold fm; nia).
  assert (Hfm0 : 0 <= fm < P) by nia.
  assert (Hus : Clock.round_half_even (Clock.mul1e6 (fm, e)) = k * 1000).
  { unfold Clock.mul1e6.
    replace (0 <=? e) with false by (symmetry; apply Z.leb_gt; lia).
    fold P.
    destruct (Z.eq_dec fm 0) as [Hz|Hnz].
    - rewrite Hz. simpl. nia.
    - assert (Hn1 : 0 < fm * 1000000) by lia.
      assert (Hn2 : fm * 1000000 < P * 2 ^ 20)
        by (change (2 ^ 20) with 1048576; lia).
      destruct (round53_below (d := P) (j := 20) Hn1 ltac:(lia) ltac:(lia) Hn2)
        as (e' & He' & Hr').
      rewrite Hr'. unfold Clock.round_half_even.
      replace (0 <=? e') with false by (symmetry; apply Z.leb_gt; lia).
      assert (HP' : 2 ^ 33 <= 2 ^ (- e')) by (apply pow2_ge; lia).
      set (P' := 2 ^ (- e')) in *. change (2 ^ 33) with 8589934592 in HP'.
      pose proof (rne_bound (fm * 1000000 * P') (b := P) ltac:(lia)) as Hb.
      set (m' := Clock.rne (fm * 1000000 * P') P) in *.
      apply rne_nearest; [lia|].
      (* (m' - 1000 k P') P = (m' P - 10^6 fm P') - 1000 P' (k P - 1000 fm) *)
      assert (Hid : (m' - k * 1000 * P') * P
                    = (m' * P - fm * 1000000 * P') - 1000 * P' * (k * P - 1000 * fm))
        by ring.
      assert (Hup : 2 * ((m' - k * 1000 * P') * P) <= P + 1000000 * P') by nia.
      assert (Hlo : - (P + 1000000 * P') <= 2 * ((m' - k * 1000 * P') * P)) by nia.
      assert (Hgap : P + 1000000 * P' < P' * P) by nia.
      split; nia. }
  rewrite Hus.
  replace (1000000 <=? k * 1000) with false by (symmetry; apply Z.leb_gt; lia).
  replace (k * 1000 <? 0) with false by (symmetry; apply Z.ltb_ge; lia).
  reflexivity.
Qed.

End Timeval.

(** ** The calendar and the rendering, read back *)

Section Calendar.

Local Open Scope Z_scope.

Lemma all_from_spec (n : nat) (p : Z -> bool) :
  forall z, Iso8601.all_from n z p = true ->
  forall x, z <= x < z + Z.of_nat n -> p x = true.
Proof.
  induction n as [|k IH]; intros z H x Hx; [lia|].
  simpl in H. apply andb_true_iff in H as [H1 H2].
  destruct (Z.eq_dec x z) as [->|]; [assumption|].
  apply (IH (z + 1)); [assumption|lia].
Qed.

Lemma all_below_spec (n : Z) (p : Z -> bool) :
  Iso8601.all_below n p = true ->
  forall z, 0 <= z < n -> p z = true.
Proof.
  intros H z Hz. apply (all_from_spec _ _ H). lia.
Qed.

Lemma era_checked : Iso8601.all_below 146097 Iso8601.doe_ok = true.
Proof. vm_compute. reflexivity. Qed.

(** [days_from_civil] inverts [civil_from_days] on every day number. *)
Lemma days_from_civil_from_days (z : Z) :
  let '(y, m, d) := Clock.civil_from_days z in
  Iso8601.days_from_civil y m d = z /\ 1 <= m <= 12 /\ 1 <= d <= 31.
Proof.
  unfold Clock.civil_from_days. cbv zeta.
  pose proof (Z.div_mod (z + 719468) 146097 ltac:(lia)) as Hdm.
  pose proof (Z.mod_pos_bound (z + 719468) 146097 ltac:(lia)) as Hdoe.
  set (era := (z + 719468) / 146097) in *.
  set (doe := (z + 719468) mod 146097) in *.
  pose proof (all_below_spec _ era_checked (z := doe) ltac:(lia)) as Hok.
  unfold Iso8601.doe_ok in Hok. cbv zeta in Hok.
  set (yoe := (doe - doe / 1460 + doe / 36524 - doe / 146096) / 365) in *.
  set (doy := doe - (365 * yoe + yoe / 4 - yoe / 100)) in *.
  set (mp := (5 * doy + 2) / 153) in *.
  set (d := doy - (153 * mp + 2) / 5 + 1) in *.
  set (m := if mp <? 10 then mp + 3 else mp - 9) in *.
  repeat (apply andb_true_iff in Hok as [Hok ?]).
  repeat match goal with
         | H : (_ <=? _) = true |- _ => apply Z.leb_le in H
         | H : (_ =? _) = true |- _ => apply Z.eqb_eq in H
         end.
  split; [|lia].
  unfold Iso8601.days_from_civil. cbv zeta.
  assert (Hy : (if m <=? 2 then yoe + era * 400 + (if m <=? 2 then 1 else 0) - 1
                else yoe + era * 400 + (if m <=? 2 then 1 else 0))
               = yoe + era * 400) by (destruct (m <=? 2); lia).
  rewrite Hy.
  assert (He : (yoe + era * 400) / 400 = era).
  { symmetry. apply (Z.div_unique_pos _ 400 era yoe); lia. }
  assert (Hm : (yoe + era * 400) mod 400 = yoe).
  { symmetry. apply (Z.mod_unique_pos _ 400 era yoe); lia. }
  rewrite He, Hm. lia.
Qed.

(** Years reached before 2^33 seconds stay within [datetime]'s range. *)
Lemma civil_year_range (z : Z) :
  0 <= z < 100000 ->
  let '(y, _, _) := Clock.civil_from_days z in 1 <= y <= 9999.
Proof.
  intros Hz. unfold Clock.civil_from_days. cbv zeta.
  pose proof (Z.div_mod (z + 719468) 146097 ltac:(lia)) as Hdm.
  pose proof (Z.mod_pos_bound (z + 719468) 146097 ltac:(lia)) as Hdoe.
  set (era := (z + 719468) / 146097) in *.
  set (doe := (z + 719468) mod 146097) in *.
  pose proof (all_below_spec _ era_checked (z := doe) ltac:(lia)) as Hok.
  unfold Iso8601.doe_ok in Hok. cbv zeta in Hok.
  set (yoe := (doe - doe / 1460 + doe / 36524 - doe / 146096) / 365) in *.
  repeat (apply andb_true_iff in Hok as [Hok ?]).
  repeat match goal with
         | H : (_ <=? _) = true |- _ => apply Z.leb_le in H
         end.
  assert (4 <= era <= 5) by lia.
  match goal with |- context [if ?c then 1 else 0] => destruct c end; lia.
Qed.

Lemma digit_char_digit (n : Z) :
  Py.is_digit (Clock.digit_char n) = true
  /\ Py.digit_val (Clock.digit_char n) = n mod 10.
Proof.
  pose proof (Z.mod_pos_bound n 10 ltac:(lia)) as H.
  unfold Clock.digit_char.
  assert (Hc : n mod 10 = 0 \/ n mod 10 = 1 \/ n mod 10 = 2 \/ n mod 10 = 3
               \/ n mod 10 = 4 \/ n mod 10 = 5 \/ n mod 10 = 6
               \/ n mod 10 = 7 \/ n mod 10 = 8 \/ n mod 10 = 9) by lia.
  repeat (destruct Hc as [Hc|Hc]; [rewrite Hc; split; reflexivity|]).
  rewrite Hc; split; reflexivity.
Qed.

Lemma read_digit_char (k : nat) (acc n : Z) (r : string) :
  Iso8601.read_digits (S k) acc (String (Clock.digit_char n) r)
  = Iso8601.read_digits k (10 * acc + n mod 10) r.
Proof.
  destruct (digit_char_digit n) as [H1 H2]. simpl. rewrite H1, H2. reflexivity.
Qed.

Lemma read_pad2 (k : nat) (acc n : Z) (r : string) :
  0 <= n < 100 ->
  Iso8601.read_digits (S (S k)) acc (Clock.pad2 n ++ r)
  = Iso8601.read_digits k (100 * acc + n) r.
Proof.
  intros Hn. unfold Clock.pad2. cbn [append].
  rewrite !read_digit_char. f_equal.
  pose proof (Z.div_mod n 10 ltac:(lia)).
  rewrite (Z.mod_small (n / 10) 10) by (split; [apply Z.div_pos|apply Z.div_lt_upper_bound]; lia).
  lia.
Qed.

Lemma append_assoc (a b c : string) : ((a ++ b) ++ c = a ++ (b ++ c))%string.
Proof. induction a as [|x a IH]; simpl; [reflexivity|now rewrite IH]. Qed.

Lemma read_pad4 (k : nat) (acc n : Z) (r : string) :
  0 <= n < 10000 ->
  Iso8601.read_digits (S (S (S (S k)))) acc (Clock.pad4 n ++ r)
  = Iso8601.read_digits k (10000 * acc + n) r.
Proof.
  intros Hn. unfold Clock.pad4. rewrite append_assoc.
  pose proof (Z.div_mod n 100 ltac:(lia)).
  pose proof (Z.mod_pos_bound n 100 ltac:(lia)).
  rewrite read_pad2 by (split; [apply Z.div_pos|apply Z.div_lt_upper_bound]; lia).
  rewrite read_pad2 by lia. f_equal. lia.
Qed.

Lemma read_pad6 (acc n : Z) (r : string) :
  0 <= n < 1000000 ->
  Iso8601.read_digits 6 acc (Clock.pad6 n ++ r) = Some (1000000 * acc + n, r).
Proof.
  intros Hn. unfold Clock.pad6. rewrite append_assoc.
  pose proof (Z.div_mod n 10000 ltac:(lia)).
  pose proof (Z.mod_pos_bound n 10000 ltac:(lia)).
  rewrite read_pad2 by (split; [apply Z.div_pos|apply Z.div_lt_upper_bound]; lia).
  rewrite read_pad4 by lia.
  cbn [Iso8601.read_digits]. do 2 f_equal. lia.
Qed.

Lemma field_pad2 (c : ascii) (n : Z) (r : string) :
  0 <= n < 100 ->
  Iso8601.field 2 c (Clock.pad2 n ++ String c r) = Some (n, r).
Proof.
  intros Hn. unfold Iso8601.field. rewrite read_pad2 by assumption.
  cbn [Iso8601.read_digits Iso8601.expect]. rewrite Ascii.eqb_refl.
  cbn [option_map]. do 2 f_equal; lia.
Qed.

Lemma field_pad4 (c : ascii) (n : Z) (r : string) :
  0 <= n < 10000 ->
  Iso8601.field 4 c (Clock.pad4 n ++ String c r) = Some (n, r).
Proof.
  intros Hn. unfold Iso8601.field. rewrite read_pad4 by assumption.
  cbn [Iso8601.read_digits Iso8601.expect]. rewrite Ascii.eqb_refl.
  cbn [option_map]. do 2 f_equal; lia.
Qed.

End Calendar.

(** ** [iso_from_ms] up to the year 2242 *)

Section IsoRoundTrip.

Local Open Scope Z_scope.

Lemma utcfromtimestamp_ms (t : Z) :
  0 <= t < 2 ^ 33 * 1000 ->
  exists x dt, Clock.ms_to_seconds t = Some x
    /\ Clock.utcfromtimestamp x = Some dt
    /\ well_formed dt /\ instant_ms dt = t.
Proof.
  intros Ht. destruct (timeval_of_ms Ht) as (x & Hx & Htv).
  exists x. unfold Clock.utcfromtimestamp. rewrite Htv.
  pose proof (Z.div_mod t 1000 ltac:(lia)) as Hdm.
  pose proof (Z.mod_pos_bound t 1000 ltac:(lia)) as Hk.
  set (s := t / 1000) in *. set (k := t mod 1000) in *.
  assert (Hs : 0 <= s < 2 ^ 33) by (change (2 ^ 33) with 8589934592 in *; lia).
  change (2 ^ 33) with 8589934592 in Hs.
  pose proof (Z.div_mod s 86400 ltac:(lia)) as Hsd.
  pose proof (Z.mod_pos_bound s 86400 ltac:(lia)) as Hr.
  set (z := s / 86400) in *. set (r := s mod 86400) in *.
  assert (Hz : 0 <= z < 100000) by lia.
  pose proof (days_from_civil_from_days z) as Hciv.
  pose proof (civil_year_range Hz) as Hyr.
  destruct (Clock.civil_from_days z) as [[y m] d].
  destruct Hciv as (Hinv & Hm & Hd).
  replace ((1 <=? y) && (y <=? 9999)) with true
    by (symmetry; apply andb_true_iff; split; apply Z.leb_le; lia).
  eexists; split; [exact Hx|]. split; [reflexivity|].
  pose proof (Z.div_mod r 3600 ltac:(lia)).
  pose proof (Z.mod_pos_bound r 3600 ltac:(lia)).
  pose proof (Z.div_mod (r mod 3600) 60 ltac:(lia)).
  pose proof (Z.mod_pos_bound (r mod 3600) 60 ltac:(lia)).
  assert (Hss : r mod 60 = (r mod 3600) mod 60)
    by (clear; Z.div_mod_to_equations; lia).
  assert (Hh : 0 <= r / 3600 < 24) by (clear - Hr; Z.div_mod_to_equations; lia).
  assert (Hmi : 0 <= r mod 3600 / 60 < 60)
    by (clear; Z.div_mod_to_equations; lia).
  assert (Hse : 0 <= r mod 60 < 60) by (apply Z.mod_pos_bound; lia).
  split.
  - unfold well_formed; cbn [Clock.year Clock.month Clock.day Clock.hour
      Clock.minute Clock.second Clock.microsecond].
    repeat split; lia.
  - unfold instant_ms; cbn [Clock.year Clock.month Clock.day Clock.hour
      Clock.minute Clock.second Clock.microsecond].
    rewrite Hinv, Hss.
    replace (k * 1000 / 1000) with k by (symmetry; apply Z.div_mul; lia).
    lia.
Qed.

(** The string printed for [dt] reads back as the instant of [dt]. *)
Lemma ms_of_iso_isoformat (dt : Clock.datetime) :
  well_formed dt ->
  Iso8601.ms_of_iso (Clock.isoformat dt ++ "Z") = Some (instant_ms dt).
Proof.
  intros (Hy & Hm & Hd & Hh & Hmi & Hs & Hus).
  unfold Clock.isoformat, Iso8601.ms_of_iso, instant_ms.
  repeat rewrite append_assoc. cbn [append].
  rewrite field_pad4 by lia. rewrite !field_pad2 by lia.
  rewrite read_pad2 by lia. cbn [Iso8601.read_digits].
  destruct (Z.eqb_spec (Clock.microsecond dt) 0) as [Hz|Hnz].
  - rewrite Hz. cbn [append Iso8601.fraction]. reflexivity.
  - cbn [append Iso8601.fraction]. rewrite read_pad6 by lia.
    do 3 f_equal; lia.
Qed.

Lemma digit_char_not_plus (n : Z) : Clock.digit_char n <> "+"%char.
Proof.
  intros H. destruct (digit_char_digit n) as [Hd _].
  rewrite H in Hd. discriminate.
Qed.

Lemma replace_other (c : ascii) (r : string) :
  c <> "+"%char ->
  Py.replace_from "+00:00" "Z" 0 (String c r)
  = String c (Py.replace_from "+00:00" "Z" 0 r).
Proof.
  intros Hc. cbn [Py.replace_from String.prefix].
  destruct (ascii_dec "+" c) as [E|]; [congruence|reflexivity].
Qed.

(** Replacing the offset of an aware datetime gives the naive rendering
    followed by [Z]. *)
Lemma replace_offset (dt : Clock.datetime) :
  Py.replace "+00:00" "Z" (Clock.isoformat dt ++ "+00:00")
  = (Clock.isoformat dt ++ "Z")%string.
Proof.
  unfold Py.replace, Clock.isoformat, Clock.pad6, Clock.pad4, Clock.pad2.
  destruct (Clock.microsecond dt =? 0);
    repeat rewrite append_assoc; cbn [append];
    repeat (rewrite replace_other
              by (apply digit_char_not_plus || discriminate));
    reflexivity.
Qed.

Lemma iso_from_ms_aware_eq (ms : Z) :
  Clock.iso_from_ms_aware ms = Clock.iso_from_ms ms.
Proof.
  unfold Clock.iso_from_ms_aware, Clock.iso_from_ms.
  destruct (Clock.ms_to_seconds ms) as [x|]; [|reflexivity].
  destruct (Clock.utcfromtimestamp x) as [dt|]; [|reflexivity].
  now rewrite replace_offset.
Qed.

(** Both variants of [iso_from_ms] return, and the string reads back as
    the same millisecond. *)
Lemma iso_from_ms_reads_back (t : Z) :
  0 <= t < 2 ^ 33 * 1000 ->
  exists s, Clock.iso_from_ms t = Some s
    /\ Clock.iso_from_ms_aware t = Some s
    /\ Iso8601.ms_of_iso s = Some t.
Proof.
  intros Ht.
  destruct (utcfromtimestamp_ms Ht) as (x & dt & Hx & Hdt & Hwf & Hms).
  exists (Clock.isoformat dt ++ "Z")%string.
  assert (H : Clock.iso_from_ms t = Some (Clock.isoformat dt ++ "Z")%string).
  { unfold Clock.iso_from_ms. now rewrite Hx, Hdt. }
  split; [exact H|]. split; [now rewrite iso_from_ms_aware_eq|].
  rewrite ms_of_iso_isoformat by assumption. now rewrite Hms.
Qed.

End IsoRoundTrip.

(** ** The entry loop and the grouping *)

Section EntryLoop.

Variable parse : Py.value -> item_result.

Lemma append_items_acc (items : list Py.value) (acc : list FundingRecord) :
  append_items parse items acc
  = (acc ++ fst (append_items parse items []),
     snd (append_items parse items [])).
Proof.
  revert acc. induction items as [|item rest IH]; intros acc; simpl.
  - now rewrite app_nil_r.
  - destruct (parse item) as [| |r].
    + now rewrite app_nil_r.
    + apply IH.
    + rewrite (IH (acc ++ [r])), (IH [r]). simpl.
      now rewrite <- app_assoc.
Qed.

Lemma append_items_fst (items : list Py.value) (acc : list FundingRecord) :
  fst (append_items parse items acc) = acc ++ fst (append_items parse items []).
Proof. now rewrite append_items_acc. Qed.

Lemma append_items_snd (items : list Py.value) (acc : list FundingRecord) :
  snd (append_items parse items acc) = snd (append_items parse items []).
Proof. now rewrite append_items_acc. Qed.

Lemma append_items_cons (item : Py.value) (rest : list Py.value) :
  append_items parse (item :: rest) []
  = match parse item with
    | ItemRaise => ([], false)
    | ItemSkip => append_items parse rest []
    | ItemRow r => (r :: fst (append_items parse rest []),
                    snd (append_items parse rest []))
    end.
Proof.
  simpl. destruct (parse item) as [| |r]; try reflexivity.
  now rewrite append_items_acc.
Qed.

(** Rows come from entries: whatever holds of every parsed row holds of
    the new rows. *)
Lemma append_items_Forall (Q : FundingRecord -> Prop) (items : list Py.value) :
  (forall item r, In item items -> parse item = ItemRow r -> Q r) ->
  Forall Q (fst (append_items parse items [])).
Proof.
  induction items as [|item rest IH]; intros H; simpl; [constructor|].
  destruct (parse item) as [| |r] eqn:E.
  - constructor.
  - apply IH. intros; eapply H; [right|]; eassumption.
  - rewrite append_items_fst. constructor.
    + apply (H item); [now left|assumption].
    + apply IH. intros; eapply H; [right|]; eassumption.
Qed.

(** A skipped entry leaves no trace in the rows of its page. *)
Lemma append_items_skip (before after : list Py.value) (bad : Py.value)
    (acc : list FundingRecord) :
  parse bad = ItemSkip ->
  append_items parse (before ++ bad :: after) acc
  = append_items parse (before ++ after) acc.
Proof.
  intros Hbad. revert acc.
  induction before as [|item rest IH]; intros acc; simpl.
  - now rewrite Hbad.
  - destruct (parse item); auto.
Qed.

(** An entry that raises ends the page: the entries after it are not
    read. *)
Lemma append_items_raise (before after : list Py.value) (bad : Py.value)
    (acc : list FundingRecord) :
  parse bad = ItemRaise ->
  snd (append_items parse before acc) = true ->
  append_items parse (before ++ bad :: after) acc
  = (fst (append_items parse before acc), false).
Proof.
  intros Hbad. revert acc.
  induction before as [|item rest IH]; intros acc; simpl.
  - now rewrite Hbad.
  - destruct (parse item); auto; simpl; intros; discriminate.
Qed.

End EntryLoop.

(** ** The Binance loop, one iteration at a time *)

Section BinanceLoop.

Variable srv : nat -> Binance.request -> response.
Variables (symbol : string) (end_ms : Z).

Let req (cur : Z) : Binance.request :=
  Binance.mkRequest symbol cur end_ms Binance.limit.

Lemma binance_step_failed (fuel n : nat) (cur : Z)
    (results : list FundingRecord) (trace : list Binance.request) :
  srv n (req cur) = Failed ->
  Binance.fetch_loop (S fuel) srv n symbol cur end_ms results trace
  = Some (Binance.mkOutcome results (trace ++ [req cur]) StopRaised).
Proof. intros H. simpl. fold (req cur). now rewrite H. Qed.

Lemma binance_step_empty (fuel n : nat) (cur : Z) (j : Py.value)
    (results : list FundingRecord) (trace : list Binance.request) :
  srv n (req cur) = Body j -> no_entries j = true ->
  Binance.fetch_loop (S fuel) srv n symbol cur end_ms results trace
  = Some (Binance.mkOutcome results (trace ++ [req cur]) StopEmpty).
Proof.
  intros H Hj. simpl. fold (req cur). rewrite H.
  destruct j as [| | | | |l|]; try reflexivity.
  destruct l; [reflexivity|discriminate].
Qed.

(** What an iteration does with a non-empty list. *)
Lemma binance_step_page (fuel n : nat) (cur : Z) (data : list Py.value)
    (results : list FundingRecord) (trace : list Binance.request) :
  srv n (req cur) = Body (Py.VList data) -> data <> [] ->
  Binance.fetch_loop (S fuel) srv n symbol cur end_ms results trace
  = let results' := results ++ Binance.page_rows symbol data in
    let trace' := trace ++ [req cur] in
    if negb (snd (append_items (Binance.parse_item symbol) data []))
    then Some (Binance.mkOutcome results' trace' StopRaised)
    else if Z.of_nat (List.length data) <? Binance.limit
    then Some (Binance.mkOutcome results' trace' StopShort)
    else match Binance.last_time data with
         | None => Some (Binance.mkOutcome results' trace' StopRaised)
         | Some t =>
             Binance.fetch_loop fuel srv (S n) symbol (t + 1) end_ms
               results' trace'
         end.
Proof.
  intros H Hne. cbn [Binance.fetch_loop]. fold (req cur). rewrite H.
  destruct data as [|item rest]; [congruence|].
  cbv beta iota.
  rewrite (append_items_acc _ (item :: rest) results).
  reflexivity.
Qed.

(** Full pages that parse carry the loop forward. *)
Lemma binance_loop_pages (last : response -> Prop) (pages : list (list Py.value)) :
  forall (n : nat) (cur : Z) (fuel : nat)
         (results : list FundingRecord) (trace : list Binance.request),
  Binance.served srv symbol end_ms n cur pages last ->
  Binance.fetch_loop (List.length pages + fuel) srv n symbol cur end_ms
    results trace
  = Binance.fetch_loop fuel srv (n + List.length pages) symbol
      (Binance.cursor_after cur pages) end_ms
      (results ++ flat_map (Binance.page_rows symbol) pages)
      (trace ++ Binance.requests_for symbol end_ms cur pages)
    /\ last (srv (n + List.length pages)%nat
               (req (Binance.cursor_after cur pages))).
Proof.
  induction pages as [|data rest IH]; intros n cur fuel results trace Hs.
  - simpl. rewrite !app_nil_r, Nat.add_0_r. split; [reflexivity|exact Hs].
  - destruct Hs as (Hsrv & Hok & Hlen & t & Ht & Hrest).
    assert (Hne : data <> []).
    { intros ->. simpl in Hlen. unfold Binance.limit in Hlen. lia. }
    cbn [List.length Nat.add].
    rewrite (@binance_step_page _ n cur data _ _ Hsrv Hne). cbv zeta.
    rewrite Hok. cbn [negb].
    replace (Z.of_nat (List.length data) <? Binance.limit) with false
      by (symmetry; apply Z.ltb_ge; exact Hlen).
    rewrite Ht.
    destruct (IH (S n) (t + 1) fuel
                (results ++ Binance.page_rows symbol data)
                (trace ++ [req cur]) Hrest) as [IH1 IH2].
    rewrite IH1.
    assert (Hnc : Binance.next_cursor cur data = t + 1)
      by (unfold Binance.next_cursor; now rewrite Ht).
    assert (E1 : Binance.cursor_after cur (data :: rest)
                 = Binance.cursor_after (t + 1) rest)
      by (unfold Binance.cursor_after; cbn [fold_left]; now rewrite Hnc).
    assert (E2 : Binance.requests_for symbol end_ms cur (data :: rest)
                 = req cur :: Binance.requests_for symbol end_ms (t + 1) rest)
      by (cbn [Binance.requests_for]; now rewrite Hnc).
    rewrite E1, E2. cbn [flat_map]. rewrite <- !app_assoc. cbn [app].
    replace (n + S (List.length rest))%nat with (S n + List.length rest)%nat
      by lia.
    split; [reflexivity|exact IH2].
Qed.

End BinanceLoop.

(** ** The Bybit loop, one iteration at a time *)

Section BybitLoop.

Variable fromisoformat_ms : string -> option Z.
Variable srv : nat -> Bybit.request -> response.
Variables (symbol : string) (start_ts : Z).

Let req (cur : Z) : Bybit.request :=
  Bybit.mkRequest "linear" symbol start_ts cur Bybit.limit.

Let loop := Bybit.fetch_loop fromisoformat_ms.
Let parse := Bybit.parse_item fromisoformat_ms symbol.

Lemma bybit_step_failed (fuel n : nat) (cur : Z)
    (results : list FundingRecord) (trace : list Bybit.request) :
  srv n (req cur) = Failed ->
  loop (S fuel) srv n symbol start_ts cur results trace
  = Some (Bybit.mkOutcome results (trace ++ [req cur]) StopRaised).
Proof. intros H. unfold loop. simpl. fold (req cur). now rewrite H. Qed.

Lemma bybit_step_empty (fuel n : nat) (cur : Z) (j : Py.value)
    (results : list FundingRecord) (trace : list Bybit.request) :
  srv n (req cur) = Body j -> Py.truthy (Bybit.page_list j) = false ->
  loop (S fuel) srv n symbol start_ts cur results trace
  = Some (Bybit.mkOutcome results (trace ++ [req cur]) StopEmpty).
Proof.
  intros H Hj. unfold loop. cbn [Bybit.fetch_loop]. fold (req cur).
  rewrite H. cbv zeta. now rewrite Hj.
Qed.

(** What an iteration does with a non-empty list. *)
Lemma bybit_step_page (fuel n : nat) (cur : Z) (j : Py.value)
    (items : list Py.value)
    (results : list FundingRecord) (trace : list Bybit.request) :
  srv n (req cur) = Body j -> Bybit.page_list j = Py.VList items ->
  items <> [] ->
  loop (S fuel) srv n symbol start_ts cur results trace
  = let results' := results ++ Bybit.page_rows fromisoformat_ms symbol items in
    let trace' := trace ++ [req cur] in
    if negb (snd (append_items parse items []))
    then Some (Bybit.mkOutcome results' trace' StopRaised)
    else if Z.of_nat (List.length items) <? Bybit.limit
    then Some (Bybit.mkOutcome results' trace' StopShort)
    else match Bybit.last_time items with
         | None => Some (Bybit.mkOutcome results' trace' StopRaised)
         | Some t => loop fuel srv (S n) symbol start_ts (t - 1) results' trace'
         end.
Proof.
  intros H Hj Hne. unfold loop. cbn [Bybit.fetch_loop]. fold (req cur).
  rewrite H. cbv zeta. rewrite Hj.
  destruct items as [|item rest]; [congruence|].
  cbn [Py.truthy negb].
  rewrite (append_items_acc _ (item :: rest) results).
  reflexivity.
Qed.

(** Full pages that parse carry the loop forward. *)
Lemma bybit_loop_pages (last : response -> Prop) (pages : list (list Py.value)) :
  forall (n : nat) (cur : Z) (fuel : nat)
         (results : list FundingRecord) (trace : list Bybit.request),
  Bybit.served fromisoformat_ms srv symbol start_ts n cur pages last ->
  loop (List.length pages + fuel) srv n symbol start_ts cur results trace
  = loop fuel srv (n + List.length pages) symbol start_ts
      (Bybit.cursor_after cur pages)
      (results ++ flat_map (Bybit.page_rows fromisoformat_ms symbol) pages)
      (trace ++ Bybit.requests_for symbol start_ts cur pages)
    /\ last (srv (n + List.length pages)%nat
               (req (Bybit.cursor_after cur pages))).
Proof.
  induction pages as [|items rest IH]; intros n cur fuel results trace Hs.
  - simpl. rewrite !app_nil_r, Nat.add_0_r. split; [reflexivity|exact Hs].
  - destruct Hs as ((j & Hsrv & Hj) & Hok & Hlen & t & Ht & Hrest).
    assert (Hne : items <> []).
    { intros ->. simpl in Hlen. unfold Bybit.limit in Hlen. lia. }
    cbn [List.length Nat.add].
    rewrite (@bybit_step_page _ n cur j items _ _ Hsrv Hj Hne). cbv zeta.
    unfold parse. rewrite Hok. cbn [negb].
    replace (Z.of_nat (List.length items) <? Bybit.limit) with false
      by (symmetry; apply Z.ltb_ge; exact Hlen).
    rewrite Ht.
    destruct (IH (S n) (t - 1) fuel
                (results ++ Bybit.page_rows fromisoformat_ms symbol items)
                (trace ++ [req cur]) Hrest) as [IH1 IH2].
    rewrite IH1.
    assert (Hnc : Bybit.next_cursor cur items = t - 1)
      by (unfold Bybit.next_cursor; now rewrite Ht).
    assert (E1 : Bybit.cursor_after cur (items :: rest)
                 = Bybit.cursor_after (t - 1) rest)
      by (unfold Bybit.cursor_after; cbn [fold_left]; now rewrite Hnc).
    assert (E2 : Bybit.requests_for symbol start_ts cur (items :: rest)
                 = req cur :: Bybit.requests_for symbol start_ts (t - 1) rest)
      by (cbn [Bybit.requests_for]; now rewrite Hnc).
    rewrite E1, E2. cbn [flat_map]. rewrite <- !app_assoc. cbn [app].
    replace (n + S (List.length rest))%nat with (S n + List.length rest)%nat
      by lia.
    split; [reflexivity|exact IH2].
Qed.

End BybitLoop.

(** ** The Hyperliquid loop, one iteration at a time *)

Section HyperLoop.

Variable srv : nat -> Hyperliquid.request -> response.
Variables (symbol : string) (end_ms : Z).

Let coin := Hyperliquid.extract_coin_from_symbol symbol.
Let req (cur : Z) := Hyperliquid.request_at symbol cur end_ms.
Let loop (fuel n : nat) (cur : Z) := 
  Hyperliquid.fetch_loop fuel srv n symbol coin cur end_ms.

Lemma hyper_step_done (fuel n : nat) (cur : Z)
    (results : list FundingRecord) (trace : list Hyperliquid.request) :
  end_ms < cur ->
  loop (S fuel) n cur results trace = Some (results, trace, StopWindow).
Proof.
  intros H. unfold loop. cbn [Hyperliquid.fetch_loop].
  replace (end_ms <? cur) with true by (symmetry; apply Z.ltb_lt; lia).
  reflexivity.
Qed.

Lemma hyper_step_failed (fuel n : nat) (cur : Z)
    (results : list FundingRecord) (trace : list Hyperliquid.request) :
  cur <= end_ms -> srv n (req cur) = Failed ->
  loop (S fuel) n cur results trace
  = Some (results, trace ++ [req cur], StopRaised).
Proof.
  intros Hc H. unfold loop. cbn [Hyperliquid.fetch_loop].
  replace (end_ms <? cur) with false by (symmetry; apply Z.ltb_ge; lia).
  cbv zeta. fold coin. change (Hyperliquid.mkRequest "fundingHistory" coin cur
    (Z.min end_ms (cur + Hyperliquid.window_ms - 1))) with (req cur).
  now rewrite H.
Qed.

(** A body that is no non-empty list but has a length: the cursor moves
    to the next window and the rows stay. *)
Lemma hyper_step_skip (fuel n : nat) (cur : Z) (j : Py.value)
    (results : list FundingRecord) (trace : list Hyperliquid.request) :
  cur <= end_ms -> srv n (req cur) = Body j ->
  Hyperliquid.has_len j = true -> no_entries j = true ->
  loop (S fuel) n cur results trace
  = loop fuel (S n) (Z.min end_ms (cur + Hyperliquid.window_ms - 1) + 1)
      results (trace ++ [req cur]).
Proof.
  intros Hc H Hlen Hno. unfold loop. cbn [Hyperliquid.fetch_loop].
  replace (end_ms <? cur) with false by (symmetry; apply Z.ltb_ge; lia).
  cbv zeta. fold coin. change (Hyperliquid.mkRequest "fundingHistory" coin cur
    (Z.min end_ms (cur + Hyperliquid.window_ms - 1))) with (req cur).
  rewrite H, Hlen. cbn [negb].
  destruct j as [| | | | |l|]; try reflexivity.
  destruct l; [reflexivity|discriminate].
Qed.

(** What an iteration does with a non-empty list. *)
Lemma hyper_step_page (fuel n : nat) (cur : Z) (items : list Py.value)
    (results : list FundingRecord) (trace : list Hyperliquid.request) :
  cur <= end_ms -> srv n (req cur) = Body (Py.VList items) -> items <> [] ->
  loop (S fuel) n cur results trace
  = let results' := results ++ Hyperliquid.page_rows symbol (Py.VList items) in
    let trace' := trace ++ [req cur] in
    if negb (snd (append_items (Hyperliquid.parse_item symbol) items []))
    then Some (results', trace', StopRaised)
    else match Hyperliquid.last_time items with
         | None => Some (results', trace', StopRaised)
         | Some t => loop fuel (S n) (t + 1) results' trace'
         end.
Proof.
  intros Hc H Hne. unfold loop. cbn [Hyperliquid.fetch_loop].
  replace (end_ms <? cur) with false by (symmetry; apply Z.ltb_ge; lia).
  cbv zeta. fold coin. change (Hyperliquid.mkRequest "fundingHistory" coin cur
    (Z.min end_ms (cur + Hyperliquid.window_ms - 1))) with (req cur).
  rewrite H. cbn [Hyperliquid.has_len negb].
  destruct items as [|item rest]; [congruence|].
  rewrite (append_items_acc _ (item :: rest) results).
  reflexivity.
Qed.

(** Bodies that let the loop go on carry it forward. *)
Lemma hyper_loop_bodies (last : response -> Prop) (bodies : list Py.value) :
  forall (n : nat) (cur : Z) (fuel : nat)
         (results : list FundingRecord) (trace : list Hyperliquid.request),
  Hyperliquid.served srv symbol end_ms n cur bodies last ->
  loop (List.length bodies + fuel) n cur results trace
  = loop fuel (n + List.length bodies)
      (Hyperliquid.cursor_after end_ms cur bodies)
      (results ++ flat_map (Hyperliquid.page_rows symbol) bodies)
      (trace ++ Hyperliquid.requests_for symbol end_ms cur bodies)
    /\ Hyperliquid.cursor_after end_ms cur bodies <= end_ms
    /\ last (srv (n + List.length bodies)%nat
               (req (Hyperliquid.cursor_after end_ms cur bodies))).
Proof.
  induction bodies as [|j rest IH]; intros n cur fuel results trace Hs.
  - simpl. rewrite !app_nil_r, Nat.add_0_r. destruct Hs. auto.
  - destruct Hs as (Hc & Hsrv & Hlen & Hj).
    cbn [List.length Nat.add].
    assert (Hgo : exists c, Hyperliquid.next_cursor end_ms cur j = c
              /\ Hyperliquid.served srv symbol end_ms (S n) c rest last
              /\ loop (S (List.length rest + fuel)) n cur results trace
                 = loop (List.length rest + fuel) (S n) c
                     (results ++ Hyperliquid.page_rows symbol j)
                     (trace ++ [req cur])).
    { destruct j as [| | | | |l|];
        try (eexists; split; [reflexivity|]; split; [exact Hj|];
             rewrite (@hyper_step_skip _ n cur _ _ _ Hc Hsrv Hlen eq_refl);
             cbn [Hyperliquid.page_rows]; now rewrite app_nil_r).
      destruct l as [|item items].
      - eexists; split; [reflexivity|]; split; [exact Hj|].
        rewrite (@hyper_step_skip _ n cur _ _ _ Hc Hsrv Hlen eq_refl).
        cbn [Hyperliquid.page_rows append_items fst]. now rewrite app_nil_r.
      - destruct Hj as (Hok & t & Ht & Hrest).
        exists (t + 1). split; [cbn [Hyperliquid.next_cursor]; now rewrite Ht|].
        split; [exact Hrest|].
        rewrite (@hyper_step_page _ n cur (item :: items) _ _ Hc Hsrv
                   ltac:(discriminate)).
        cbv zeta. rewrite Hok, Ht. reflexivity. }
    destruct Hgo as (c & Hnc & Hrest & Hstep). rewrite Hstep.
    destruct (IH (S n) c fuel (results ++ Hyperliquid.page_rows symbol j)
                (trace ++ [req cur]) Hrest) as (IH1 & IH2 & IH3).
    rewrite IH1.
    assert (E1 : Hyperliquid.cursor_after end_ms cur (j :: rest)
                 = Hyperliquid.cursor_after end_ms c rest)
      by (unfold Hyperliquid.cursor_after; cbn [fold_left]; now rewrite Hnc).
    assert (E2 : Hyperliquid.requests_for symbol end_ms cur (j :: rest)
                 = req cur :: Hyperliquid.requests_for symbol end_ms c rest)
      by (cbn [Hyperliquid.requests_for]; now rewrite Hnc).
    rewrite E1, E2. cbn [flat_map]. rewrite <- !app_assoc. cbn [app].
    replace (n + S (List.length rest))%nat with (S n + List.length rest)%nat
      by lia.
    auto.
Qed.

Lemma fixed_windows_past (count : nat) (cur : Z) :
  end_ms < cur -> Hyperliquid.fixed_windows count symbol cur end_ms = [].
Proof.
  intros H. destruct count; [reflexivity|]. cbn [Hyperliquid.fixed_windows].
  replace (end_ms <? cur) with true by (symmetry; apply Z.ltb_lt; lia).
  reflexivity.
Qed.

(** When every answer is empty, the requests are the windows of a fixed
    segmentation and the loop ends by itself. *)
Lemma hyper_all_empty :
  (forall n q, exists j, srv n q = Body j /\ Hyperliquid.has_len j = true
                         /\ no_entries j = true) ->
  forall (count n : nat) (cur : Z)
         (results : list FundingRecord) (trace : list Hyperliquid.request),
  end_ms - cur < Z.of_nat count * Hyperliquid.window_ms ->
  loop (S count) n cur results trace
  = Some (results,
          trace ++ Hyperliquid.fixed_windows count symbol cur end_ms,
          StopWindow).
Proof.
  intros Hsrv. unfold Hyperliquid.window_ms.
  induction count as [|k IH]; intros n cur results trace Hc.
  - rewrite hyper_step_done by lia. now rewrite app_nil_r.
  - destruct (Z.lt_ge_cases end_ms cur) as [Hlt|Hge].
    + rewrite hyper_step_done by lia.
      now rewrite fixed_windows_past, app_nil_r.
    + destruct (Hsrv n (req cur)) as (j & Hj & Hlen & Hno).
      rewrite (@hyper_step_skip (S k) n cur j results trace Hge Hj Hlen Hno).
      assert (E : Hyperliquid.fixed_windows k symbol
                    (Z.min end_ms (cur + 30 * 24 * 3600 * 1000 - 1) + 1) end_ms
                  = Hyperliquid.fixed_windows k symbol
                      (cur + 30 * 24 * 3600 * 1000) end_ms).
      { destruct (Z.le_gt_cases (cur + 30 * 24 * 3600 * 1000 - 1) end_ms).
        - rewrite Z.min_r by lia. f_equal. lia.
        - rewrite Z.min_l by lia. now rewrite !fixed_windows_past by lia. }
      unfold Hyperliquid.window_ms. rewrite IH by lia. rewrite E.
      cbn [Hyperliquid.fixed_windows].
      replace (end_ms <? cur) with false by (symmetry; apply Z.ltb_ge; lia).
      rewrite <- app_assoc. reflexivity.
Qed.

End HyperLoop.

(** ** Equality of dict keys *)

Section Keys.

Local Open Scope Z_scope.

Lemma dyadic_eqb_at (m1 e1 m2 e2 e : Z) :
  e <= e1 -> e <= e2 ->
  Py.dyadic_eqb m1 e1 m2 e2 = true
  <-> m1 * 2 ^ (e1 - e) = m2 * 2 ^ (e2 - e).
Proof.
  intros H1 H2. unfold Py.dyadic_eqb. rewrite Z.eqb_eq.
  set (k := Z.min e1 e2).
  assert (Hk : e <= k) by (unfold k; lia).
  assert (Hk1 : k <= e1) by (unfold k; lia).
  assert (Hk2 : k <= e2) by (unfold k; lia).
  replace (e1 - e) with ((e1 - k) + (k - e)) by lia.
  replace (e2 - e) with ((e2 - k) + (k - e)) by lia.
  rewrite !Z.pow_add_r by lia.
  assert (Hp : 0 < 2 ^ (k - e)) by (apply Z.pow_pos_nonneg; lia).
  rewrite !Z.mul_assoc. split; intros H.
  - now rewrite H.
  - apply Z.mul_cancel_r in H; [assumption|lia].
Qed.

Lemma dyadic_eqb_refl (m e : Z) : Py.dyadic_eqb m e m e = true.
Proof. unfold Py.dyadic_eqb. apply Z.eqb_refl. Qed.

Lemma dyadic_eqb_sym (m1 e1 m2 e2 : Z) :
  Py.dyadic_eqb m1 e1 m2 e2 = Py.dyadic_eqb m2 e2 m1 e1.
Proof. unfold Py.dyadic_eqb. rewrite Z.min_comm. apply Z.eqb_sym. Qed.

Lemma dyadic_eqb_trans (m1 e1 m2 e2 m3 e3 : Z) :
  Py.dyadic_eqb m1 e1 m2 e2 = true -> Py.dyadic_eqb m2 e2 m3 e3 = true ->
  Py.dyadic_eqb m1 e1 m3 e3 = true.
Proof.
  set (e := Z.min e1 (Z.min e2 e3)).
  intros H12 H23.
  apply (dyadic_eqb_at m1 m2 (e := e)) in H12; try (unfold e; lia).
  apply (dyadic_eqb_at m2 m3 (e := e)) in H23; try (unfold e; lia).
  apply (dyadic_eqb_at m1 m3 (e := e)); try (unfold e; lia).
  congruence.
Qed.

Lemma key_eqb_refl (v : Py.value) :
  Py.hashable v = true -> Py.key_eqb v v = true.
Proof.
  destruct v; try discriminate; intros _; unfold Py.key_eqb; simpl;
    try apply dyadic_eqb_refl; try reflexivity.
  apply String.eqb_refl.
Qed.

Lemma key_eqb_sym (a b : Py.value) : Py.key_eqb a b = Py.key_eqb b a.
Proof.
  unfold Py.key_eqb.
  destruct (Py.num_of a) as [[m1 e1]|] eqn:Ea;
    destruct (Py.num_of b) as [[m2 e2]|] eqn:Eb; try reflexivity.
  - apply dyadic_eqb_sym.
  - destruct a; destruct b; try reflexivity. apply String.eqb_sym.
Qed.

Lemma key_eqb_trans (a b c : Py.value) :
  Py.key_eqb a b = true -> Py.key_eqb b c = true -> Py.key_eqb a c = true.
Proof.
  unfold Py.key_eqb.
  destruct (Py.num_of a) as [[m1 e1]|] eqn:Ea;
    destruct (Py.num_of b) as [[m2 e2]|] eqn:Eb;
    destruct (Py.num_of c) as [[m3 e3]|] eqn:Ec; try discriminate.
  - apply dyadic_eqb_trans.
  - destruct a; destruct b; try discriminate; destruct c; try discriminate;
      try reflexivity.
    intros H1 H2. apply String.eqb_eq in H1, H2. subst. apply String.eqb_refl.
Qed.

Lemma same_key_refl (r : FundingRecord) :
  Py.hashable (funding_rate r) = true -> Hyperliquid.same_key r r = true.
Proof.
  intros H. unfold Hyperliquid.same_key.
  now rewrite Z.eqb_refl, key_eqb_refl.
Qed.

Lemma same_key_sym (a b : FundingRecord) :
  Hyperliquid.same_key a b = Hyperliquid.same_key b a.
Proof.
  unfold Hyperliquid.same_key. now rewrite Z.eqb_sym, key_eqb_sym.
Qed.

Lemma same_key_trans (a b c : FundingRecord) :
  Hyperliquid.same_key a b = true -> Hyperliquid.same_key b c = true ->
  Hyperliquid.same_key a c = true.
Proof.
  unfold Hyperliquid.same_key. intros H1 H2.
  apply andb_true_iff in H1 as [T1 K1]. apply andb_true_iff in H2 as [T2 K2].
  apply Z.eqb_eq in T1, T2. apply andb_true_iff. split.
  - apply Z.eqb_eq. congruence.
  - eapply key_eqb_trans; eassumption.
Qed.

Lemma same_key_time (a b : FundingRecord) :
  Hyperliquid.same_key a b = true -> funding_time_ms a = funding_time_ms b.
Proof.
  unfold Hyperliquid.same_key. intros H.
  apply andb_true_iff in H as [T _]. now apply Z.eqb_eq in T.
Qed.

End Keys.

(** ** Deduplication and sorting of the Hyperliquid rows *)

Section Dedup.

Local Open Scope Z_scope.

Let distinct_keys : list FundingRecord -> Prop :=
  ForallOrdPairs (fun a b => Hyperliquid.same_key a b = false).

Let by_time : FundingRecord -> FundingRecord -> Prop :=
  fun a b => funding_time_ms a <= funding_time_ms b.

Lemma dict_put_In (r x : FundingRecord) (d : list FundingRecord) :
  In x (Hyperliquid.dict_put r d) -> x = r \/ In x d.
Proof.
  induction d as [|y rest IH]; simpl.
  - intros [<-|[]]; now left.
  - destruct (Hyperliquid.same_key y r).
    + intros [<-|H]; [now left|right; now right].
    + intros [<-|H]; [right; now left|].
      destruct (IH H); [now left|right; now right].
Qed.

Lemma dict_put_new (r : FundingRecord) (d : list FundingRecord) :
  In r (Hyperliquid.dict_put r d).
Proof.
  induction d as [|y rest IH]; simpl; [now left|].
  destruct (Hyperliquid.same_key y r); [now left|now right].
Qed.

(** A key that was present stays present, maybe under a new value. *)
Lemma dict_put_keeps (r x : FundingRecord) (d : list FundingRecord) :
  In x d -> Py.hashable (funding_rate x) = true ->
  exists x', In x' (Hyperliquid.dict_put r d)
             /\ Hyperliquid.same_key x x' = true.
Proof.
  intros Hin Hx. induction d as [|y rest IH]; [destruct Hin|].
  simpl. destruct (Hyperliquid.same_key y r) eqn:E.
  - destruct Hin as [->|Hin].
    + exists r. split; [now left|assumption].
    + exists x. split; [now right|now apply same_key_refl].
  - destruct Hin as [->|Hin].
    + exists x. split; [now left|now apply same_key_refl].
    + destruct (IH Hin) as (x' & H1 & H2). exists x'. split; [now right|assumption].
Qed.

Lemma dict_put_distinct (r : FundingRecord) (d : list FundingRecord) :
  distinct_keys d -> distinct_keys (Hyperliquid.dict_put r d).
Proof.
  unfold distinct_keys.
  induction d as [|y rest IH]; intros Hd; simpl.
  - constructor; constructor.
  - inversion Hd as [|? ? Hy Hrest]; subst.
    destruct (Hyperliquid.same_key y r) eqn:E.
    + constructor; [|assumption].
      rewrite Forall_forall in *. intros z Hz.
      destruct (Hyperliquid.same_key r z) eqn:E'; [|reflexivity].
      rewrite <- (Hy z Hz). symmetry. now apply (same_key_trans y r z).
    + constructor; [|now apply IH].
      rewrite Forall_forall in *. intros z Hz.
      destruct (dict_put_In _ _ _ Hz) as [->|Hz']; [assumption|now apply Hy].
Qed.

(** A key that is new goes to the end. *)
Lemma dict_put_fresh (r : FundingRecord) (d : list FundingRecord) :
  Forall (fun x => Hyperliquid.same_key x r = false) d ->
  Hyperliquid.dict_put r d = d ++ [r].
Proof.
  induction 1 as [|y rest Hy _ IH]; simpl; [reflexivity|].
  now rewrite Hy, IH.
Qed.

Lemma dedup_fold (l : list FundingRecord) :
  forall d : list FundingRecord,
  Forall (fun r => Py.hashable (funding_rate r) = true) (d ++ l) ->
  distinct_keys d ->
  let d' := fold_left (fun d r => Hyperliquid.dict_put r d) l d in
  distinct_keys d'
  /\ (forall x, In x d' -> In x (d ++ l))
  /\ (forall x, In x (d ++ l) ->
        exists x', In x' d' /\ Hyperliquid.same_key x x' = true).
Proof.
  induction l as [|r rest IH]; intros d Hh Hd; cbn [fold_left].
  - rewrite app_nil_r in *. split; [assumption|]. split; [auto|].
    intros x Hx. exists x. split; [assumption|].
    apply same_key_refl. rewrite Forall_forall in Hh. now apply Hh.
  - assert (Hh' : Forall (fun r => Py.hashable (funding_rate r) = true)
                    (Hyperliquid.dict_put r d ++ rest)).
    { rewrite Forall_forall in *. intros x Hx. apply Hh.
      apply in_app_or in Hx as [Hx|Hx].
      - apply dict_put_In in Hx as [->|Hx]; apply in_or_app;
          [right; now left|now left].
      - apply in_or_app. right. now right. }
    destruct (IH _ Hh' (dict_put_distinct r Hd)) as (I1 & I2 & I3).
    split; [exact I1|]. split.
    + intros x Hx. apply I2 in Hx. apply in_app_or in Hx as [Hx|Hx].
      * apply dict_put_In in Hx as [->|Hx]; apply in_or_app;
          [right; now left|now left].
      * apply in_or_app. right. now right.
    + intros x Hx.
      assert (Hxh : Py.hashable (funding_rate x) = true)
        by (rewrite Forall_forall in Hh; now apply Hh).
      assert (Hmid : exists y, In y (Hyperliquid.dict_put r d ++ rest)
                               /\ Hyperliquid.same_key x y = true).
      { apply in_app_or in Hx as [Hx|[<-|Hx]].
        - destruct (dict_put_keeps r x d Hx Hxh) as (y & Hy1 & Hy2).
          exists y. split; [apply in_or_app; now left|assumption].
        - exists r. split; [apply in_or_app; left; apply dict_put_new|].
          now apply same_key_refl.
        - exists x. split; [apply in_or_app; now right|].
          now apply same_key_refl. }
      destruct Hmid as (y & Hy1 & Hy2).
      destruct (I3 y Hy1) as (x' & Hx1 & Hx2).
      exists x'. split; [assumption|]. now apply (same_key_trans x y x').
Qed.

Lemma insert_by_time_In (r x : FundingRecord) (l : list FundingRecord) :
  In x (Hyperliquid.insert_by_time r l) <-> x = r \/ In x l.
Proof.
  induction l as [|y rest IH]; simpl.
  - split; [intros [<-|[]]; now left|intros [->|[]]; now left].
  - destruct (funding_time_ms r <=? funding_time_ms y); simpl.
    + split; [intros [<-|H]; auto|intros [->|H]; auto].
    + rewrite IH. split.
      * intros [<-|[->|H]]; auto.
      * intros [->|[<-|H]]; auto.
Qed.

Lemma sorted_by_time_In (x : FundingRecord) (l : list FundingRecord) :
  In x (Hyperliquid.sorted_by_time l) <-> In x l.
Proof.
  induction l as [|y rest IH]; simpl; [reflexivity|].
  rewrite insert_by_time_In, IH. split; intros [H|H]; auto.
Qed.

Lemma insert_by_time_sorted (r : FundingRecord) (l : list FundingRecord) :
  StronglySorted by_time l ->
  StronglySorted by_time (Hyperliquid.insert_by_time r l).
Proof.
  unfold by_time.
  induction 1 as [|y rest Hs IH Hy]; simpl.
  - constructor; constructor.
  - destruct (funding_time_ms r <=? funding_time_ms y) eqn:E.
    + apply Z.leb_le in E. constructor; [constructor; assumption|].
      constructor; [assumption|].
      rewrite Forall_forall in *. intros z Hz. specialize (Hy z Hz). lia.
    + apply Z.leb_gt in E. constructor; [assumption|].
      rewrite Forall_forall in *. intros z Hz.
      apply insert_by_time_In in Hz as [->|Hz]; [lia|now apply Hy].
Qed.

Lemma sorted_by_time_sorted (l : list FundingRecord) :
  StronglySorted by_time (Hyperliquid.sorted_by_time l).
Proof.
  induction l; simpl; [constructor|now apply insert_by_time_sorted].
Qed.

Lemma insert_by_time_distinct (r : FundingRecord) (l : list FundingRecord) :
  Forall (fun x => Hyperliquid.same_key r x = false) l ->
  distinct_keys l -> distinct_keys (Hyperliquid.insert_by_time r l).
Proof.
  unfold distinct_keys. intros Hr Hl.
  induction Hl as [|y rest Hy Hrest IH]; simpl.
  - constructor; constructor.
  - inversion Hr as [|? ? Hry Hr']; subst.
    destruct (funding_time_ms r <=? funding_time_ms y).
    + constructor; [assumption|constructor; assumption].
    + constructor; [|now apply IH].
      rewrite Forall_forall in *. intros z Hz.
      apply insert_by_time_In in Hz as [->|Hz]; [|now apply Hy].
      now rewrite same_key_sym.
Qed.

Lemma sorted_by_time_distinct (l : list FundingRecord) :
  distinct_keys l -> distinct_keys (Hyperliquid.sorted_by_time l).
Proof.
  unfold distinct_keys.
  induction 1 as [|y rest Hy Hrest IH]; simpl; [constructor|].
  apply insert_by_time_distinct; [|assumption].
  rewrite Forall_forall in *. intros z Hz.
  apply Hy. now apply sorted_by_time_In.
Qed.

(** Rows already in strictly increasing order are left as they are. *)
Lemma sorted_by_time_fixed (l : list FundingRecord) :
  StronglySorted (fun a b => funding_time_ms a < funding_time_ms b) l ->
  Hyperliquid.sorted_by_time l = l.
Proof.
  induction 1 as [|y rest Hs IH Hy]; simpl; [reflexivity|].
  rewrite IH. destruct rest as [|z rest']; [reflexivity|]. simpl.
  inversion Hy as [|? ? Hyz _]; subst.
  replace (funding_time_ms y <=? funding_time_ms z) with true
    by (symmetry; apply Z.leb_le; lia).
  reflexivity.
Qed.

Lemma dedup_fixed (l : list FundingRecord) :
  Forall (fun r => Py.hashable (funding_rate r) = true) l ->
  StronglySorted (fun a b => funding_time_ms a < funding_time_ms b) l ->
  Hyperliquid.dedup l = Some l.
Proof.
  intros Hh Hs. unfold Hyperliquid.dedup.
  replace (forallb (fun r => Py.hashable (funding_rate r)) l) with true
    by (symmetry; apply forallb_forall; rewrite Forall_forall in Hh; exact Hh).
  f_equal.
  assert (G : forall d, (forall x y, In x d -> In y l ->
                           funding_time_ms x < funding_time_ms y) ->
              fold_left (fun d r => Hyperliquid.dict_put r d) l d = d ++ l).
  { clear Hh. induction Hs as [|y rest Hs IH Hy]; intros d Hd; cbn [fold_left].
    - now rewrite app_nil_r.
    - rewrite dict_put_fresh.
      + rewrite IH; [now rewrite <- app_assoc|].
        intros x z Hx Hz. apply in_app_or in Hx as [Hx|[<-|[]]].
        * apply Hd; [assumption|now right].
        * rewrite Forall_forall in Hy. now apply Hy.
      + rewrite Forall_forall. intros x Hx.
        destruct (Hyperliquid.same_key x y) eqn:E; [|reflexivity].
        apply same_key_time in E. specialize (Hd x y Hx (or_introl eq_refl)). lia. }
  apply (G []). intros x y [].
Qed.

(** What the closing line of [fetch_hyper_funding_for_symbol] returns
    when every funding rate can be hashed. *)
Lemma dedup_sorted_returns (l : list FundingRecord) :
  Forall (fun r => Py.hashable (funding_rate r) = true) l ->
  exists rows, Hyperliquid.dedup_sorted l = Hyperliquid.Returns rows
    /\ StronglySorted by_time rows
    /\ distinct_keys rows
    /\ (forall x, In x rows -> In x l)
    /\ (forall x, In x l ->
          exists x', In x' rows /\ Hyperliquid.same_key x x' = true).
Proof.
  intros Hh. unfold Hyperliquid.dedup_sorted, Hyperliquid.dedup.
  replace (forallb (fun r => Py.hashable (funding_rate r)) l) with true
    by (symmetry; apply forallb_forall; rewrite Forall_forall in Hh; exact Hh).
  eexists. split; [reflexivity|].
  destruct (@dedup_fold l [] Hh (FOP_nil _)) as (D1 & D2 & D3).
  cbv zeta in D1, D2, D3. cbn [app] in D2, D3.
  split; [apply sorted_by_time_sorted|].
  split; [now apply sorted_by_time_distinct|].
  split.
  - intros x Hx. apply D2. now apply sorted_by_time_In.
  - intros x Hx. destruct (D3 x Hx) as (x' & H1 & H2).
    exists x'. split; [now apply sorted_by_time_In|assumption].
Qed.

(** A funding rate that is a list or a dict makes that line raise. *)
Lemma dedup_sorted_raises (l : list FundingRecord) (r : FundingRecord) :
  In r l -> Py.hashable (funding_rate r) = false ->
  Hyperliquid.dedup_sorted l = Hyperliquid.Raises.
Proof.
  intros Hin Hr. unfold Hyperliquid.dedup_sorted, Hyperliquid.dedup.
  destruct (forallb (fun r => Py.hashable (funding_rate r)) l) eqn:E;
    [|reflexivity].
  rewrite forallb_forall in E. rewrite (E r Hin) in Hr. discriminate.
Qed.

End Dedup.

(** ** Order of the rows *)

Section Order.

Local Open Scope Z_scope.

Lemma StronglySorted_app {A : Type} (R : A -> A -> Prop) (l1 l2 : list A) :
  StronglySorted R l1 -> StronglySorted R l2 ->
  (forall x y, In x l1 -> In y l2 -> R x y) ->
  StronglySorted R (l1 ++ l2).
Proof.
  induction 1 as [|a l Hl IH Ha]; intros H2 H12; simpl; [assumption|].
  constructor.
  - apply IH; [assumption|]. intros; apply H12; [now right|assumption].
  - apply Forall_app. split; [assumption|].
    rewrite Forall_forall. intros y Hy. apply H12; [now left|assumption].
Qed.

Lemma StronglySorted_rev {A : Type} (R : A -> A -> Prop) (l : list A) :
  StronglySorted R l -> StronglySorted (fun a b => R b a) (rev l).
Proof.
  induction 1 as [|a l Hl IH Ha]; simpl; [constructor|].
  apply StronglySorted_app; [assumption|repeat constructor|].
  intros x y Hx [<-|[]]. rewrite Forall_forall in Ha. apply Ha.
  now apply in_rev.
Qed.

(** Strictly increasing times are pairwise different. *)
Lemma earlier_NoDup (l : list FundingRecord) :
  StronglySorted earlier l -> NoDup (map funding_time_ms l).
Proof.
  induction 1 as [|a l Hl IH Ha]; simpl; constructor; [|assumption].
  intros Hin. apply in_map_iff in Hin as (b & Hb & Hin).
  rewrite Forall_forall in Ha. specialize (Ha b Hin). unfold earlier in Ha. lia.
Qed.

End Order.

(** ** Binance pages served in order *)

Section BinancePages.

Local Open Scope Z_scope.

Variable sym : string.

Lemma binance_parse_row (item : Py.value) (r : FundingRecord) :
  Binance.parse_item sym item = ItemRow r ->
  Binance.entry_time item = Some (funding_time_ms r)
  /\ exchange r = "binance"%string /\ symbol r = sym
  /\ Binance.iso_from_ms (funding_time_ms r) = Some (funding_time_iso r)
  /\ Py.get item "fundingRate" = Some (funding_rate r).
Proof.
  unfold Binance.parse_item, Binance.entry_time.
  destruct (Py.get item "fundingTime") as [v|]; [|discriminate].
  destruct (Py.int v) as [ft|]; [|discriminate].
  destruct (Py.get item "fundingRate") as [fr|]; [|discriminate].
  destruct (Binance.iso_from_ms ft) as [iso|] eqn:E; [|discriminate].
  intros [= <-]. simpl. auto.
Qed.

(** An entry with an integer time before the year 2242 gives a row. *)
Lemma binance_parse_defined (item : Py.value) (t : Z) :
  Binance.entry_time item = Some t -> 0 <= t < 2 ^ 33 * 1000 ->
  exists r, Binance.parse_item sym item = ItemRow r
            /\ funding_time_ms r = t.
Proof.
  unfold Binance.parse_item, Binance.entry_time. intros Ht Hr.
  destruct item as [| | | | | |kv]; try discriminate.
  cbn [Py.get] in *. rewrite Ht.
  destruct (iso_from_ms_reads_back Hr) as (s & Hs & _).
  unfold Binance.iso_from_ms. rewrite Hs. eexists. split; reflexivity.
Qed.

Lemma binance_rows_ascending (data : list Py.value) :
  forall lo hi,
  Binance.ascending_within lo hi data = true ->
  StronglySorted earlier (Binance.page_rows sym data)
  /\ Forall (fun r => lo <= funding_time_ms r <= hi)
       (Binance.page_rows sym data).
Proof.
  unfold Binance.page_rows.
  induction data as [|item rest IH]; intros lo hi H.
  - split; constructor.
  - cbn [Binance.ascending_within] in H.
    destruct (Binance.entry_time item) as [t|] eqn:Et; [|discriminate].
    apply andb_true_iff in H as [H Hrest].
    apply andb_true_iff in H as [Hlo Hhi].
    apply Z.leb_le in Hlo, Hhi.
    destruct (IH _ _ Hrest) as [IHs IHb].
    rewrite append_items_cons.
    destruct (Binance.parse_item sym item) as [| |r] eqn:Ep.
    + split; constructor.
    + split; [assumption|].
      eapply Forall_impl; [|exact IHb]. simpl. intros; lia.
    + apply binance_parse_row in Ep as (Ept & _). rewrite Et in Ept.
      injection Ept as Ept. cbn [fst]. split.
      * constructor; [assumption|].
        eapply Forall_impl; [|exact IHb]. unfold earlier. simpl. intros; lia.
      * constructor; [lia|].
        eapply Forall_impl; [|exact IHb]. simpl. intros; lia.
Qed.

(** The cursor leaves every row of the page behind. *)
Lemma binance_last_bound (data : list Py.value) :
  forall lo hi t,
  Binance.ascending_within lo hi data = true -> data <> [] ->
  Binance.last_time data = Some t ->
  lo <= t <= hi
  /\ Forall (fun r => funding_time_ms r <= t) (Binance.page_rows sym data).
Proof.
  unfold Binance.page_rows.
  induction data as [|item rest IH]; intros lo hi t H Hne Hl; [congruence|].
  cbn [Binance.ascending_within] in H.
  destruct (Binance.entry_time item) as [t0|] eqn:Et; [|discriminate].
  apply andb_true_iff in H as [H Hrest].
  apply andb_true_iff in H as [Hlo Hhi].
  apply Z.leb_le in Hlo, Hhi.
  destruct rest as [|item' rest'].
  - unfold Binance.last_time in Hl. cbn [last] in Hl.
    fold (Binance.entry_time item) in Hl. rewrite Et in Hl.
    injection Hl as <-. split; [lia|].
    rewrite append_items_cons.
    destruct (Binance.parse_item sym item) as [| |r] eqn:Ep;
      cbn; try constructor.
    + apply binance_parse_row in Ep as (Ept & _). rewrite Et in Ept.
      injection Ept as Ept. lia.
    + constructor.
  - assert (Hl' : Binance.last_time (item' :: rest') = Some t) by exact Hl.
    destruct (IH _ _ _ Hrest ltac:(discriminate) Hl') as [Hb Hall].
    split; [lia|].
    rewrite append_items_cons.
    destruct (Binance.parse_item sym item) as [| |r] eqn:Ep.
    + constructor.
    + exact Hall.
    + apply binance_parse_row in Ep as (Ept & _). rewrite Et in Ept.
      injection Ept as Ept. cbn [fst]. constructor; [lia|exact Hall].
Qed.

(** Before 2242 every entry of such a page gives its row. *)
Lemma binance_rows_complete (data : list Py.value) :
  forall lo hi,
  Binance.ascending_within lo hi data = true ->
  0 <= lo -> hi < 2 ^ 33 * 1000 ->
  snd (append_items (Binance.parse_item sym) data []) = true
  /\ Forall2 (fun item r => Binance.entry_time item = Some (funding_time_ms r)
                            /\ Py.get item "fundingRate" = Some (funding_rate r)
                            /\ symbol r = sym)
       data (Binance.page_rows sym data).
Proof.
  unfold Binance.page_rows.
  induction data as [|item rest IH]; intros lo hi H Hlo0 Hhi0.
  - split; [reflexivity|constructor].
  - cbn [Binance.ascending_within] in H.
    destruct (Binance.entry_time item) as [t|] eqn:Et; [|discriminate].
    apply andb_true_iff in H as [H Hrest].
    apply andb_true_iff in H as [Hlo Hhi].
    apply Z.leb_le in Hlo, Hhi.
    destruct (IH _ _ Hrest ltac:(lia) Hhi0) as [IHs IHf].
    destruct (binance_parse_defined _ Et ltac:(lia)) as (r & Hr & Hrt).
    rewrite append_items_cons, Hr. cbn [fst snd]. split; [assumption|].
    constructor; [|assumption].
    apply binance_parse_row in Hr as (H1 & _ & H3 & _ & H5). auto.
Qed.

End BinancePages.

(** ** Bybit pages served in order *)

Section BybitPages.

Local Open Scope Z_scope.

Variable fromisoformat_ms : string -> option Z.
Variable sym : string.

Let parse := Bybit.parse_item fromisoformat_ms sym.
Let rows := Bybit.page_rows fromisoformat_ms sym.

Lemma or_truthy (a b : Py.value) : Py.truthy a = true -> Py.or_ a b = a.
Proof. intros H. unfold Py.or_. now rewrite H. Qed.

Lemma bybit_parse_row (item : Py.value) (r : FundingRecord) :
  parse item = ItemRow r ->
  exchange r = "bybit"%string /\ symbol r = sym
  /\ Bybit.iso_from_ms (funding_time_ms r) = Some (funding_time_iso r).
Proof.
  unfold parse, Bybit.parse_item.
  destruct item as [| | | | | |kv]; try discriminate.
  cbv zeta.
  destruct (Py.is_none _); [discriminate|].
  destruct (Bybit.normalize _ _) as [ft|]; [|discriminate].
  destruct (Bybit.iso_from_ms ft) as [iso|] eqn:E; [|discriminate].
  intros [= <-]. simpl. auto.
Qed.

(** An entry whose [fundingRateTimestamp] is an integer count of
    milliseconds is taken at that time. *)
Lemma bybit_parse_time (item : Py.value) (t : Z) :
  Bybit.entry_time item = Some t -> 10 ^ 12 <= t ->
  parse item = ItemRaise
  \/ exists r, parse item = ItemRow r /\ funding_time_ms r = t.
Proof.
  unfold parse, Bybit.parse_item, Bybit.entry_time.
  destruct item as [| | | | | |kv]; try discriminate.
  cbv zeta. set (v := Py.dget kv "fundingRateTimestamp").
  destruct (Py.truthy v) eqn:Hv; [|discriminate]. intros Hi Ht.
  rewrite !(or_truthy v _ Hv).
  assert (Hn : Py.is_none v = false) by (destruct v; try reflexivity; discriminate).
  rewrite Hn. unfold Bybit.normalize. rewrite Hi.
  replace (t <? 10 ^ 12) with false by (symmetry; apply Z.ltb_ge; lia).
  destruct (Bybit.iso_from_ms t); [right|now left].
  eexists. split; reflexivity.
Qed.

Lemma bybit_parse_defined (item : Py.value) (t : Z) :
  Bybit.entry_time item = Some t -> 10 ^ 12 <= t < 2 ^ 33 * 1000 ->
  exists r, parse item = ItemRow r /\ funding_time_ms r = t.
Proof.
  intros He Ht.
  destruct (bybit_parse_time item He ltac:(lia)) as [Hr|Hr]; [|exact Hr].
  exfalso. revert Hr. unfold parse, Bybit.parse_item, Bybit.entry_time in *.
  destruct item as [| | | | | |kv]; try discriminate.
  cbv zeta. set (v := Py.dget kv "fundingRateTimestamp") in *.
  destruct (Py.truthy v) eqn:Hv; [|discriminate].
  rewrite !(or_truthy v _ Hv).
  assert (Hn : Py.is_none v = false) by (destruct v; try reflexivity; discriminate).
  rewrite Hn. unfold Bybit.normalize. rewrite He.
  replace (t <? 10 ^ 12) with false by (symmetry; apply Z.ltb_ge; lia).
  destruct (@iso_from_ms_reads_back t ltac:(change (10 ^ 12) with 1000000000000 in Ht; lia))
    as (s & Hs & _).
  unfold Bybit.iso_from_ms. rewrite Hs. discriminate.
Qed.

Lemma bybit_rows_descending (items : list Py.value) :
  forall lo hi,
  10 ^ 12 <= lo ->
  Bybit.descending_within lo hi items = true ->
  StronglySorted later (rows items)
  /\ Forall (fun r => lo <= funding_time_ms r <= hi) (rows items).
Proof.
  unfold rows, Bybit.page_rows. fold parse.
  induction items as [|item rest IH]; intros lo hi Hlo0 H.
  - split; constructor.
  - cbn [Bybit.descending_within] in H.
    destruct (Bybit.entry_time item) as [t|] eqn:Et; [|discriminate].
    apply andb_true_iff in H as [H Hrest].
    apply andb_true_iff in H as [Hlo Hhi].
    apply Z.leb_le in Hlo, Hhi.
    destruct (IH _ _ Hlo0 Hrest) as [IHs IHb].
    rewrite append_items_cons.
    destruct (bybit_parse_time item Et ltac:(lia)) as [Hr|(r & Hr & Hrt)];
      rewrite Hr.
    + split; constructor.
    + cbn [fst]. split.
      * constructor; [assumption|].
        eapply Forall_impl; [|exact IHb]. unfold later. simpl. intros; lia.
      * constructor; [lia|].
        eapply Forall_impl; [|exact IHb]. simpl. intros; lia.
Qed.

(** The cursor leaves every row of the page behind. *)
Lemma bybit_last_bound (items : list Py.value) :
  forall lo hi t,
  10 ^ 12 <= lo ->
  Bybit.descending_within lo hi items = true -> items <> [] ->
  Bybit.last_time items = Some t ->
  lo <= t <= hi /\ Forall (fun r => t <= funding_time_ms r) (rows items).
Proof.
  unfold rows, Bybit.page_rows. fold parse.
  induction items as [|item rest IH]; intros lo hi t Hlo0 H Hne Hl; [congruence|].
  cbn [Bybit.descending_within] in H.
  destruct (Bybit.entry_time item) as [t0|] eqn:Et; [|discriminate].
  apply andb_true_iff in H as [H Hrest].
  apply andb_true_iff in H as [Hlo Hhi].
  apply Z.leb_le in Hlo, Hhi.
  assert (Hrow : Forall (fun r => t0 <= funding_time_ms r)
                   (match parse item with ItemRow r => [r] | _ => [] end)).
  { destruct (bybit_parse_time item Et ltac:(lia)) as [Hr|(r & Hr & Hrt)];
      rewrite Hr; constructor; [lia|constructor]. }
  destruct rest as [|item' rest'].
  - assert (Ht0 : t = t0).
    { unfold Bybit.last_time in Hl. cbn [last] in Hl.
      unfold Bybit.entry_time in Et.
      destruct item as [| | | | | |kv]; try discriminate.
      cbn [Py.get] in Hl.
      destruct (Py.truthy (Py.dget kv "fundingRateTimestamp"));
        [congruence|discriminate]. }
    subst t0. split; [lia|].
    rewrite append_items_cons.
    destruct (parse item) as [| |r] eqn:Ep; cbn; try constructor.
    + now inversion Hrow.
    + constructor.
  - assert (Hl' : Bybit.last_time (item' :: rest') = Some t) by exact Hl.
    destruct (IH _ _ _ Hlo0 Hrest ltac:(discriminate) Hl') as [Hb Hall].
    split; [lia|].
    rewrite append_items_cons.
    destruct (parse item) as [| |r] eqn:Ep.
    + constructor.
    + exact Hall.
    + cbn [fst]. constructor; [inversion Hrow; subst; lia|exact Hall].
Qed.

(** Before 2242 every entry of such a page gives its row. *)
Lemma bybit_rows_complete (items : list Py.value) :
  forall lo hi,
  10 ^ 12 <= lo -> hi < 2 ^ 33 * 1000 ->
  Bybit.descending_within lo hi items = true ->
  snd (append_items parse items []) = true
  /\ Forall2 (fun item r => Bybit.entry_time item = Some (funding_time_ms r)
                            /\ symbol r = sym)
       items (rows items).
Proof.
  unfold rows, Bybit.page_rows. fold parse.
  induction items as [|item rest IH]; intros lo hi Hlo0 Hhi0 H.
  - split; [reflexivity|constructor].
  - cbn [Bybit.descending_within] in H.
    destruct (Bybit.entry_time item) as [t|] eqn:Et; [|discriminate].
    apply andb_true_iff in H as [H Hrest].
    apply andb_true_iff in H as [Hlo Hhi].
    apply Z.leb_le in Hlo, Hhi.
    destruct (IH lo (t - 1) Hlo0 ltac:(lia) Hrest) as [IHs IHf].
    destruct (bybit_parse_defined item Et ltac:(lia)) as (r & Hr & Hrt).
    rewrite append_items_cons, Hr. cbn [fst snd]. split; [assumption|].
    constructor; [|assumption].
    apply bybit_parse_row in Hr as (_ & H3 & _). rewrite Hrt. auto.
Qed.

End BybitPages.

(** ** Hyperliquid pages served in order *)

Section HyperPages.

Local Open Scope Z_scope.

Variable sym : string.

Let parse := Hyperliquid.parse_item sym.
Let rows (items : list Py.value) := Hyperliquid.page_rows sym (Py.VList items).

Lemma hyper_parse_row (item : Py.value) (r : FundingRecord) :
  parse item = ItemRow r ->
  exchange r = "hyperliquid"%string /\ symbol r = sym
  /\ Hyperliquid.iso_from_ms (funding_time_ms r) = Some (funding_time_iso r).
Proof.
  unfold parse, Hyperliquid.parse_item.
  destruct item as [| | | | | |kv]; try discriminate.
  cbv zeta.
  destruct (Py.is_none _); [discriminate|].
  destruct (Py.int _) as [t|]; [|discriminate].
  destruct (Hyperliquid.iso_from_ms _) as [iso|] eqn:E; [|discriminate].
  intros [= <-]. simpl. auto.
Qed.

(** An entry whose time is an integer count of milliseconds is taken at
    that time. *)
Lemma hyper_parse_time (item : Py.value) (t : Z) :
  Hyperliquid.entry_time item = Some t -> 10 ^ 12 <= t ->
  parse item = ItemRaise
  \/ exists r, parse item = ItemRow r /\ funding_time_ms r = t.
Proof.
  unfold parse, Hyperliquid.parse_item, Hyperliquid.entry_time.
  destruct item as [| | | | | |kv]; try discriminate.
  cbv zeta.
  set (ft := Py.or_ (Py.or_ (Py.dget kv "time") (Py.dget kv "timestamp"))
               (Py.dget kv "t")).
  intros Hi Ht.
  assert (Hn : Py.is_none ft = false)
    by (destruct ft; try reflexivity; discriminate).
  rewrite Hn, Hi.
  replace (t <? 10 ^ 12) with false by (symmetry; apply Z.ltb_ge; lia).
  destruct (Hyperliquid.iso_from_ms t); [right|now left].
  eexists. split; reflexivity.
Qed.

Lemma hyper_parse_defined (item : Py.value) (t : Z) :
  Hyperliquid.entry_time item = Some t -> 10 ^ 12 <= t < 2 ^ 33 * 1000 ->
  exists r, parse item = ItemRow r /\ funding_time_ms r = t.
Proof.
  intros He Ht.
  destruct (hyper_parse_time item He ltac:(lia)) as [Hr|Hr]; [|exact Hr].
  exfalso. revert Hr.
  unfold parse, Hyperliquid.parse_item, Hyperliquid.entry_time in *.
  destruct item as [| | | | | |kv]; try discriminate.
  cbv zeta.
  set (ft := Py.or_ (Py.or_ (Py.dget kv "time") (Py.dget kv "timestamp"))
               (Py.dget kv "t")) in *.
  assert (Hn : Py.is_none ft = false)
    by (destruct ft; try reflexivity; discriminate).
  rewrite Hn, He.
  replace (t <? 10 ^ 12) with false by (symmetry; apply Z.ltb_ge; lia).
  destruct (@iso_from_ms_reads_back t
              ltac:(change (10 ^ 12) with 1000000000000 in Ht; lia))
    as (s & _ & Hs & _).
  unfold Hyperliquid.iso_from_ms. rewrite Hs. discriminate.
Qed.

Lemma hyper_rows_ascending (items : list Py.value) :
  forall lo hi,
  10 ^ 12 <= lo ->
  Hyperliquid.ascending_within lo hi items = true ->
  StronglySorted earlier (rows items)
  /\ Forall (fun r => lo <= funding_time_ms r <= hi) (rows items).
Proof.
  unfold rows, Hyperliquid.page_rows. fold parse.
  induction items as [|item rest IH]; intros lo hi Hlo0 H.
  - split; constructor.
  - cbn [Hyperliquid.ascending_within] in H.
    destruct (Hyperliquid.entry_time item) as [t|] eqn:Et; [|discriminate].
    apply andb_true_iff in H as [H Hrest].
    apply andb_true_iff in H as [Hlo Hhi].
    apply Z.leb_le in Hlo, Hhi.
    destruct (IH (t + 1) hi ltac:(lia) Hrest) as [IHs IHb].
    rewrite append_items_cons.
    destruct (hyper_parse_time item Et ltac:(lia)) as [Hr|(r & Hr & Hrt)];
      rewrite Hr.
    + split; constructor.
    + cbn [fst]. split.
      * constructor; [assumption|].
        eapply Forall_impl; [|exact IHb]. unfold earlier. simpl. intros; lia.
      * constructor; [lia|].
        eapply Forall_impl; [|exact IHb]. simpl. intros; lia.
Qed.

Lemma hyper_last_time_entry (items : list Py.value) :
  Hyperliquid.last_time items = Hyperliquid.entry_time (last items Py.VNone).
Proof. reflexivity. Qed.

(** The cursor leaves every row of the page behind. *)
Lemma hyper_last_bound (items : list Py.value) :
  forall lo hi t,
  10 ^ 12 <= lo ->
  Hyperliquid.ascending_within lo hi items = true -> items <> [] ->
  Hyperliquid.last_time items = Some t ->
  lo <= t <= hi /\ Forall (fun r => funding_time_ms r <= t) (rows items).
Proof.
  unfold rows, Hyperliquid.page_rows. fold parse.
  induction items as [|item rest IH]; intros lo hi t Hlo0 H Hne Hl; [congruence|].
  cbn [Hyperliquid.ascending_within] in H.
  destruct (Hyperliquid.entry_time item) as [t0|] eqn:Et; [|discriminate].
  apply andb_true_iff in H as [H Hrest].
  apply andb_true_iff in H as [Hlo Hhi].
  apply Z.leb_le in Hlo, Hhi.
  assert (Hrow : Forall (fun r => funding_time_ms r = t0)
                   (match parse item with ItemRow r => [r] | _ => [] end)).
  { destruct (hyper_parse_time item Et ltac:(lia)) as [Hr|(r & Hr & Hrt)];
      rewrite Hr; constructor; [assumption|constructor]. }
  destruct rest as [|item' rest'].
  - rewrite hyper_last_time_entry in Hl. cbn [last] in Hl.
    assert (Ht0 : t = t0) by congruence. subst t0. split; [lia|].
    rewrite append_items_cons.
    destruct (parse item) as [| |r] eqn:Ep; cbn; try constructor.
    + inversion Hrow; subst; lia.
    + constructor.
  - assert (Hl' : Hyperliquid.last_time (item' :: rest') = Some t) by exact Hl.
    destruct (IH (t0 + 1) hi t ltac:(lia) Hrest ltac:(discriminate) Hl')
      as [Hb Hall].
    split; [lia|].
    rewrite append_items_cons.
    destruct (parse item) as [| |r] eqn:Ep.
    + constructor.
    + exact Hall.
    + cbn [fst]. constructor; [inversion Hrow; subst; lia|exact Hall].
Qed.

End HyperPages.

(** ** A failed page request *)

(** C2, the claim as stated fails for the Hyperliquid fetcher: after a
    failed request it returns its accumulated rows deduplicated and
    sorted, not the rows as accumulated (here one row for two), and it
    raises when an accumulated funding rate cannot be hashed. *)
Lemma C2_hyperliquid_not_as_accumulated :
  (exists o,
     Hyperliquid.fetch_hyper_funding_for_symbol 5 Scenario.hyper_twice "ETH"
       Scenario.start_ms Scenario.end_ms = Some o
     /\ Hyperliquid.why o = StopRaised
     /\ List.length (Hyperliquid.requests o) = 2%nat
     /\ List.length (Hyperliquid.accumulated o) = 2%nat
     /\ exists r, Hyperliquid.result o = Hyperliquid.Returns [r])
  /\ (exists o,
     Hyperliquid.fetch_hyper_funding_for_symbol 5 Scenario.hyper_list_rate "ETH"
       Scenario.start_ms Scenario.end_ms = Some o
     /\ Hyperliquid.why o = StopRaised
     /\ List.length (Hyperliquid.accumulated o) = 1%nat
     /\ Hyperliquid.result o = Hyperliquid.Raises).
Proof.
  split; eexists; (split; [vm_compute; reflexivity|]);
    repeat split; try reflexivity.
  eexists; reflexivity.
Qed.

(** C2, amended: when a page request fails after any number of pages
    that let the loop go on, no exception leaves the fetcher.
    [fetch_binance_funding] and [fetch_bybit_funding_v5] return exactly
    the rows accumulated from those pages.
    [fetch_hyper_funding_for_symbol] has accumulated exactly those rows
    and returns them deduplicated by (time, rate) and sorted by time:
    provided their funding rates can be hashed, every returned row is an
    accumulated row and every accumulated row has a returned row with
    its key. *)
Theorem C2_failed_request_keeps_rows :
  (forall srv symbol start_ms end_ms pages fuel,
     Binance.served srv symbol end_ms 0 start_ms pages (fun r => r = Failed) ->
     (List.length pages < fuel)%nat ->
     Binance.fetch_binance_funding fuel srv symbol start_ms end_ms
     = Some (Binance.mkOutcome
               (flat_map (Binance.page_rows symbol) pages)
               (Binance.requests_for symbol end_ms start_ms pages
                  ++ [Binance.mkRequest symbol
                        (Binance.cursor_after start_ms pages) end_ms
                        Binance.limit])
               StopRaised))
  /\ (forall parser srv symbol start_ts end_ts pages fuel,
     Bybit.served parser srv symbol start_ts 0 end_ts pages
       (fun r => r = Failed) ->
     (List.length pages < fuel)%nat ->
     Bybit.fetch_bybit_funding_v5 parser fuel srv symbol start_ts end_ts
     = Some (Bybit.mkOutcome
               (flat_map (Bybit.page_rows parser symbol) pages)
               (Bybit.requests_for symbol start_ts end_ts pages
                  ++ [Bybit.mkRequest "linear" symbol start_ts
                        (Bybit.cursor_after end_ts pages) Bybit.limit])
               StopRaised))
  /\ (forall srv symbol start_ms end_ms bodies fuel,
     Hyperliquid.served srv symbol end_ms 0 start_ms bodies
       (fun r => r = Failed) ->
     (List.length bodies < fuel)%nat ->
     exists o,
       Hyperliquid.fetch_hyper_funding_for_symbol fuel srv symbol
         start_ms end_ms = Some o
       /\ Hyperliquid.why o = StopRaised
       /\ Hyperliquid.accumulated o
          = flat_map (Hyperliquid.page_rows symbol) bodies
       /\ Hyperliquid.result o
          = Hyperliquid.dedup_sorted (Hyperliquid.accumulated o)
       /\ (Forall (fun r => Py.hashable (funding_rate r) = true)
             (Hyperliquid.accumulated o) ->
           exists rows,
             Hyperliquid.result o = Hyperliquid.Returns rows
             /\ (forall x, In x rows -> In x (Hyperliquid.accumulated o))
             /\ (forall x, In x (Hyperliquid.accumulated o) ->
                   exists x', In x' rows
                              /\ Hyperliquid.same_key x x' = true))).
Proof.
  split; [|split].
  - intros srv symbol start_ms end_ms pages fuel Hs Hf.
    unfold Binance.fetch_binance_funding.
    destruct fuel as [|fuel]; [lia|].
    replace (S fuel) with (List.length pages + S (fuel - List.length pages))%nat
      by lia.
    destruct (@binance_loop_pages srv symbol end_ms _ pages 0%nat start_ms
                (S (fuel - List.length pages)) [] [] Hs) as [E Hlast].
    rewrite E. cbn [app plus].
    now rewrite (@binance_step_failed srv symbol end_ms _ _ _ _ _ Hlast).
  - intros parser srv symbol start_ts end_ts pages fuel Hs Hf.
    unfold Bybit.fetch_bybit_funding_v5.
    destruct fuel as [|fuel]; [lia|].
    replace (S fuel) with (List.length pages + S (fuel - List.length pages))%nat
      by lia.
    destruct (@bybit_loop_pages parser srv symbol start_ts _ pages 0%nat
                end_ts (S (fuel - List.length pages)) [] [] Hs) as [E Hlast].
    rewrite E. cbn [app plus].
    now rewrite (@bybit_step_failed parser srv symbol start_ts _ _ _ _ _ Hlast).
  - intros srv symbol start_ms end_ms bodies fuel Hs Hf.
    unfold Hyperliquid.fetch_hyper_funding_for_symbol.
    destruct fuel as [|fuel]; [lia|].
    replace (S fuel) with (List.length bodies + S (fuel - List.length bodies))%nat
      by lia.
    destruct (@hyper_loop_bodies srv symbol end_ms _ bodies 0%nat start_ms
                (S (fuel - List.length bodies)) [] [] Hs) as (E & Hc & Hlast).
    rewrite E. cbn [app plus].
    rewrite (@hyper_step_failed srv symbol end_ms _ _ _ _ _ Hc Hlast).
    eexists. split; [reflexivity|]. cbn [Hyperliquid.why
      Hyperliquid.accumulated Hyperliquid.result].
    repeat split.
    intros Hh. destruct (dedup_sorted_returns Hh) as (rows & R1 & _ & _ & R4 & R5).
    exists rows. auto.
Qed.

Lemma C2_failed_request_keeps_rows_witness :
  Binance.fetch_binance_funding 3 Scenario.binance_then_failed "BTCUSDT"
    Scenario.start_ms Scenario.end_ms
  = Some (Binance.mkOutcome
            (flat_map (Binance.page_rows "BTCUSDT") [Scenario.binance_page1000])
            (Binance.requests_for "BTCUSDT" Scenario.end_ms Scenario.start_ms
               [Scenario.binance_page1000]
               ++ [Binance.mkRequest "BTCUSDT"
                     (Binance.cursor_after Scenario.start_ms
                        [Scenario.binance_page1000])
                     Scenario.end_ms Binance.limit])
            StopRaised)
  /\ Bybit.fetch_bybit_funding_v5 Scenario.no_iso 3 Scenario.bybit_then_failed
       "BTCUSDT" Scenario.start_ms Scenario.end_ms
     = Some (Bybit.mkOutcome
               (flat_map (Bybit.page_rows Scenario.no_iso "BTCUSDT")
                  [Scenario.bybit_page200])
               (Bybit.requests_for "BTCUSDT" Scenario.start_ms Scenario.end_ms
                  [Scenario.bybit_page200]
                  ++ [Bybit.mkRequest "linear" "BTCUSDT" Scenario.start_ms
                        (Bybit.cursor_after Scenario.end_ms
                           [Scenario.bybit_page200]) Bybit.limit])
               StopRaised)
  /\ exists o,
       Hyperliquid.fetch_hyper_funding_for_symbol 3 Scenario.hyper_then_failed
         "ETH" Scenario.start_ms Scenario.end_ms = Some o
       /\ Hyperliquid.why o = StopRaised
       /\ Hyperliquid.accumulated o
          = flat_map (Hyperliquid.page_rows "ETH")
              [Py.VList Scenario.hyper_page]
       /\ Hyperliquid.result o
          = Hyperliquid.dedup_sorted (Hyperliquid.accumulated o)
       /\ (Forall (fun r => Py.hashable (funding_rate r) = true)
             (Hyperliquid.accumulated o) ->
           exists rows,
             Hyperliquid.result o = Hyperliquid.Returns rows
             /\ (forall x, In x rows -> In x (Hyperliquid.accumulated o))
             /\ (forall x, In x (Hyperliquid.accumulated o) ->
                   exists x', In x' rows
                              /\ Hyperliquid.same_key x x' = true)).
Proof.
  destruct C2_failed_request_keeps_rows as (HB & HY & HH).
  split; [|split].
  - apply HB; [|cbn [List.length]; lia].
    split; [reflexivity|]. split; [vm_compute; reflexivity|].
    split; [vm_compute; discriminate|].
    eexists. split; [vm_compute; reflexivity|reflexivity].
  - apply HY; [|cbn [List.length]; lia].
    split; [eexists; split; reflexivity|]. split; [vm_compute; reflexivity|].
    split; [vm_compute; discriminate|].
    eexists. split; [vm_compute; reflexivity|reflexivity].
  - apply HH; [|cbn [List.length]; lia].
    split; [vm_compute; discriminate|]. split; [reflexivity|].
    split; [reflexivity|]. split; [vm_compute; reflexivity|].
    eexists. split; [vm_compute; reflexivity|].
    split; [vm_compute; discriminate|reflexivity].
Defined.

(** ** An answer without entries *)

(** C5, the claim as stated fails for the Hyperliquid fetcher: an empty list
    does not end its pagination.  The request after it is issued, and
    its rows are returned. *)
Lemma C5_hyperliquid_empty_list_goes_on :
  exists o r,
    Scenario.hyper_empty_then_page 0%nat
      (Hyperliquid.request_at "ETH" Scenario.start_ms Scenario.end_ms)
    = Body (Py.VList [])
    /\ Hyperliquid.fetch_hyper_funding_for_symbol 5
         Scenario.hyper_empty_then_page "ETH"
         Scenario.start_ms Scenario.end_ms = Some o
    /\ List.length (Hyperliquid.requests o) = 3%nat
    /\ Hyperliquid.result o = Hyperliquid.Returns [r]
    /\ funding_time_ms r = Scenario.start_ms + Hyperliquid.window_ms.
Proof.
  do 2 eexists. split; [reflexivity|].
  split; [vm_compute; reflexivity|].
  repeat split.
Qed.

(** C5, amended: in [fetch_binance_funding] and [fetch_bybit_funding_v5]
    an answer without entries (for Binance anything but a non-empty
    list, for Bybit a body whose list is absent or empty) ends the
    pagination, and the rows accumulated from the pages before it are
    returned without error.  In [fetch_hyper_funding_for_symbol] such an
    answer (an empty list, a dict or a string) moves the cursor to the
    start of the next 30-day window and keeps the rows; the loop ends by
    itself once the cursor has passed [end_ms], so that an endpoint that
    only gives empty answers is asked once per window and the result is
    empty. *)
Theorem C5_no_entries :
  (forall srv symbol start_ms end_ms pages fuel,
     Binance.served srv symbol end_ms 0 start_ms pages
       (fun r => exists j, r = Body j /\ no_entries j = true) ->
     (List.length pages < fuel)%nat ->
     Binance.fetch_binance_funding fuel srv symbol start_ms end_ms
     = Some (Binance.mkOutcome
               (flat_map (Binance.page_rows symbol) pages)
               (Binance.requests_for symbol end_ms start_ms pages
                  ++ [Binance.mkRequest symbol
                        (Binance.cursor_after start_ms pages) end_ms
                        Binance.limit])
               StopEmpty))
  /\ (forall parser srv symbol start_ts end_ts pages fuel,
     Bybit.served parser srv symbol start_ts 0 end_ts pages
       (fun r => exists j, r = Body j
                           /\ Py.truthy (Bybit.page_list j) = false) ->
     (List.length pages < fuel)%nat ->
     Bybit.fetch_bybit_funding_v5 parser fuel srv symbol start_ts end_ts
     = Some (Bybit.mkOutcome
               (flat_map (Bybit.page_rows parser symbol) pages)
               (Bybit.requests_for symbol start_ts end_ts pages
                  ++ [Bybit.mkRequest "linear" symbol start_ts
                        (Bybit.cursor_after end_ts pages) Bybit.limit])
               StopEmpty))
  /\ (forall srv symbol end_ms fuel n cur j results trace,
     cur <= end_ms ->
     srv n (Hyperliquid.request_at symbol cur end_ms) = Body j ->
     Hyperliquid.has_len j = true -> no_entries j = true ->
     Hyperliquid.fetch_loop (S fuel) srv n symbol
       (Hyperliquid.extract_coin_from_symbol symbol) cur end_ms results trace
     = Hyperliquid.fetch_loop fuel srv (S n) symbol
         (Hyperliquid.extract_coin_from_symbol symbol)
         (Z.min end_ms (cur + Hyperliquid.window_ms - 1) + 1) end_ms
         results (trace ++ [Hyperliquid.request_at symbol cur end_ms]))
  /\ (forall srv symbol start_ms end_ms count,
     (forall n q, exists j, srv n q = Body j /\ Hyperliquid.has_len j = true
                            /\ no_entries j = true) ->
     end_ms - start_ms < Z.of_nat count * Hyperliquid.window_ms ->
     Hyperliquid.fetch_hyper_funding_for_symbol (S count) srv symbol
       start_ms end_ms
     = Some (Hyperliquid.mkOutcome (Hyperliquid.Returns []) []
               (Hyperliquid.fixed_windows count symbol start_ms end_ms)
               StopWindow)).
Proof.
  split; [|split; [|split]].
  - intros srv symbol start_ms end_ms pages fuel Hs Hf.
    unfold Binance.fetch_binance_funding.
    destruct fuel as [|fuel]; [lia|].
    replace (S fuel) with (List.length pages + S (fuel - List.length pages))%nat
      by lia.
    destruct (@binance_loop_pages srv symbol end_ms _ pages 0%nat start_ms
                (S (fuel - List.length pages)) [] [] Hs)
      as [E (j & Hj & Hno)].
    rewrite E. cbn [app plus].
    now rewrite (@binance_step_empty srv symbol end_ms _ _ _ j _ _ Hj Hno).
  - intros parser srv symbol start_ts end_ts pages fuel Hs Hf.
    unfold Bybit.fetch_bybit_funding_v5.
    destruct fuel as [|fuel]; [lia|].
    replace (S fuel) with (List.length pages + S (fuel - List.length pages))%nat
      by lia.
    destruct (@bybit_loop_pages parser srv symbol start_ts _ pages 0%nat
                end_ts (S (fuel - List.length pages)) [] [] Hs)
      as [E (j & Hj & Hno)].
    rewrite E. cbn [app plus].
    now rewrite (@bybit_step_empty parser srv symbol start_ts _ _ _ j _ _ Hj Hno).
  - intros srv symbol end_ms fuel n cur j results trace Hc Hj Hlen Hno.
    exact (@hyper_step_skip srv symbol end_ms fuel n cur j results trace
             Hc Hj Hlen Hno).
  - intros srv symbol start_ms end_ms count Hsrv Hc.
    unfold Hyperliquid.fetch_hyper_funding_for_symbol.
    now rewrite (@hyper_all_empty srv symbol end_ms Hsrv count 0%nat start_ms
                   [] [] Hc).
Qed.

Lemma C5_no_entries_witness :
  Binance.fetch_binance_funding 3 Scenario.binance_page_then_empty "BTCUSDT"
    Scenario.start_ms Scenario.end_ms
  = Some (Binance.mkOutcome
            (flat_map (Binance.page_rows "BTCUSDT") [Scenario.binance_page1000])
            (Binance.requests_for "BTCUSDT" Scenario.end_ms Scenario.start_ms
               [Scenario.binance_page1000]
               ++ [Binance.mkRequest "BTCUSDT"
                     (Binance.cursor_after Scenario.start_ms
                        [Scenario.binance_page1000])
                     Scenario.end_ms Binance.limit])
            StopEmpty)
  /\ Bybit.fetch_bybit_funding_v5 Scenario.no_iso 3
       Scenario.bybit_page_then_empty "BTCUSDT"
       Scenario.start_ms Scenario.end_ms
     = Some (Bybit.mkOutcome
               (flat_map (Bybit.page_rows Scenario.no_iso "BTCUSDT")
                  [Scenario.bybit_page200])
               (Bybit.requests_for "BTCUSDT" Scenario.start_ms Scenario.end_ms
                  [Scenario.bybit_page200]
                  ++ [Bybit.mkRequest "linear" "BTCUSDT" Scenario.start_ms
                        (Bybit.cursor_after Scenario.end_ms
                           [Scenario.bybit_page200]) Bybit.limit])
               StopEmpty)
  /\ Hyperliquid.fetch_loop 2 Scenario.hyper_empty_then_page 0 "ETH"
       (Hyperliquid.extract_coin_from_symbol "ETH")
       Scenario.start_ms Scenario.end_ms [] []
     = Hyperliquid.fetch_loop 1 Scenario.hyper_empty_then_page 1 "ETH"
         (Hyperliquid.extract_coin_from_symbol "ETH")
         (Z.min Scenario.end_ms
            (Scenario.start_ms + Hyperliquid.window_ms - 1) + 1)
         Scenario.end_ms []
         ([] ++ [Hyperliquid.request_at "ETH" Scenario.start_ms
                   Scenario.end_ms])
  /\ Hyperliquid.fetch_hyper_funding_for_symbol 15
       Scenario.hyper_always_empty "ETH" Scenario.start_ms Scenario.end_ms
     = Some (Hyperliquid.mkOutcome (Hyperliquid.Returns []) []
               (Hyperliquid.fixed_windows 14 "ETH" Scenario.start_ms
                  Scenario.end_ms)
               StopWindow).
Proof.
  destruct C5_no_entries as (HB & HY & HS & HA).
  split; [|split; [|split]].
  - apply HB; [|cbn [List.length]; lia].
    split; [reflexivity|]. split; [vm_compute; reflexivity|].
    split; [vm_compute; discriminate|].
    eexists. split; [vm_compute; reflexivity|].
    eexists. split; reflexivity.
  - apply HY; [|cbn [List.length]; lia].
    split; [eexists; split; reflexivity|]. split; [vm_compute; reflexivity|].
    split; [vm_compute; discriminate|].
    eexists. split; [vm_compute; reflexivity|].
    eexists. split; reflexivity.
  - apply (HS Scenario.hyper_empty_then_page "ETH"%string Scenario.end_ms 1%nat 0%nat
             Scenario.start_ms (Py.VList []) [] []);
      [vm_compute; discriminate|reflexivity|reflexivity|reflexivity].
  - apply (HA Scenario.hyper_always_empty "ETH"%string Scenario.start_ms
             Scenario.end_ms 14%nat).
    + intros n q. exists (Py.VList []). repeat split.
    + vm_compute. reflexivity.
Defined.

(** ** Two pages at Binance *)

(** C8: when the Binance endpoint answers the first request with 1000
    entries and the second with 40, served in increasing time within the
    requested window (a window that ends before 2242), the fetcher issues
    exactly two requests, the second with [startTime] one millisecond
    past the time of the last entry of the first page, stops on the
    short page, and returns the 1040 rows of the entries in increasing
    time. *)
Theorem C8_binance_two_pages :
  forall srv sym start_ms end_ms p1 p2 t fuel,
    0 <= start_ms -> end_ms < 2 ^ 33 * 1000 ->
    srv 0%nat (Binance.mkRequest sym start_ms end_ms Binance.limit)
      = Body (Py.VList p1) ->
    List.length p1 = 1000%nat ->
    Binance.ascending_within start_ms end_ms p1 = true ->
    Binance.last_time p1 = Some t ->
    srv 1%nat (Binance.mkRequest sym (t + 1) end_ms Binance.limit)
      = Body (Py.VList p2) ->
    List.length p2 = 40%nat ->
    Binance.ascending_within (t + 1) end_ms p2 = true ->
    (2 <= fuel)%nat ->
    exists rows,
      Binance.fetch_binance_funding fuel srv sym start_ms end_ms
      = Some (Binance.mkOutcome rows
                [Binance.mkRequest sym start_ms end_ms Binance.limit;
                 Binance.mkRequest sym (t + 1) end_ms Binance.limit]
                StopShort)
      /\ List.length rows = 1040%nat
      /\ StronglySorted earlier rows
      /\ Forall2 (fun item r =>
                    Binance.entry_time item = Some (funding_time_ms r)
                    /\ Py.get item "fundingRate" = Some (funding_rate r)
                    /\ symbol r = sym)
           (p1 ++ p2) rows.
Proof.
  intros srv sym start_ms end_ms p1 p2 t fuel Hs He H1 L1 A1 Ht H2 L2 A2 Hf.
  assert (N1 : p1 <> []) by (intros ->; discriminate).
  assert (N2 : p2 <> []) by (intros ->; discriminate).
  destruct (@binance_last_bound sym p1 _ _ t A1 N1 Ht) as [Bt Ball].
  destruct (@binance_rows_complete sym p1 _ _ A1 Hs He) as [O1 F1].
  destruct (@binance_rows_complete sym p2 _ _ A2 ltac:(lia) He) as [O2 F2].
  destruct (@binance_rows_ascending sym p1 _ _ A1) as [S1 W1].
  destruct (@binance_rows_ascending sym p2 _ _ A2) as [S2 W2].
  exists (Binance.page_rows sym p1 ++ Binance.page_rows sym p2).
  split; [|split; [|split]].
  - destruct fuel as [|[|fuel]]; try lia.
    unfold Binance.fetch_binance_funding.
    rewrite (@binance_step_page srv sym end_ms _ 0%nat start_ms p1 [] [] H1 N1).
    cbv zeta. rewrite O1, L1, Ht. cbn [negb app].
    replace (Z.of_nat 1000 <? Binance.limit) with false by reflexivity.
    rewrite (@binance_step_page srv sym end_ms _ 1%nat (t + 1) p2 _ _ H2 N2).
    cbv zeta. rewrite O2, L2. cbn [negb app].
    replace (Z.of_nat 40 <? Binance.limit) with true by reflexivity.
    reflexivity.
  - rewrite length_app.
    rewrite <- (Forall2_length F1), <- (Forall2_length F2), L1, L2.
    reflexivity.
  - apply StronglySorted_app; [assumption|assumption|].
    intros x y Hx Hy. rewrite Forall_forall in Ball, W2.
    specialize (Ball x Hx). specialize (W2 y Hy). unfold earlier. lia.
  - now apply Forall2_app.
Qed.

Lemma C8_binance_two_pages_witness :
  exists rows,
    Binance.fetch_binance_funding 2 Scenario.binance_1040 "BTCUSDT"
      Scenario.start_ms Scenario.end_ms
    = Some (Binance.mkOutcome rows
              [Binance.mkRequest "BTCUSDT" Scenario.start_ms Scenario.end_ms
                 Binance.limit;
               Binance.mkRequest "BTCUSDT"
                 (Scenario.start_ms + 999 * Scenario.eight_hours + 1)
                 Scenario.end_ms Binance.limit]
              StopShort)
    /\ List.length rows = 1040%nat
    /\ StronglySorted earlier rows
    /\ Forall2 (fun item r =>
                  Binance.entry_time item = Some (funding_time_ms r)
                  /\ Py.get item "fundingRate" = Some (funding_rate r)
                  /\ symbol r = "BTCUSDT"%string)
         (Scenario.binance_page1000 ++ Scenario.binance_page40) rows.
Proof.
  apply (@C8_binance_two_pages Scenario.binance_1040 "BTCUSDT"
           Scenario.start_ms Scenario.end_ms
           Scenario.binance_page1000 Scenario.binance_page40
           (Scenario.start_ms + 999 * Scenario.eight_hours) 2%nat).
  - vm_compute; discriminate.
  - vm_compute; reflexivity.
  - vm_compute; reflexivity.
  - vm_compute; reflexivity.
  - vm_compute; reflexivity.
  - vm_compute; reflexivity.
  - vm_compute; reflexivity.
  - vm_compute; reflexivity.
  - vm_compute; reflexivity.
  - lia.
Defined.

(** ** Endpoints whose answers respect every window *)

Lemma binance_echo_ordered n q data :
  Scenario.binance_echo n q = Body (Py.VList data) ->
  Binance.ascending_within (Binance.startTime q) (Binance.endTime q) data
  = true.
Proof.
  unfold Scenario.binance_echo. intros [= <-].
  destruct (Binance.startTime q <=? Binance.endTime q) eqn:E; [|reflexivity].
  cbn [Binance.ascending_within].
  change (Binance.entry_time
            (Scenario.binance_entry (Binance.req_symbol q) (Binance.startTime q)))
    with (Some (Binance.startTime q)).
  cbv beta iota. rewrite E, Z.leb_refl. reflexivity.
Qed.

Lemma page_list_bybit_body items :
  Bybit.page_list (Scenario.bybit_body items) = Py.VList items.
Proof. destruct items; reflexivity. Qed.

Lemma bybit_echo_ordered n q j items :
  Scenario.bybit_echo n q = Body j ->
  Bybit.page_list j = Py.VList items ->
  Bybit.descending_within (Bybit.startTime q) (Bybit.endTime q) items = true.
Proof.
  unfold Scenario.bybit_echo. intros [= <-].
  rewrite page_list_bybit_body. intros [= <-].
  destruct (andb _ _) eqn:E; [|reflexivity].
  apply andb_true_iff in E as [E1 E2].
  cbn [Bybit.descending_within Bybit.entry_time].
  change (Py.dget _ "fundingRateTimestamp") with (Py.VInt (Bybit.endTime q)).
  assert (Hnz : (Bybit.endTime q =? 0) = false).
  { apply Z.leb_le in E1, E2. apply Z.eqb_neq. lia. }
  cbn [Py.truthy Py.int]. rewrite Hnz. cbn [negb].
  rewrite E2, Z.leb_refl. reflexivity.
Qed.

Lemma hyper_echo_ordered n q items :
  Scenario.hyper_echo n q = Body (Py.VList items) ->
  Hyperliquid.ascending_within (Hyperliquid.startTime q)
    (Hyperliquid.endTime q) items = true.
Proof.
  unfold Scenario.hyper_echo. intros [= <-].
  destruct (andb _ _) eqn:E; [|reflexivity].
  apply andb_true_iff in E as [E1 E2].
  cbn [Hyperliquid.ascending_within Hyperliquid.entry_time Scenario.hyper_entry].
  change (Py.dget _ "time") with (Py.VInt (Hyperliquid.startTime q)).
  assert (Hnz : (Hyperliquid.startTime q =? 0) = false).
  { apply Z.leb_le in E1, E2. apply Z.eqb_neq. lia. }
  unfold Py.or_ at 2. cbn [Py.truthy]. rewrite Hnz. cbn [negb].
  unfold Py.or_. cbn [Py.truthy]. rewrite Hnz. cbn [negb Py.int].
  rewrite E2, Z.leb_refl. reflexivity.
Qed.

(** ** Invariants of the three loops *)

Section BinanceInvariant.

Variable srv : nat -> Binance.request -> response.
Variables (sym : string) (end_ms : Z).
Variable I : Z -> list FundingRecord -> Prop.
Variable P : list FundingRecord -> Prop.

Let req (cur : Z) := Binance.mkRequest sym cur end_ms Binance.limit.

Hypothesis I_final : forall cur results, I cur results -> P results.
Hypothesis I_page :
  forall n cur data results,
    srv n (req cur) = Body (Py.VList data) -> data <> [] -> I cur results ->
    P (results ++ Binance.page_rows sym data)
    /\ forall t, Binance.last_time data = Some t ->
                 I (t + 1) (results ++ Binance.page_rows sym data).

Lemma binance_loop_invariant (fuel : nat) :
  forall n cur results trace o,
    I cur results ->
    Binance.fetch_loop fuel srv n sym cur end_ms results trace = Some o ->
    P (Binance.results o).
Proof.
  induction fuel as [|fuel IH]; intros n cur results trace o Hi Ho;
    [discriminate|].
  destruct (srv n (req cur)) as [|j] eqn:Hsrv.
  - rewrite (@binance_step_failed srv sym end_ms _ _ _ _ _ Hsrv) in Ho.
    injection Ho as <-. now apply (@I_final cur).
  - destruct (no_entries j) eqn:Hno.
    + rewrite (@binance_step_empty srv sym end_ms _ _ _ j _ _ Hsrv Hno) in Ho.
      injection Ho as <-. now apply (@I_final cur).
    + destruct j as [| | | | |data|]; try discriminate.
      assert (Hne : data <> []) by (intros ->; discriminate).
      rewrite (@binance_step_page srv sym end_ms _ n cur data _ _ Hsrv Hne) in Ho.
      cbv zeta in Ho.
      destruct (@I_page n cur data results Hsrv Hne Hi) as [HP HI].
      destruct (negb _); [injection Ho as <-; exact HP|].
      destruct (_ <? _); [injection Ho as <-; exact HP|].
      destruct (Binance.last_time data) as [t|];
        [|injection Ho as <-; exact HP].
      eapply IH; [apply HI; reflexivity|exact Ho].
Qed.

End BinanceInvariant.

Section BybitInvariant.

Variable fromisoformat_ms : string -> option Z.
Variable srv : nat -> Bybit.request -> response.
Variables (sym : string) (start_ts : Z).
Variable I : Z -> list FundingRecord -> Prop.
Variable P : list FundingRecord -> Prop.

Let req (cur : Z) := Bybit.mkRequest "linear" sym start_ts cur Bybit.limit.

Hypothesis I_final : forall cur results, I cur results -> P results.
Hypothesis I_page :
  forall n cur j items results,
    srv n (req cur) = Body j -> Bybit.page_list j = Py.VList items ->
    items <> [] -> I cur results ->
    P (results ++ Bybit.page_rows fromisoformat_ms sym items)
    /\ forall t, Bybit.last_time items = Some t ->
                 I (t - 1) (results ++ Bybit.page_rows fromisoformat_ms sym items).

Lemma bybit_loop_invariant (fuel : nat) :
  forall n cur results trace o,
    I cur results ->
    Bybit.fetch_loop fromisoformat_ms fuel srv n sym start_ts cur results trace
    = Some o ->
    P (Bybit.results o).
Proof.
  induction fuel as [|fuel IH]; intros n cur results trace o Hi Ho;
    [discriminate|].
  destruct (srv n (req cur)) as [|j] eqn:Hsrv.
  - rewrite (@bybit_step_failed fromisoformat_ms srv sym start_ts _ _ _ _ _ Hsrv)
      in Ho.
    injection Ho as <-. now apply (@I_final cur).
  - destruct (Py.truthy (Bybit.page_list j)) eqn:Ht.
    + destruct (Bybit.page_list j) as [| | | | |items|] eqn:Hj.
      1-5, 7: cbn [Bybit.fetch_loop] in Ho; fold (req cur) in Ho;
        rewrite Hsrv in Ho; cbv zeta in Ho; rewrite Hj in Ho;
        cbn [Py.truthy negb] in Ho; cbn [Py.truthy] in Ht;
        try discriminate; try rewrite Ht in Ho; cbn [negb] in Ho;
        injection Ho as <-; now apply (@I_final cur).
      assert (Hne : items <> []) by (intros ->; discriminate).
      rewrite (@bybit_step_page fromisoformat_ms srv sym start_ts _ n cur j
                 items _ _ Hsrv Hj Hne) in Ho.
      cbv zeta in Ho.
      destruct (@I_page n cur j items results Hsrv Hj Hne Hi) as [HP HI].
      destruct (negb _); [injection Ho as <-; exact HP|].
      destruct (_ <? _); [injection Ho as <-; exact HP|].
      destruct (Bybit.last_time items) as [t|];
        [|injection Ho as <-; exact HP].
      eapply IH; [apply HI; reflexivity|exact Ho].
    + rewrite (@bybit_step_empty fromisoformat_ms srv sym start_ts _ _ _ j _ _
                 Hsrv Ht) in Ho.
      injection Ho as <-. now apply (@I_final cur).
Qed.

End BybitInvariant.

Section HyperInvariant.

Variable srv : nat -> Hyperliquid.request -> response.
Variables (sym : string) (end_ms : Z).
Variable I : Z -> list FundingRecord -> Prop.
Variable P : list FundingRecord -> Prop.

Let req (cur : Z) := Hyperliquid.request_at sym cur end_ms.

Hypothesis I_final : forall cur results, I cur results -> P results.
Hypothesis I_skip :
  forall cur results,
    cur <= end_ms -> I cur results ->
    I (Z.min end_ms (cur + Hyperliquid.window_ms - 1) + 1) results.
Hypothesis I_page :
  forall n cur items results,
    cur <= end_ms ->
    srv n (req cur) = Body (Py.VList items) -> items <> [] -> I cur results ->
    P (results ++ Hyperliquid.page_rows sym (Py.VList items))
    /\ forall t, Hyperliquid.last_time items = Some t ->
                 I (t + 1) (results ++ Hyperliquid.page_rows sym (Py.VList items)).

Lemma hyper_loop_invariant (fuel : nat) :
  forall n cur results trace out,
    I cur results ->
    Hyperliquid.fetch_loop fuel srv n sym
      (Hyperliquid.extract_coin_from_symbol sym) cur end_ms results trace
    = Some out ->
    P (fst (fst out)).
Proof.
  induction fuel as [|fuel IH]; intros n cur results trace out Hi Ho;
    [discriminate|].
  destruct (Z.lt_ge_cases end_ms cur) as [Hlt|Hge].
  { rewrite (@hyper_step_done srv sym end_ms _ _ _ _ _ Hlt) in Ho.
    injection Ho as <-. now apply (@I_final cur). }
  destruct (srv n (req cur)) as [|j] eqn:Hsrv.
  - rewrite (@hyper_step_failed srv sym end_ms _ _ _ _ _ Hge Hsrv) in Ho.
    injection Ho as <-. now apply (@I_final cur).
  - destruct (Hyperliquid.has_len j) eqn:Hlen.
    + destruct (no_entries j) eqn:Hno.
      * rewrite (@hyper_step_skip srv sym end_ms _ _ _ j _ _ Hge Hsrv Hlen Hno)
          in Ho.
        eapply IH; [apply I_skip; eassumption|exact Ho].
      * destruct j as [| | | | |items|]; try discriminate.
        assert (Hne : items <> []) by (intros ->; discriminate).
        rewrite (@hyper_step_page srv sym end_ms _ n cur items _ _ Hge Hsrv Hne)
          in Ho.
        cbv zeta in Ho.
        destruct (@I_page n cur items results Hge Hsrv Hne Hi) as [HP HI].
        destruct (negb _); [injection Ho as <-; exact HP|].
        destruct (Hyperliquid.last_time items) as [t|];
          [|injection Ho as <-; exact HP].
        eapply IH; [apply HI; reflexivity|exact Ho].
    + cbn [Hyperliquid.fetch_loop] in Ho.
      replace (end_ms <? cur) with false in Ho
        by (symmetry; apply Z.ltb_ge; lia).
      cbv zeta in Ho.
      change (Hyperliquid.mkRequest "fundingHistory"
                (Hyperliquid.extract_coin_from_symbol sym) cur
                (Z.min end_ms (cur + Hyperliquid.window_ms - 1)))
        with (req cur) in Ho.
      rewrite Hsrv, Hlen in Ho. cbn [negb] in Ho.
      injection Ho as <-. now apply (@I_final cur).
Qed.

End HyperInvariant.

(** ** What the fetchers return when pages come in order *)

Section SortedRuns.

Local Open Scope Z_scope.

Lemma binance_fetch_rows fuel srv sym start_ms end_ms o :
  Binance.fetch_binance_funding fuel srv sym start_ms end_ms = Some o ->
  Forall (row_of "binance" sym Binance.iso_from_ms) (Binance.results o).
Proof.
  apply (@binance_loop_invariant srv sym end_ms
           (fun _ rs => Forall (row_of "binance" sym Binance.iso_from_ms) rs)
           (Forall (row_of "binance" sym Binance.iso_from_ms))); auto.
  intros n cur data results _ _ Hr.
  assert (Forall (row_of "binance" sym Binance.iso_from_ms)
            (results ++ Binance.page_rows sym data)); [|auto].
  apply Forall_app. split; [assumption|].
  apply append_items_Forall. intros item r _ Hp.
  apply binance_parse_row in Hp as (_ & H1 & H2 & H3 & _). now split.
Qed.

Lemma bybit_fetch_rows parser fuel srv sym start_ts end_ts o :
  Bybit.fetch_bybit_funding_v5 parser fuel srv sym start_ts end_ts = Some o ->
  Forall (row_of "bybit" sym Bybit.iso_from_ms) (Bybit.results o).
Proof.
  apply (@bybit_loop_invariant parser srv sym start_ts
           (fun _ rs => Forall (row_of "bybit" sym Bybit.iso_from_ms) rs)
           (Forall (row_of "bybit" sym Bybit.iso_from_ms))); auto.
  intros n cur j items results _ _ _ Hr.
  assert (Forall (row_of "bybit" sym Bybit.iso_from_ms)
            (results ++ Bybit.page_rows parser sym items)); [|auto].
  apply Forall_app. split; [assumption|].
  apply append_items_Forall. intros item r _ Hp.
  now apply bybit_parse_row in Hp.
Qed.

Lemma hyper_loop_rows fuel srv sym start_ms end_ms out :
  Hyperliquid.fetch_loop fuel srv 0 sym
    (Hyperliquid.extract_coin_from_symbol sym) start_ms end_ms [] []
  = Some out ->
  Forall (row_of "hyperliquid" sym Hyperliquid.iso_from_ms) (fst (fst out)).
Proof.
  apply (@hyper_loop_invariant srv sym end_ms
           (fun _ rs => Forall (row_of "hyperliquid" sym Hyperliquid.iso_from_ms) rs)
           (Forall (row_of "hyperliquid" sym Hyperliquid.iso_from_ms))); auto.
  intros n cur items results _ _ _ Hr.
  assert (Forall (row_of "hyperliquid" sym Hyperliquid.iso_from_ms)
            (results ++ Hyperliquid.page_rows sym (Py.VList items))); [|auto].
  apply Forall_app. split; [assumption|].
  apply append_items_Forall. intros item r _ Hp.
  now apply hyper_parse_row in Hp.
Qed.

Lemma binance_fetch_sorted fuel srv sym start_ms end_ms o :
  (forall n q data, srv n q = Body (Py.VList data) ->
     Binance.ascending_within (Binance.startTime q) (Binance.endTime q) data
     = true) ->
  Binance.fetch_binance_funding fuel srv sym start_ms end_ms = Some o ->
  StronglySorted earlier (Binance.results o).
Proof.
  intros Hsrv.
  apply (@binance_loop_invariant srv sym end_ms
           (fun cur rs => StronglySorted earlier rs
                          /\ Forall (fun r => funding_time_ms r < cur) rs)
           (StronglySorted earlier)).
  - now intros cur rs [H _].
  - intros n cur data results Hd Hne [Hs Hb].
    specialize (Hsrv _ _ _ Hd). cbn in Hsrv.
    destruct (@binance_rows_ascending sym data _ _ Hsrv) as [S1 W1].
    assert (Hall : StronglySorted earlier (results ++ Binance.page_rows sym data)).
    { apply StronglySorted_app; [assumption|assumption|].
      intros x y Hx Hy. rewrite Forall_forall in Hb, W1.
      specialize (Hb x Hx). specialize (W1 y Hy). unfold earlier. lia. }
    split; [exact Hall|]. intros t Ht. split; [exact Hall|].
    destruct (@binance_last_bound sym data _ _ t Hsrv Hne Ht) as [Bt Ball].
    apply Forall_app. split.
    + eapply Forall_impl; [|exact Hb]. simpl. intros; lia.
    + eapply Forall_impl; [|exact Ball]. simpl. intros; lia.
  - split; constructor.
Qed.

Lemma bybit_fetch_sorted parser fuel srv sym start_ts end_ts o :
  10 ^ 12 <= start_ts ->
  (forall n q j items, srv n q = Body j -> Bybit.page_list j = Py.VList items ->
     Bybit.descending_within (Bybit.startTime q) (Bybit.endTime q) items
     = true) ->
  Bybit.fetch_bybit_funding_v5 parser fuel srv sym start_ts end_ts = Some o ->
  StronglySorted later (Bybit.results o).
Proof.
  intros Hstart Hsrv.
  apply (@bybit_loop_invariant parser srv sym start_ts
           (fun cur rs => StronglySorted later rs
                          /\ Forall (fun r => cur < funding_time_ms r) rs)
           (StronglySorted later)).
  - now intros cur rs [H _].
  - intros n cur j items results Hd Hj Hne [Hs Hb].
    specialize (Hsrv _ _ _ _ Hd Hj). cbn in Hsrv.
    destruct (@bybit_rows_descending parser sym items _ _ Hstart Hsrv)
      as [S1 W1].
    assert (Hall : StronglySorted later
                     (results ++ Bybit.page_rows parser sym items)).
    { apply StronglySorted_app; [assumption|assumption|].
      intros x y Hx Hy. rewrite Forall_forall in Hb, W1.
      specialize (Hb x Hx). specialize (W1 y Hy). unfold later. lia. }
    split; [exact Hall|]. intros t Ht. split; [exact Hall|].
    destruct (@bybit_last_bound parser sym items _ _ t Hstart Hsrv Hne Ht)
      as [Bt Ball].
    apply Forall_app. split.
    + eapply Forall_impl; [|exact Hb]. simpl. intros; lia.
    + eapply Forall_impl; [|exact Ball]. simpl. intros; lia.
  - split; constructor.
Qed.

Lemma hyper_loop_sorted fuel srv sym start_ms end_ms out :
  10 ^ 12 <= start_ms ->
  (forall n q items, srv n q = Body (Py.VList items) ->
     Hyperliquid.ascending_within (Hyperliquid.startTime q)
       (Hyperliquid.endTime q) items = true) ->
  Hyperliquid.fetch_loop fuel srv 0 sym
    (Hyperliquid.extract_coin_from_symbol sym) start_ms end_ms [] []
  = Some out ->
  StronglySorted earlier (fst (fst out)).
Proof.
  intros Hstart Hsrv.
  apply (@hyper_loop_invariant srv sym end_ms
           (fun cur rs => 10 ^ 12 <= cur /\ StronglySorted earlier rs
                          /\ Forall (fun r => funding_time_ms r < cur) rs)
           (StronglySorted earlier)).
  - now intros cur rs (_ & H & _).
  - intros cur rs Hc (H0 & Hs & Hb). unfold Hyperliquid.window_ms.
    split; [lia|]. split; [assumption|].
    eapply Forall_impl; [|exact Hb]. simpl. intros; lia.
  - intros n cur items results Hc Hd Hne (H0 & Hs & Hb).
    specialize (Hsrv _ _ _ Hd). cbn in Hsrv.
    destruct (@hyper_rows_ascending sym items _ _ H0 Hsrv) as [S1 W1].
    assert (Hall : StronglySorted earlier
                     (results ++ Hyperliquid.page_rows sym (Py.VList items))).
    { apply StronglySorted_app; [assumption|assumption|].
      intros x y Hx Hy. rewrite Forall_forall in Hb, W1.
      specialize (Hb x Hx). specialize (W1 y Hy). unfold earlier. lia. }
    split; [exact Hall|]. intros t Ht.
    destruct (@hyper_last_bound sym items _ _ t H0 Hsrv Hne Ht) as [Bt Ball].
    split; [lia|]. split; [exact Hall|].
    apply Forall_app. split.
    + eapply Forall_impl; [|exact Hb]. simpl. intros; lia.
    + eapply Forall_impl; [|exact Ball]. simpl. intros; lia.
  - split; [assumption|]. split; constructor.
Qed.

End SortedRuns.

(** ** Grouping rows by symbol *)

Section Groups.

Lemma group_add_new (r : FundingRecord) groups :
  ~ In (symbol r) (map fst groups) ->
  group_add r groups = groups ++ [(symbol r, [r])].
Proof.
  induction groups as [|[k rows] rest IH]; simpl; intros H; [reflexivity|].
  destruct (String.eqb_spec k (symbol r)) as [E|E].
  - exfalso. apply H. now left.
  - rewrite IH; [reflexivity|]. intros Hin. apply H. now right.
Qed.

Lemma group_add_last (r : FundingRecord) groups rows :
  ~ In (symbol r) (map fst groups) ->
  group_add r (groups ++ [(symbol r, rows)])
  = groups ++ [(symbol r, rows ++ [r])].
Proof.
  induction groups as [|[k rows'] rest IH]; simpl; intros H.
  - now rewrite String.eqb_refl.
  - destruct (String.eqb_spec k (symbol r)) as [E|E].
    + exfalso. apply H. now left.
    + rewrite IH; [reflexivity|]. intros Hin. apply H. now right.
Qed.

Lemma group_block_more (k : string) (rows : list FundingRecord) :
  forall groups acc,
  Forall (fun r => symbol r = k) rows -> ~ In k (map fst groups) ->
  fold_left (fun g r => group_add r g) rows (groups ++ [(k, acc)])
  = groups ++ [(k, acc ++ rows)].
Proof.
  induction rows as [|r rest IH]; intros groups acc Hk Hn; simpl.
  - now rewrite app_nil_r.
  - inversion Hk as [|? ? Hr Hrest]; subst.
    rewrite group_add_last by assumption.
    rewrite IH by assumption. now rewrite <- app_assoc.
Qed.

Lemma group_block (b : string * list FundingRecord) groups :
  keyed b -> ~ In (fst b) (map fst groups) ->
  fold_left (fun g r => group_add r g) (snd b) groups
  = groups ++ (if nonempty b then [b] else []).
Proof.
  destruct b as [k rows]. unfold keyed, nonempty. simpl. intros Hk Hn.
  destruct rows as [|r rest]; simpl; [now rewrite app_nil_r|].
  inversion Hk as [|? ? Hr Hrest]; subst.
  rewrite group_add_new by assumption.
  now rewrite group_block_more.
Qed.

Lemma group_blocks (blocks : list (string * list FundingRecord)) :
  forall groups,
  Forall keyed blocks -> NoDup (map fst groups ++ map fst blocks) ->
  fold_left (fun g r => group_add r g) (flat_map snd blocks) groups
  = groups ++ filter nonempty blocks.
Proof.
  induction blocks as [|b rest IH]; intros groups Hk Hn; simpl.
  - now rewrite app_nil_r.
  - inversion Hk as [|? ? Hb Hrest]; subst.
    rewrite fold_left_app.
    rewrite group_block; [|assumption|].
    + rewrite IH; [|assumption|].
      * rewrite <- app_assoc. now destruct (nonempty b).
      * simpl in Hn. destruct (nonempty b).
        -- rewrite map_app. simpl. rewrite <- app_assoc. exact Hn.
        -- rewrite app_nil_r. now apply NoDup_remove_1 in Hn.
    + simpl in Hn. apply NoDup_remove_2 in Hn.
      intros Hin. apply Hn. apply in_or_app. now left.
Qed.

(** Rows laid out symbol after symbol, each symbol once, are grouped
    into exactly those runs, the empty ones left out. *)
Lemma group_by_symbol_blocks (blocks : list (string * list FundingRecord)) :
  Forall keyed blocks -> NoDup (map fst blocks) ->
  group_by_symbol (flat_map snd blocks) = filter nonempty blocks.
Proof.
  intros Hk Hn. unfold group_by_symbol.
  now rewrite group_blocks.
Qed.

End Groups.

(** ** The rows [main] writes for a symbol *)

Section MainRows.

Variables (fuel : nat) (start_ms end_ms : Z).

Lemma binance_fetch_all_blocks srv (syms : list string) :
  forall k acc all,
  Binance.fetch_all fuel srv k syms start_ms end_ms acc = Some all ->
  exists blocks,
    all = acc ++ flat_map snd blocks /\ map fst blocks = syms
    /\ Forall (fun b => exists k o,
                 Binance.fetch_binance_funding fuel (fun i => srv (k + i)%nat)
                   (fst b) start_ms end_ms = Some o
                 /\ snd b = Binance.results o) blocks.
Proof.
  induction syms as [|sym rest IH]; intros k acc all H; simpl in H.
  - injection H as <-. exists []. simpl. now rewrite app_nil_r.
  - destruct (Binance.fetch_binance_funding fuel _ sym start_ms end_ms)
      as [o|] eqn:Ho; [|discriminate].
    destruct (IH _ _ _ H) as (blocks & E & Hk & Hb).
    exists ((sym, Binance.results o) :: blocks). simpl.
    split; [now rewrite E, <- app_assoc|]. split; [now rewrite Hk|].
    constructor; [|assumption]. exists k, o. now split.
Qed.

(** Each group written by Binance's [main] is what one call of the
    fetcher returned for that symbol. *)
Lemma binance_main_groups srv (syms : list string) groups sym rows :
  NoDup syms ->
  Binance.main fuel srv syms start_ms end_ms = Some groups ->
  In (sym, rows) groups ->
  exists k o,
    Binance.fetch_binance_funding fuel (fun i => srv (k + i)%nat)
      sym start_ms end_ms = Some o
    /\ rows = Binance.results o.
Proof.
  intros Hn Hm Hin. unfold Binance.main in Hm.
  destruct (Binance.fetch_all fuel srv 0 syms start_ms end_ms [])
    as [all|] eqn:Ha; [|discriminate].
  injection Hm as <-.
  destruct (binance_fetch_all_blocks _ _ _ _ Ha) as (blocks & E & Hk & Hb).
  simpl in E. subst all.
  rewrite group_by_symbol_blocks in Hin.
  - apply filter_In in Hin as [Hin _].
    rewrite Forall_forall in Hb. exact (Hb _ Hin).
  - rewrite Forall_forall in *. intros [s rs] Hs.
    destruct (Hb _ Hs) as (k & o & Ho & Hr). simpl in *. subst rs.
    unfold keyed. simpl.
    eapply Forall_impl; [|exact (binance_fetch_rows _ _ _ _ _ Ho)].
    now intros r (_ & H & _).
  - now rewrite Hk.
Qed.

Lemma bybit_fetch_all_blocks parser srv (syms : list string) :
  forall k acc all,
  Bybit.fetch_all parser fuel srv k syms start_ms end_ms acc = Some all ->
  exists blocks,
    all = acc ++ flat_map snd blocks /\ map fst blocks = syms
    /\ Forall (fun b => exists k o,
                 Bybit.fetch_bybit_funding_v5 parser fuel
                   (fun i => srv (k + i)%nat) (fst b) start_ms end_ms = Some o
                 /\ snd b = rev (Bybit.results o)) blocks.
Proof.
  induction syms as [|sym rest IH]; intros k acc all H; simpl in H.
  - injection H as <-. exists []. simpl. now rewrite app_nil_r.
  - destruct (Bybit.fetch_bybit_funding_v5 parser fuel _ sym start_ms end_ms)
      as [o|] eqn:Ho; [|discriminate].
    destruct (IH _ _ _ H) as (blocks & E & Hk & Hb).
    exists ((sym, rev (Bybit.results o)) :: blocks). simpl.
    split; [now rewrite E, <- app_assoc|]. split; [now rewrite Hk|].
    constructor; [|assumption]. exists k, o. now split.
Qed.

(** Each group written by Bybit's [main] is what one call of the
    fetcher returned for that symbol, reversed. *)
Lemma bybit_main_groups parser srv (syms : list string) groups sym rows :
  NoDup syms ->
  Bybit.main parser fuel srv syms start_ms end_ms = Some groups ->
  In (sym, rows) groups ->
  exists k o,
    Bybit.fetch_bybit_funding_v5 parser fuel (fun i => srv (k + i)%nat)
      sym start_ms end_ms = Some o
    /\ rows = rev (Bybit.results o).
Proof.
  intros Hn Hm Hin. unfold Bybit.main in Hm.
  destruct (Bybit.fetch_all parser fuel srv 0 syms start_ms end_ms [])
    as [all|] eqn:Ha; [|discriminate].
  injection Hm as <-.
  destruct (bybit_fetch_all_blocks _ _ _ _ _ Ha) as (blocks & E & Hk & Hb).
  simpl in E. subst all.
  rewrite group_by_symbol_blocks in Hin.
  - apply filter_In in Hin as [Hin _].
    rewrite Forall_forall in Hb. exact (Hb _ Hin).
  - rewrite Forall_forall in *. intros [s rs] Hs.
    destruct (Hb _ Hs) as (k & o & Ho & Hr). simpl in *. subst rs.
    unfold keyed. simpl. apply Forall_rev.
    eapply Forall_impl; [|exact (bybit_fetch_rows _ _ _ _ _ _ Ho)].
    now intros r (_ & H & _).
  - now rewrite Hk.
Qed.

Lemma hyper_fetch_rows srv sym o rows :
  Hyperliquid.fetch_hyper_funding_for_symbol fuel srv sym start_ms end_ms
  = Some o ->
  Forall (row_of "hyperliquid" sym Hyperliquid.iso_from_ms)
    (Hyperliquid.accumulated o)
  /\ (Hyperliquid.result o = Hyperliquid.Returns rows ->
      Forall (row_of "hyperliquid" sym Hyperliquid.iso_from_ms) rows).
Proof.
  unfold Hyperliquid.fetch_hyper_funding_for_symbol.
  destruct (Hyperliquid.fetch_loop _ _ _ _ _ _ _ _ _) as [[[rs tr] w]|] eqn:E;
    [|discriminate].
  intros [= <-]. simpl.
  pose proof (hyper_loop_rows _ _ _ _ _ E) as Hr. simpl in Hr.
  split; [exact Hr|].
  unfold Hyperliquid.dedup_sorted, Hyperliquid.dedup.
  destruct (forallb _ rs) eqn:Hh; [|discriminate].
  intros [= <-]. rewrite Forall_forall in *. intros x Hx.
  apply (proj1 (sorted_by_time_In _ _)) in Hx.
  assert (G : forall l d, (forall y, In y d -> In y rs) ->
              (forall y, In y l -> In y rs) ->
              forall y, In y (fold_left (fun d r => Hyperliquid.dict_put r d) l d)
                        -> In y rs).
  { induction l as [|a l IH]; intros d Hd Hl y Hy; simpl in Hy; [auto|].
    apply (IH (Hyperliquid.dict_put a d)); auto.
    - intros z Hz. apply dict_put_In in Hz as [->|Hz]; [apply Hl; now left|auto].
    - intros z Hz. apply Hl. now right. }
  apply Hr. apply (G rs []); auto. intros y [].
Qed.

Lemma hyper_fetch_all_blocks srv (syms : list string) :
  forall k acc groups,
  Hyperliquid.fetch_all fuel srv k syms start_ms end_ms acc
  = Hyperliquid.Done groups ->
  exists blocks,
    groups = group_by_symbol (acc ++ flat_map snd blocks)
    /\ map fst blocks = syms
    /\ Forall (fun b => exists k o,
                 Hyperliquid.fetch_hyper_funding_for_symbol fuel
                   (fun i => srv (k + i)%nat) (fst b) start_ms end_ms = Some o
                 /\ Hyperliquid.result o = Hyperliquid.Returns (snd b)) blocks.
Proof.
  induction syms as [|sym rest IH]; intros k acc groups H; simpl in H.
  - injection H as <-. exists []. simpl. now rewrite app_nil_r.
  - destruct (Hyperliquid.fetch_hyper_funding_for_symbol fuel _ sym
                start_ms end_ms) as [o|] eqn:Ho; [|discriminate].
    destruct (Hyperliquid.result o) as [rows|] eqn:Hr; [|discriminate].
    destruct (IH _ _ _ H) as (blocks & E & Hk & Hb).
    exists ((sym, rows) :: blocks). simpl.
    split; [now rewrite E, <- app_assoc|]. split; [now rewrite Hk|].
    constructor; [|assumption]. exists k, o. now split.
Qed.

(** Each group written by Hyperliquid's [main] is what one call of the
    fetcher returned for that symbol. *)
Lemma hyper_main_groups srv (syms : list string) groups sym rows :
  NoDup syms ->
  Hyperliquid.main fuel srv syms start_ms end_ms = Hyperliquid.Done groups ->
  In (sym, rows) groups ->
  exists k o,
    Hyperliquid.fetch_hyper_funding_for_symbol fuel (fun i => srv (k + i)%nat)
      sym start_ms end_ms = Some o
    /\ Hyperliquid.result o = Hyperliquid.Returns rows.
Proof.
  intros Hn Hm Hin. unfold Hyperliquid.main in Hm.
  destruct (hyper_fetch_all_blocks _ _ _ _ Hm) as (blocks & E & Hk & Hb).
  simpl in E. subst groups.
  rewrite group_by_symbol_blocks in Hin.
  - apply filter_In in Hin as [Hin _].
    rewrite Forall_forall in Hb. exact (Hb _ Hin).
  - rewrite Forall_forall in *. intros [s rs] Hs.
    destruct (Hb _ Hs) as (k & o & Ho & Hr). simpl in *.
    unfold keyed. simpl.
    destruct (hyper_fetch_rows _ _ rs Ho) as [_ H]. specialize (H Hr).
    eapply Forall_impl; [|exact H]. now intros r (_ & H' & _).
  - now rewrite Hk.
Qed.

End MainRows.

(** ** Order and uniqueness of the rows written *)

(** C1, the claim as stated fails: with every answer a list of entries within
    the requested window, the Hyperliquid fetcher returns, and [main]
    writes, two rows with the same [funding_time_ms] when their rates
    differ. *)
Lemma C1_hyperliquid_equal_times :
  (forall n q, exists items,
      Scenario.hyper_two_rates n q = Body (Py.VList items)
      /\ Hyperliquid.entries_within (Hyperliquid.startTime q)
           (Hyperliquid.endTime q) items = true)
  /\ exists r1 r2,
       Hyperliquid.main 40 Scenario.hyper_two_rates ["ETH"%string]
         Scenario.start_ms Scenario.end_ms
       = Hyperliquid.Done [("ETH"%string, [r1; r2])]
       /\ funding_time_ms r1 = funding_time_ms r2
       /\ ~ NoDup (map funding_time_ms [r1; r2]).
Proof.
  split.
  - intros n q. eexists. split; [reflexivity|].
    cbn [filter map fst snd].
    destruct (Scenario.in_window (Hyperliquid.startTime q)
                (Hyperliquid.endTime q) (Scenario.start_ms + 1000)) eqn:E;
      [|reflexivity].
    cbn [map fst snd Hyperliquid.entries_within forallb].
    change (Hyperliquid.entry_time
              (Scenario.hyper_entry (Hyperliquid.coin q)
                 (Scenario.start_ms + 1000) (Py.VStr "0.0000125")))
      with (Some (Scenario.start_ms + 1000)).
    change (Hyperliquid.entry_time
              (Scenario.hyper_entry (Hyperliquid.coin q)
                 (Scenario.start_ms + 1000) (Py.VStr "0.0000250")))
      with (Some (Scenario.start_ms + 1000)).
    unfold Scenario.in_window in E. cbv beta iota. now rewrite E.
  - do 2 eexists. split; [vm_compute; reflexivity|].
    split; [reflexivity|].
    intros H. inversion H as [|? ? Hn _]; subst. apply Hn. now left.
Qed.

(** C1, amended.  Whatever the endpoint answers, the rows Hyperliquid's
    [main] writes for a symbol are sorted by [funding_time_ms] (equal
    times may follow each other) and no two of them have the same
    (time, rate) key.  When in addition every list an endpoint serves
    is in strictly increasing time (decreasing for Bybit) within the
    requested window, with times in milliseconds ([start_ms >= 10^12];
    Binance takes its times as they are), the rows written for a symbol
    by each of the three [main]s are in strictly increasing
    [funding_time_ms], hence without two equal times.  Symbols are those
    of the symbol files, each listed once. *)
Theorem C1_rows_in_order :
  (forall fuel srv syms start_ms end_ms groups sym rows,
     NoDup syms ->
     Hyperliquid.main fuel srv syms start_ms end_ms = Hyperliquid.Done groups ->
     In (sym, rows) groups ->
     StronglySorted not_later rows
     /\ ForallOrdPairs (fun a b => Hyperliquid.same_key a b = false) rows)
  /\ (forall fuel srv syms start_ms end_ms groups sym rows,
     NoDup syms ->
     (forall n q data, srv n q = Body (Py.VList data) ->
        Binance.ascending_within (Binance.startTime q) (Binance.endTime q)
          data = true) ->
     Binance.main fuel srv syms start_ms end_ms = Some groups ->
     In (sym, rows) groups ->
     StronglySorted earlier rows /\ NoDup (map funding_time_ms rows))
  /\ (forall parser fuel srv syms start_ms end_ms groups sym rows,
     NoDup syms -> 10 ^ 12 <= start_ms ->
     (forall n q j items, srv n q = Body j ->
        Bybit.page_list j = Py.VList items ->
        Bybit.descending_within (Bybit.startTime q) (Bybit.endTime q)
          items = true) ->
     Bybit.main parser fuel srv syms start_ms end_ms = Some groups ->
     In (sym, rows) groups ->
     StronglySorted earlier rows /\ NoDup (map funding_time_ms rows))
  /\ (forall fuel srv syms start_ms end_ms groups sym rows,
     NoDup syms -> 10 ^ 12 <= start_ms ->
     (forall n q items, srv n q = Body (Py.VList items) ->
        Hyperliquid.ascending_within (Hyperliquid.startTime q)
          (Hyperliquid.endTime q) items = true) ->
     Hyperliquid.main fuel srv syms start_ms end_ms = Hyperliquid.Done groups ->
     In (sym, rows) groups ->
     StronglySorted earlier rows /\ NoDup (map funding_time_ms rows)).
Proof.
  split; [|split; [|split]].
  - intros fuel srv syms start_ms end_ms groups sym rows Hn Hm Hin.
    destruct (@hyper_main_groups _ _ _ _ _ _ _ _ Hn Hm Hin) as (k & o & Ho & Hr).
    unfold Hyperliquid.fetch_hyper_funding_for_symbol in Ho.
    destruct (Hyperliquid.fetch_loop _ _ _ _ _ _ _ _ _) as [[[rs tr] w]|];
      [|discriminate].
    injection Ho as <-. cbn [Hyperliquid.result] in Hr.
    assert (Hh : Forall (fun r => Py.hashable (funding_rate r) = true) rs).
    { unfold Hyperliquid.dedup_sorted, Hyperliquid.dedup in Hr.
      destruct (forallb _ rs) eqn:E; [|discriminate].
      rewrite forallb_forall in E. now apply Forall_forall. }
    destruct (dedup_sorted_returns Hh) as (rows' & R1 & R2 & R3 & _).
    rewrite R1 in Hr. injection Hr as <-. split; assumption.
  - intros fuel srv syms start_ms end_ms groups sym rows Hn Hsrv Hm Hin.
    destruct (@binance_main_groups _ _ _ _ _ _ _ _ Hn Hm Hin) as (k & o & Ho & ->).
    assert (S : StronglySorted earlier (Binance.results o)).
    { eapply binance_fetch_sorted; [|exact Ho].
      intros n q data H. exact (Hsrv (k + n)%nat q data H). }
    split; [exact S|now apply earlier_NoDup].
  - intros parser fuel srv syms start_ms end_ms groups sym rows Hn Hs Hsrv Hm Hin.
    destruct (@bybit_main_groups _ _ _ _ _ _ _ _ _ Hn Hm Hin) as (k & o & Ho & ->).
    assert (S : StronglySorted earlier (rev (Bybit.results o))).
    { apply (StronglySorted_rev (R := later)).
      eapply bybit_fetch_sorted; [exact Hs| |exact Ho].
      intros n q j items H. exact (Hsrv (k + n)%nat q j items H). }
    split; [exact S|now apply earlier_NoDup].
  - intros fuel srv syms start_ms end_ms groups sym rows Hn Hs Hsrv Hm Hin.
    destruct (@hyper_main_groups _ _ _ _ _ _ _ _ Hn Hm Hin) as (k & o & Ho & Hr).
    unfold Hyperliquid.fetch_hyper_funding_for_symbol in Ho.
    destruct (Hyperliquid.fetch_loop _ _ _ _ _ _ _ _ _) as [[[rs tr] w]|] eqn:E;
      [|discriminate].
    injection Ho as <-. cbn [Hyperliquid.result] in Hr.
    assert (S : StronglySorted earlier rs).
    { apply (@hyper_loop_sorted fuel (fun i => srv (k + i)%nat) sym start_ms
               end_ms (rs, tr, w) Hs); [|exact E].
      intros n q items H. exact (Hsrv (k + n)%nat q items H). }
    assert (Hh : Forall (fun r => Py.hashable (funding_rate r) = true) rs).
    { unfold Hyperliquid.dedup_sorted, Hyperliquid.dedup in Hr.
      destruct (forallb _ rs) eqn:E'; [|discriminate].
      rewrite forallb_forall in E'. now apply Forall_forall. }
    unfold Hyperliquid.dedup_sorted in Hr.
    rewrite (dedup_fixed Hh S), (sorted_by_time_fixed S) in Hr.
    injection Hr as <-.
    split; [exact S|now apply earlier_NoDup].
Qed.

Lemma C1_rows_in_order_witness :
  (exists rows,
     Hyperliquid.main 40 Scenario.hyper_two_rates ["ETH"%string]
       Scenario.start_ms Scenario.end_ms
     = Hyperliquid.Done [("ETH"%string, rows)]
     /\ List.length rows = 2%nat
     /\ StronglySorted not_later rows
     /\ ForallOrdPairs (fun a b => Hyperliquid.same_key a b = false) rows)
  /\ (exists rows,
     Binance.main 5 Scenario.binance_echo ["BTCUSDT"%string]
       Scenario.start_ms Scenario.short_end
     = Some [("BTCUSDT"%string, rows)]
     /\ List.length rows = 1%nat
     /\ StronglySorted earlier rows /\ NoDup (map funding_time_ms rows))
  /\ (exists rows,
     Bybit.main Scenario.no_iso 5 Scenario.bybit_echo ["BTCUSDT"%string]
       Scenario.start_ms Scenario.short_end
     = Some [("BTCUSDT"%string, rows)]
     /\ List.length rows = 1%nat
     /\ StronglySorted earlier rows /\ NoDup (map funding_time_ms rows))
  /\ (exists rows,
     Hyperliquid.main 5 Scenario.hyper_echo ["ETH"%string]
       Scenario.start_ms Scenario.short_end
     = Hyperliquid.Done [("ETH"%string, rows)]
     /\ List.length rows = 3%nat
     /\ StronglySorted earlier rows /\ NoDup (map funding_time_ms rows)).
Proof.
  destruct C1_rows_in_order as (H1 & H2 & H3 & H4).
  assert (N1 : forall s : string, NoDup [s])
    by (intros s; constructor; [intros []|constructor]).
  split; [|split; [|split]].
  - eexists. split; [vm_compute; reflexivity|]. split; [reflexivity|].
    eapply (H1 40%nat Scenario.hyper_two_rates ["ETH"%string]
              Scenario.start_ms Scenario.end_ms).
    + apply N1.
    + vm_compute; reflexivity.
    + left; reflexivity.
  - eexists. split; [vm_compute; reflexivity|]. split; [reflexivity|].
    eapply (H2 5%nat Scenario.binance_echo ["BTCUSDT"%string]
              Scenario.start_ms Scenario.short_end).
    + apply N1.
    + exact binance_echo_ordered.
    + vm_compute; reflexivity.
    + left; reflexivity.
  - eexists. split; [vm_compute; reflexivity|]. split; [reflexivity|].
    eapply (H3 Scenario.no_iso 5%nat Scenario.bybit_echo ["BTCUSDT"%string]
              Scenario.start_ms Scenario.short_end).
    + apply N1.
    + vm_compute; discriminate.
    + exact bybit_echo_ordered.
    + vm_compute; reflexivity.
    + left; reflexivity.
  - eexists. split; [vm_compute; reflexivity|]. split; [reflexivity|].
    eapply (H4 5%nat Scenario.hyper_echo ["ETH"%string]
              Scenario.start_ms Scenario.short_end).
    + apply N1.
    + vm_compute; discriminate.
    + exact hyper_echo_ordered.
    + vm_compute; reflexivity.
    + left; reflexivity.
Defined.

(** ** Normalisation of the timestamp of an entry *)

(** C3, the claim as stated fails.  The Binance fetcher takes the integer
    it reads as milliseconds whatever its size: the entry stamped
    1700000000 gives a row with [funding_time_ms = 1700000000].  The
    Hyperliquid fetcher does not try to read a date: an entry whose time
    is the text of an ISO-8601 instant gives no row. *)
Lemma C3_not_every_fetcher_normalizes :
  (exists o r,
     Binance.fetch_binance_funding 5 Scenario.binance_seconds "BTCUSDT"
       0 Scenario.end_ms = Some o
     /\ Binance.results o = [r]
     /\ funding_time_ms r = 1700000000
     /\ funding_time_ms r <> 1700000000 * 1000)
  /\ Scenario.utc_iso (Py.replace "Z" "+00:00" Scenario.iso_text)
     = Some 1700000000000
  /\ exists o,
     Hyperliquid.fetch_hyper_funding_for_symbol 5 Scenario.hyper_text "ETH"
       Scenario.start_ms Scenario.end_ms = Some o
     /\ Hyperliquid.accumulated o = []
     /\ Hyperliquid.result o = Hyperliquid.Returns [].
Proof.
  split; [|split].
  - do 2 eexists. split; [vm_compute; reflexivity|].
    split; [reflexivity|]. split; [reflexivity|]. discriminate.
  - vm_compute; reflexivity.
  - eexists. split; [vm_compute; reflexivity|]. split; reflexivity.
Qed.

(** C3, amended.  In the Bybit and Hyperliquid fetchers an entry whose
    timestamp reads as the integer [t] gives, when it gives a row, a row
    with [funding_time_ms = t * 1000] if [t < 10^12] and [= t]
    otherwise, and it does give a row when that value lies in
    [0 .. 2^33 * 1000).  In the Bybit fetcher, when the timestamp is
    present but does not read as an integer, the ISO-8601 reading is
    tried: its value is the row's time, and the entry is skipped when it
    fails too.  In the Hyperliquid fetcher a timestamp that does not read
    as an integer skips the entry.  The Binance fetcher keeps the
    integer [t] as it is. *)
Theorem C3_timestamp_normalization :
  (forall parser sym kv t r,
     Py.int (Bybit.raw_time kv) = Some t ->
     Bybit.parse_item parser sym (Py.VDict kv) = ItemRow r ->
     funding_time_ms r = scaled t)
  /\ (forall parser sym kv t,
     Py.int (Bybit.raw_time kv) = Some t ->
     0 <= scaled t < 2 ^ 33 * 1000 ->
     exists r, Bybit.parse_item parser sym (Py.VDict kv) = ItemRow r)
  /\ (forall parser sym kv,
     Py.is_none (Bybit.raw_time kv) = false ->
     Py.int (Bybit.raw_time kv) = None ->
     match Bybit.iso_fallback parser (Bybit.raw_time kv) with
     | None => Bybit.parse_item parser sym (Py.VDict kv) = ItemSkip
     | Some m =>
         (forall r, Bybit.parse_item parser sym (Py.VDict kv) = ItemRow r ->
                    funding_time_ms r = m)
         /\ (0 <= m < 2 ^ 33 * 1000 ->
             exists r, Bybit.parse_item parser sym (Py.VDict kv) = ItemRow r)
     end)
  /\ (forall sym kv t r,
     Py.int (Hyperliquid.raw_time kv) = Some t ->
     Hyperliquid.parse_item sym (Py.VDict kv) = ItemRow r ->
     funding_time_ms r = scaled t)
  /\ (forall sym kv t,
     Py.int (Hyperliquid.raw_time kv) = Some t ->
     0 <= scaled t < 2 ^ 33 * 1000 ->
     exists r, Hyperliquid.parse_item sym (Py.VDict kv) = ItemRow r)
  /\ (forall sym kv,
     Py.int (Hyperliquid.raw_time kv) = None ->
     Hyperliquid.parse_item sym (Py.VDict kv) = ItemSkip)
  /\ (forall sym item v t r,
     Py.get item "fundingTime" = Some v -> Py.int v = Some t ->
     Binance.parse_item sym item = ItemRow r ->
     funding_time_ms r = t).
Proof.
  assert (Hnone : forall v t, Py.int v = Some t -> Py.is_none v = false)
    by (intros [] ? ?; try reflexivity; discriminate).
  assert (Hiso : forall m, 0 <= m < 2 ^ 33 * 1000 ->
                           exists s, Clock.iso_from_ms m = Some s).
  { intros m Hm. destruct (iso_from_ms_reads_back Hm) as (s & Hs & _).
    now exists s. }
  assert (Hiso' : forall m, 0 <= m < 2 ^ 33 * 1000 ->
                            exists s, Clock.iso_from_ms_aware m = Some s).
  { intros m Hm. destruct (iso_from_ms_reads_back Hm) as (s & _ & Hs & _).
    now exists s. }
  repeat split.
  - intros parser sym kv t r Hi.
    unfold Bybit.parse_item. cbv zeta. fold (Bybit.raw_time kv).
    rewrite (Hnone _ _ Hi). unfold Bybit.normalize. rewrite Hi.
    fold (scaled t).
    destruct (Bybit.iso_from_ms (scaled t)); [|discriminate].
    now intros [= <-].
  - intros parser sym kv t Hi Hr.
    unfold Bybit.parse_item. cbv zeta. fold (Bybit.raw_time kv).
    rewrite (Hnone _ _ Hi). unfold Bybit.normalize. rewrite Hi.
    fold (scaled t).
    destruct (Hiso _ Hr) as (s & Hs). unfold Bybit.iso_from_ms. rewrite Hs.
    eexists; reflexivity.
  - intros parser sym kv Hn Hi.
    unfold Bybit.parse_item. cbv zeta. fold (Bybit.raw_time kv).
    rewrite Hn. unfold Bybit.normalize. rewrite Hi.
    destruct (Bybit.iso_fallback parser (Bybit.raw_time kv)) as [m|];
      [|reflexivity].
    split.
    + intros r. destruct (Bybit.iso_from_ms m); [|discriminate].
      now intros [= <-].
    + intros Hm. destruct (Hiso _ Hm) as (s & Hs).
      unfold Bybit.iso_from_ms. rewrite Hs. eexists; reflexivity.
  - intros sym kv t r Hi.
    unfold Hyperliquid.parse_item. cbv zeta. fold (Hyperliquid.raw_time kv).
    rewrite (Hnone _ _ Hi), Hi. fold (scaled t).
    destruct (Hyperliquid.iso_from_ms (scaled t)); [|discriminate].
    now intros [= <-].
  - intros sym kv t Hi Hr.
    unfold Hyperliquid.parse_item. cbv zeta. fold (Hyperliquid.raw_time kv).
    rewrite (Hnone _ _ Hi), Hi. fold (scaled t).
    destruct (Hiso' _ Hr) as (s & Hs). unfold Hyperliquid.iso_from_ms.
    rewrite Hs. eexists; reflexivity.
  - intros sym kv Hi.
    unfold Hyperliquid.parse_item. cbv zeta. fold (Hyperliquid.raw_time kv).
    rewrite Hi. now destruct (Py.is_none _).
  - intros sym item v t r Hg Hi.
    unfold Binance.parse_item. rewrite Hg, Hi.
    destruct (Py.get item "fundingRate"); [|discriminate].
    destruct (Binance.iso_from_ms t); [|discriminate].
    now intros [= <-].
Qed.

Lemma C3_timestamp_normalization_witness :
  (exists r, Bybit.parse_item Scenario.utc_iso "BTCUSDT"
               (Scenario.bybit_timed (Py.VStr "1700000000")) = ItemRow r
             /\ funding_time_ms r = 1700000000000)
  /\ (exists r, Bybit.parse_item Scenario.utc_iso "BTCUSDT"
               (Scenario.bybit_timed (Py.VInt 1700000000000)) = ItemRow r
             /\ funding_time_ms r = 1700000000000)
  /\ (exists r, Bybit.parse_item Scenario.utc_iso "BTCUSDT"
               (Scenario.bybit_timed (Py.VStr Scenario.iso_text)) = ItemRow r
             /\ funding_time_ms r = 1700000000000)
  /\ Bybit.parse_item Scenario.no_iso "BTCUSDT"
       (Scenario.bybit_timed (Py.VStr Scenario.iso_text)) = ItemSkip
  /\ (exists r, Hyperliquid.parse_item "ETH"
               (Scenario.hyper_entry "ETH" Scenario.seconds (Py.VStr "0.0000125"))
             = ItemRow r
             /\ funding_time_ms r = 1700000000000)
  /\ Hyperliquid.parse_item "ETH"
       (Py.VDict [("coin"%string, Py.VStr "ETH");
                  ("time"%string, Py.VStr Scenario.iso_text)])
     = ItemSkip
  /\ (exists r, Binance.parse_item "BTCUSDT"
               (Scenario.binance_entry "BTCUSDT" Scenario.seconds) = ItemRow r
             /\ funding_time_ms r = 1700000000).
Proof.
  destruct C3_timestamp_normalization as (B1 & B2 & B3 & H1 & H2 & H3 & N1).
  assert (R : 0 <= 1700000000000 < 2 ^ 33 * 1000) by (split; [lia|reflexivity]).
  pose (text := [("symbol"%string, Py.VStr "BTCUSDT");
                 ("fundingRate"%string, Py.VStr "0.0001");
                 ("fundingRateTimestamp"%string, Py.VStr "1700000000")]).
  pose (number := [("symbol"%string, Py.VStr "BTCUSDT");
                   ("fundingRate"%string, Py.VStr "0.0001");
                   ("fundingRateTimestamp"%string, Py.VInt 1700000000000)]).
  pose (date := [("symbol"%string, Py.VStr "BTCUSDT");
                 ("fundingRate"%string, Py.VStr "0.0001");
                 ("fundingRateTimestamp"%string, Py.VStr Scenario.iso_text)]).
  pose (hseconds := [("coin"%string, Py.VStr "ETH");
                     ("fundingRate"%string, Py.VStr "0.0000125");
                     ("premium"%string, Py.VStr "0.0");
                     ("time"%string, Py.VInt Scenario.seconds)]).
  pose (hdate := [("coin"%string, Py.VStr "ETH");
                  ("time"%string, Py.VStr Scenario.iso_text)]).
  split; [|split; [|split; [|split; [|split; [|split]]]]].
  - destruct (B2 Scenario.utc_iso "BTCUSDT"%string text 1700000000 eq_refl R)
      as [r Hr].
    exists r. split; [exact Hr|].
    exact (B1 Scenario.utc_iso "BTCUSDT"%string text 1700000000 r eq_refl Hr).
  - destruct (B2 Scenario.utc_iso "BTCUSDT"%string number 1700000000000
                eq_refl R) as [r Hr].
    exists r. split; [exact Hr|].
    exact (B1 Scenario.utc_iso "BTCUSDT"%string number 1700000000000 r
             eq_refl Hr).
  - pose proof (B3 Scenario.utc_iso "BTCUSDT"%string date eq_refl eq_refl) as H.
    change (Bybit.iso_fallback Scenario.utc_iso _) with (Some 1700000000000) in H.
    destruct H as [Ha Hb]. destruct (Hb R) as [r Hr].
    exists r. split; [exact Hr|exact (Ha r Hr)].
  - exact (B3 Scenario.no_iso "BTCUSDT"%string date eq_refl eq_refl).
  - destruct (H2 "ETH"%string hseconds 1700000000 eq_refl R) as [r Hr].
    exists r. split; [exact Hr|].
    exact (H1 "ETH"%string hseconds 1700000000 r eq_refl Hr).
  - exact (H3 "ETH"%string hdate eq_refl).
  - exists (mkRecord "binance" "BTCUSDT" 1700000000
              "1970-01-20T16:13:20Z" (Py.VStr "0.00010000")).
    split; [vm_compute; reflexivity|].
    eapply (N1 "BTCUSDT"%string
              (Scenario.binance_entry "BTCUSDT" Scenario.seconds)
              (Py.VInt 1700000000) 1700000000); [reflexivity|reflexivity|].
    vm_compute; reflexivity.
Defined.

(** ** Bybit: newest first from the fetcher, oldest first on file *)

(** C4, the claim as stated fails: [fetch_bybit_funding_v5] returns the
    rows as it accumulated them.  With 605 funding times served newest
    first in pages of 200, 200, 200 and 5, the 605 rows it returns start
    with the newest and go back in time. *)
Lemma C4_fetch_returns_newest_first :
  exists o r1 r2 rest,
    Bybit.fetch_bybit_funding_v5 Scenario.no_iso 10 Scenario.bybit_605
      "BTCUSDT" Scenario.start_ms Scenario.end_ms = Some o
    /\ List.length (Bybit.requests o) = 4%nat
    /\ List.length (Bybit.results o) = 605%nat
    /\ Bybit.results o = r1 :: r2 :: rest
    /\ funding_time_ms r2 < funding_time_ms r1
    /\ ~ StronglySorted earlier (Bybit.results o).
Proof.
  do 4 eexists.
  split; [vm_compute; reflexivity|].
  split; [reflexivity|]. split; [reflexivity|]. split; [reflexivity|].
  split; [reflexivity|].
  intros H. cbn [Bybit.results] in H.
  inversion H as [|? ? _ Hall]; subst.
  inversion Hall as [|? ? Hlt _]; subst.
  revert Hlt. vm_compute. discriminate.
Qed.

(** C4, amended.  When the Bybit endpoint answers four requests with
    200, 200, 200 and 5 entries, each list in decreasing time within the
    window of its request (times in milliseconds, the window ending
    before 2242), [fetch_bybit_funding_v5] issues exactly these four
    requests, each ending one millisecond before the oldest entry of the
    page before, and returns the 605 rows newest first, as accumulated;
    it is [main] that reverses them: the group it writes for the symbol
    is the reversed list, in increasing [funding_time_ms]. *)
Theorem C4_bybit_reversed_by_main :
  forall parser srv sym start_ts end_ts j1 j2 j3 j4 p1 p2 p3 p4 t1 t2 t3 fuel,
    10 ^ 12 <= start_ts -> end_ts < 2 ^ 33 * 1000 ->
    srv 0%nat (Bybit.mkRequest "linear" sym start_ts end_ts Bybit.limit)
      = Body j1 ->
    Bybit.page_list j1 = Py.VList p1 -> List.length p1 = 200%nat ->
    Bybit.descending_within start_ts end_ts p1 = true ->
    Bybit.last_time p1 = Some t1 ->
    srv 1%nat (Bybit.mkRequest "linear" sym start_ts (t1 - 1) Bybit.limit)
      = Body j2 ->
    Bybit.page_list j2 = Py.VList p2 -> List.length p2 = 200%nat ->
    Bybit.descending_within start_ts (t1 - 1) p2 = true ->
    Bybit.last_time p2 = Some t2 ->
    srv 2%nat (Bybit.mkRequest "linear" sym start_ts (t2 - 1) Bybit.limit)
      = Body j3 ->
    Bybit.page_list j3 = Py.VList p3 -> List.length p3 = 200%nat ->
    Bybit.descending_within start_ts (t2 - 1) p3 = true ->
    Bybit.last_time p3 = Some t3 ->
    srv 3%nat (Bybit.mkRequest "linear" sym start_ts (t3 - 1) Bybit.limit)
      = Body j4 ->
    Bybit.page_list j4 = Py.VList p4 -> List.length p4 = 5%nat ->
    Bybit.descending_within start_ts (t3 - 1) p4 = true ->
    (4 <= fuel)%nat ->
    exists rows,
      Bybit.fetch_bybit_funding_v5 parser fuel srv sym start_ts end_ts
      = Some (Bybit.mkOutcome rows
                [Bybit.mkRequest "linear" sym start_ts end_ts Bybit.limit;
                 Bybit.mkRequest "linear" sym start_ts (t1 - 1) Bybit.limit;
                 Bybit.mkRequest "linear" sym start_ts (t2 - 1) Bybit.limit;
                 Bybit.mkRequest "linear" sym start_ts (t3 - 1) Bybit.limit]
                StopShort)
      /\ List.length rows = 605%nat
      /\ StronglySorted later rows
      /\ Bybit.main parser fuel srv [sym] start_ts end_ts
         = Some [(sym, rev rows)]
      /\ StronglySorted earlier (rev rows).
Proof.
  intros parser srv sym start_ts end_ts j1 j2 j3 j4 p1 p2 p3 p4 t1 t2 t3 fuel
    Hs He H1 J1 L1 D1 T1 H2 J2 L2 D2 T2 H3 J3 L3 D3 T3 H4 J4 L4 D4 Hf.
  assert (N1 : p1 <> []) by (intros ->; discriminate).
  assert (N2 : p2 <> []) by (intros ->; discriminate).
  assert (N3 : p3 <> []) by (intros ->; discriminate).
  assert (N4 : p4 <> []) by (intros ->; discriminate).
  destruct (@bybit_last_bound parser sym p1 _ _ t1 Hs D1 N1 T1) as [B1 A1].
  destruct (@bybit_last_bound parser sym p2 _ _ t2 Hs D2 N2 T2) as [B2 A2].
  destruct (@bybit_last_bound parser sym p3 _ _ t3 Hs D3 N3 T3) as [B3 A3].
  destruct (@bybit_rows_complete parser sym p1 _ _ Hs He D1) as [O1 F1].
  destruct (@bybit_rows_complete parser sym p2 start_ts (t1 - 1) Hs
              ltac:(lia) D2) as [O2 F2].
  destruct (@bybit_rows_complete parser sym p3 start_ts (t2 - 1) Hs
              ltac:(lia) D3) as [O3 F3].
  destruct (@bybit_rows_complete parser sym p4 start_ts (t3 - 1) Hs
              ltac:(lia) D4) as [O4 F4].
  destruct (@bybit_rows_descending parser sym p1 _ _ Hs D1) as [S1 W1].
  destruct (@bybit_rows_descending parser sym p2 _ _ Hs D2) as [S2 W2].
  destruct (@bybit_rows_descending parser sym p3 _ _ Hs D3) as [S3 W3].
  destruct (@bybit_rows_descending parser sym p4 _ _ Hs D4) as [S4 W4].
  set (r1 := Bybit.page_rows parser sym p1) in *.
  set (r2 := Bybit.page_rows parser sym p2) in *.
  set (r3 := Bybit.page_rows parser sym p3) in *.
  set (r4 := Bybit.page_rows parser sym p4) in *.
  rewrite Forall_forall in A1, A2, A3, W1, W2, W3, W4.
  assert (Hfetch :
    Bybit.fetch_bybit_funding_v5 parser fuel srv sym start_ts end_ts
    = Some (Bybit.mkOutcome (((r1 ++ r2) ++ r3) ++ r4)
              [Bybit.mkRequest "linear" sym start_ts end_ts Bybit.limit;
               Bybit.mkRequest "linear" sym start_ts (t1 - 1) Bybit.limit;
               Bybit.mkRequest "linear" sym start_ts (t2 - 1) Bybit.limit;
               Bybit.mkRequest "linear" sym start_ts (t3 - 1) Bybit.limit]
              StopShort)).
  { destruct fuel as [|[|[|[|fuel]]]]; try lia.
    unfold Bybit.fetch_bybit_funding_v5.
    rewrite (@bybit_step_page parser srv sym start_ts _ 0%nat end_ts j1 p1
               [] [] H1 J1 N1).
    cbv zeta. rewrite O1, L1, T1. cbn [negb app].
    replace (Z.of_nat 200 <? Bybit.limit) with false by reflexivity.
    rewrite (@bybit_step_page parser srv sym start_ts _ 1%nat (t1 - 1) j2 p2
               _ _ H2 J2 N2).
    cbv zeta. rewrite O2, L2, T2. cbn [negb app].
    replace (Z.of_nat 200 <? Bybit.limit) with false by reflexivity.
    rewrite (@bybit_step_page parser srv sym start_ts _ 2%nat (t2 - 1) j3 p3
               _ _ H3 J3 N3).
    cbv zeta. rewrite O3, L3, T3. cbn [negb app].
    replace (Z.of_nat 200 <? Bybit.limit) with false by reflexivity.
    rewrite (@bybit_step_page parser srv sym start_ts _ 3%nat (t3 - 1) j4 p4
               _ _ H4 J4 N4).
    cbv zeta. rewrite O4, L4. cbn [negb app].
    replace (Z.of_nat 5 <? Bybit.limit) with true by reflexivity.
    reflexivity. }
  assert (Hlen : List.length (((r1 ++ r2) ++ r3) ++ r4) = 605%nat).
  { rewrite !length_app.
    rewrite <- (Forall2_length F1), <- (Forall2_length F2),
      <- (Forall2_length F3), <- (Forall2_length F4), L1, L2, L3, L4.
    reflexivity. }
  assert (Hsorted : StronglySorted later (((r1 ++ r2) ++ r3) ++ r4)).
  { unfold later.
    apply StronglySorted_app; [apply StronglySorted_app;
      [apply StronglySorted_app|..]|..]; try assumption.
    - intros x y Hx Hy. specialize (A1 x Hx). specialize (W2 y Hy).
      cbv beta in *. lia.
    - intros x y Hx Hy. specialize (W3 y Hy). cbv beta in *.
      apply in_app_or in Hx as [Hx|Hx];
        [specialize (A1 x Hx)|specialize (A2 x Hx)]; cbv beta in *; lia.
    - intros x y Hx Hy. specialize (W4 y Hy). cbv beta in *.
      apply in_app_or in Hx as [Hx|Hx];
        [apply in_app_or in Hx as [Hx|Hx]|];
        [specialize (A1 x Hx)|specialize (A2 x Hx)|specialize (A3 x Hx)];
        cbv beta in *; lia. }
  exists (((r1 ++ r2) ++ r3) ++ r4).
  split; [exact Hfetch|]. split; [exact Hlen|]. split; [exact Hsorted|].
  split.
  - unfold Bybit.main. cbn [Bybit.fetch_all].
    change (fun i : nat => srv (0 + i)%nat) with srv.
    rewrite Hfetch. cbn [Bybit.results Bybit.requests app option_map].
    f_equal.
    pose proof (bybit_fetch_rows _ _ _ _ _ _ Hfetch) as Hrows.
    cbn [Bybit.results] in Hrows.
    set (rows := ((r1 ++ r2) ++ r3) ++ r4) in *.
    assert (Hk : Forall keyed [(sym, rev rows)]).
    { constructor; [|constructor]. unfold keyed. cbn [fst snd].
      apply Forall_rev. revert Hrows. apply Forall_impl.
      intros r (_ & Hr & _). exact Hr. }
    assert (Hn : NoDup (map fst [(sym, rev rows)]))
      by (constructor; [intros []|constructor]).
    pose proof (group_by_symbol_blocks Hk Hn) as G.
    cbn [flat_map snd app filter] in G. rewrite app_nil_r in G.
    rewrite G. unfold nonempty. cbn [snd].
    destruct (rev rows) eqn:E; [|reflexivity].
    apply (f_equal (@List.length _)) in E. rewrite length_rev, Hlen in E.
    discriminate.
  - apply (StronglySorted_rev (R := later)). exact Hsorted.
Qed.

Lemma C4_bybit_reversed_by_main_witness :
  exists rows,
    Bybit.fetch_bybit_funding_v5 Scenario.no_iso 10 Scenario.bybit_605
      "BTCUSDT" Scenario.start_ms Scenario.end_ms
    = Some (Bybit.mkOutcome rows
              [Bybit.mkRequest "linear" "BTCUSDT" Scenario.start_ms
                 Scenario.end_ms Bybit.limit;
               Bybit.mkRequest "linear" "BTCUSDT" Scenario.start_ms
                 (Scenario.start_ms + 405 * Scenario.eight_hours - 1)
                 Bybit.limit;
               Bybit.mkRequest "linear" "BTCUSDT" Scenario.start_ms
                 (Scenario.start_ms + 205 * Scenario.eight_hours - 1)
                 Bybit.limit;
               Bybit.mkRequest "linear" "BTCUSDT" Scenario.start_ms
                 (Scenario.start_ms + 5 * Scenario.eight_hours - 1)
                 Bybit.limit]
              StopShort)
    /\ List.length rows = 605%nat
    /\ StronglySorted later rows
    /\ Bybit.main Scenario.no_iso 10 Scenario.bybit_605 ["BTCUSDT"%string]
         Scenario.start_ms Scenario.end_ms
       = Some [("BTCUSDT"%string, rev rows)]
    /\ StronglySorted earlier (rev rows).
Proof.
  apply (@C4_bybit_reversed_by_main Scenario.no_iso Scenario.bybit_605
           "BTCUSDT" Scenario.start_ms Scenario.end_ms
           (Scenario.bybit_body (Scenario.bybit_newest 405 200))
           (Scenario.bybit_body (Scenario.bybit_newest 205 200))
           (Scenario.bybit_body (Scenario.bybit_newest 5 200))
           (Scenario.bybit_body (Scenario.bybit_newest 0 5))
           (Scenario.bybit_newest 405 200) (Scenario.bybit_newest 205 200)
           (Scenario.bybit_newest 5 200) (Scenario.bybit_newest 0 5)
           (Scenario.start_ms + 405 * Scenario.eight_hours)
           (Scenario.start_ms + 205 * Scenario.eight_hours)
           (Scenario.start_ms + 5 * Scenario.eight_hours) 10%nat).
  - vm_compute; discriminate.
  - vm_compute; reflexivity.
  - vm_compute; reflexivity.
  - vm_compute; reflexivity.
  - vm_compute; reflexivity.
  - vm_compute; reflexivity.
  - vm_compute; reflexivity.
  - vm_compute; reflexivity.
  - vm_compute; reflexivity.
  - vm_compute; reflexivity.
  - vm_compute; reflexivity.
  - vm_compute; reflexivity.
  - vm_compute; reflexivity.
  - vm_compute; reflexivity.
  - vm_compute; reflexivity.
  - vm_compute; reflexivity.
  - vm_compute; reflexivity.
  - vm_compute; reflexivity.
  - vm_compute; reflexivity.
  - vm_compute; reflexivity.
  - vm_compute; reflexivity.
  - lia.
Defined.

(** ** Entries whose timestamp cannot be read *)

(** C6, the claim as stated fails.  The Binance fetcher has no guard
    around [int(item.get("fundingTime"))]: an entry without
    [fundingTime] ends the fetch of the symbol, and the entry after it
    gives no row.  At Bybit such an entry is skipped, but when it is the
    last of a full page the cursor cannot be read from it and the fetch
    ends there, the next page not requested. *)
Lemma C6_unreadable_entry_can_end_the_fetch :
  (exists r,
     Binance.fetch_binance_funding 5 Scenario.binance_gap "BTCUSDT"
       Scenario.start_ms Scenario.end_ms
     = Some (Binance.mkOutcome [r]
               [Binance.mkRequest "BTCUSDT" Scenario.start_ms Scenario.end_ms
                  Binance.limit]
               StopRaised)
     /\ funding_time_ms r = Scenario.start_ms)
  /\ exists rows,
     Bybit.fetch_bybit_funding_v5 Scenario.no_iso 5 Scenario.bybit_gap_last
       "BTCUSDT" Scenario.start_ms Scenario.end_ms
     = Some (Bybit.mkOutcome rows
               [Bybit.mkRequest "linear" "BTCUSDT" Scenario.start_ms
                  Scenario.end_ms Bybit.limit]
               StopRaised)
     /\ List.length rows = 199%nat.
Proof.
  split.
  - eexists. split; [vm_compute; reflexivity|reflexivity].
  - eexists. split; [vm_compute; reflexivity|reflexivity].
Qed.

(** C6, amended.  In the Bybit and Hyperliquid fetchers an entry whose
    timestamp is missing or cannot be read (at Bybit: neither as an
    integer nor as an ISO-8601 date) is skipped: the page gives the rows
    it would give without that entry, and when entries follow it in the
    page and the page lets the loop go on, the next request is issued
    from the time of the last entry of the page.  In the Binance fetcher
    such an entry ends the fetch of the symbol: the rows of the entries
    before it are kept, those after it are not read. *)
Theorem C6_unreadable_entry :
  (forall parser sym kv before after acc,
     Bybit.unreadable parser kv ->
     append_items (Bybit.parse_item parser sym)
       (before ++ Py.VDict kv :: after) acc
     = append_items (Bybit.parse_item parser sym) (before ++ after) acc)
  /\ (forall parser srv sym start_ts fuel n cur j kv before after t
             results trace,
     srv n (Bybit.mkRequest "linear" sym start_ts cur Bybit.limit) = Body j ->
     Bybit.page_list j = Py.VList (before ++ Py.VDict kv :: after) ->
     Bybit.unreadable parser kv ->
     snd (append_items (Bybit.parse_item parser sym) (before ++ after) [])
     = true ->
     Bybit.limit <= Z.of_nat (List.length (before ++ Py.VDict kv :: after)) ->
     after <> [] -> Bybit.last_time after = Some t ->
     Bybit.fetch_loop parser (S fuel) srv n sym start_ts cur results trace
     = Bybit.fetch_loop parser fuel srv (S n) sym start_ts (t - 1)
         (results ++ Bybit.page_rows parser sym (before ++ after))
         (trace ++ [Bybit.mkRequest "linear" sym start_ts cur Bybit.limit]))
  /\ (forall sym kv before after acc,
     Hyperliquid.unreadable kv ->
     append_items (Hyperliquid.parse_item sym)
       (before ++ Py.VDict kv :: after) acc
     = append_items (Hyperliquid.parse_item sym) (before ++ after) acc)
  /\ (forall srv sym end_ms fuel n cur kv before after t results trace,
     cur <= end_ms ->
     srv n (Hyperliquid.request_at sym cur end_ms)
     = Body (Py.VList (before ++ Py.VDict kv :: after)) ->
     Hyperliquid.unreadable kv ->
     snd (append_items (Hyperliquid.parse_item sym) (before ++ after) [])
     = true ->
     after <> [] -> Hyperliquid.last_time after = Some t ->
     Hyperliquid.fetch_loop (S fuel) srv n sym
       (Hyperliquid.extract_coin_from_symbol sym) cur end_ms results trace
     = Hyperliquid.fetch_loop fuel srv (S n) sym
         (Hyperliquid.extract_coin_from_symbol sym) (t + 1) end_ms
         (results ++ Hyperliquid.page_rows sym (Py.VList (before ++ after)))
         (trace ++ [Hyperliquid.request_at sym cur end_ms]))
  /\ (forall srv sym end_ms fuel n cur item before after results trace,
     srv n (Binance.mkRequest sym cur end_ms Binance.limit)
     = Body (Py.VList (before ++ item :: after)) ->
     Binance.unreadable item ->
     snd (append_items (Binance.parse_item sym) before []) = true ->
     Binance.fetch_loop (S fuel) srv n sym cur end_ms results trace
     = Some (Binance.mkOutcome (results ++ Binance.page_rows sym before)
               (trace ++ [Binance.mkRequest sym cur end_ms Binance.limit])
               StopRaised)).
Proof.
  assert (Hb : forall parser sym kv, Bybit.unreadable parser kv ->
                 Bybit.parse_item parser sym (Py.VDict kv) = ItemSkip).
  { intros parser sym kv Hu. unfold Bybit.parse_item. cbv zeta.
    fold (Bybit.raw_time kv).
    destruct Hu as [Hn|[Hi Hf]]; [now rewrite Hn|].
    destruct (Py.is_none _); [reflexivity|].
    unfold Bybit.normalize. now rewrite Hi, Hf. }
  assert (Hh : forall sym kv, Hyperliquid.unreadable kv ->
                 Hyperliquid.parse_item sym (Py.VDict kv) = ItemSkip).
  { intros sym kv Hu. unfold Hyperliquid.parse_item. cbv zeta.
    fold (Hyperliquid.raw_time kv). unfold Hyperliquid.unreadable in Hu.
    rewrite Hu. now destruct (Py.is_none _). }
  assert (Hn : forall sym item, Binance.unreadable item ->
                 Binance.parse_item sym item = ItemRaise).
  { intros sym item Hu. unfold Binance.parse_item, Binance.unreadable in *.
    destruct (Py.get item "fundingTime"); [now rewrite Hu|reflexivity]. }
  assert (Hlast : forall (x : Py.value) before after d,
             after <> [] -> last (before ++ x :: after) d = last after d).
  { intros x before after d Ha.
    induction before as [|b rest IH].
    - destruct after; [congruence|reflexivity].
    - cbn [app]. rewrite <- IH.
      destruct (rest ++ x :: after) eqn:E; [|reflexivity].
      destruct rest; discriminate. }
  split; [|split; [|split; [|split]]].
  - intros parser sym kv before after acc Hu.
    apply append_items_skip. now apply Hb.
  - intros parser srv sym start_ts fuel n cur j kv before after t
      results trace Hsrv Hj Hu Hok Hlen Ha Ht.
    assert (Hne : before ++ Py.VDict kv :: after <> [])
      by (destruct before; discriminate).
    rewrite (@bybit_step_page parser srv sym start_ts fuel n cur j _
               results trace Hsrv Hj Hne).
    cbv zeta. unfold Bybit.page_rows.
    rewrite (@append_items_skip _ before after _ [] (Hb parser sym kv Hu)).
    rewrite Hok. cbn [negb].
    replace (Z.of_nat (List.length (before ++ Py.VDict kv :: after))
             <? Bybit.limit) with false by (symmetry; apply Z.ltb_ge; lia).
    unfold Bybit.last_time in *. rewrite (Hlast _ _ _ _ Ha), Ht.
    reflexivity.
  - intros sym kv before after acc Hu.
    apply append_items_skip. now apply Hh.
  - intros srv sym end_ms fuel n cur kv before after t results trace
      Hc Hsrv Hu Hok Ha Ht.
    assert (Hne : before ++ Py.VDict kv :: after <> [])
      by (destruct before; discriminate).
    rewrite (@hyper_step_page srv sym end_ms fuel n cur _
               results trace Hc Hsrv Hne).
    cbv zeta. unfold Hyperliquid.page_rows.
    rewrite (@append_items_skip _ before after _ [] (Hh sym kv Hu)).
    rewrite Hok. cbn [negb].
    unfold Hyperliquid.last_time in *. rewrite (Hlast _ _ _ _ Ha), Ht.
    reflexivity.
  - intros srv sym end_ms fuel n cur item before after results trace
      Hsrv Hu Hok.
    assert (Hne : before ++ item :: after <> [])
      by (destruct before; discriminate).
    rewrite (@binance_step_page srv sym end_ms fuel n cur _
               results trace Hsrv Hne).
    cbv zeta. unfold Binance.page_rows.
    rewrite (@append_items_raise _ before after _ [] (Hn sym item Hu) Hok).
    reflexivity.
Qed.

Lemma C6_unreadable_entry_witness :
  append_items (Bybit.parse_item Scenario.no_iso "BTCUSDT")
    (Scenario.bybit_newest 1 1 ++ Scenario.bybit_entry_no_time
     :: Scenario.bybit_newest 0 1) []
  = append_items (Bybit.parse_item Scenario.no_iso "BTCUSDT")
      (Scenario.bybit_newest 1 1 ++ Scenario.bybit_newest 0 1) []
  /\ Bybit.fetch_loop Scenario.no_iso 5 Scenario.bybit_gap 0 "BTCUSDT"
       Scenario.start_ms Scenario.end_ms [] []
     = Bybit.fetch_loop Scenario.no_iso 4 Scenario.bybit_gap 1 "BTCUSDT"
         Scenario.start_ms (Scenario.start_ms + Scenario.eight_hours - 1)
         ([] ++ Bybit.page_rows Scenario.no_iso "BTCUSDT"
                  (Scenario.bybit_newest 101 99 ++ Scenario.bybit_newest 1 100))
         ([] ++ [Bybit.mkRequest "linear" "BTCUSDT" Scenario.start_ms
                   Scenario.end_ms Bybit.limit])
  /\ append_items (Hyperliquid.parse_item "ETH")
       ([Scenario.hyper_entry "ETH" Scenario.start_ms (Py.VStr "0.0000125")]
        ++ Scenario.hyper_entry_no_time
        :: [Scenario.hyper_entry "ETH" (Scenario.start_ms + 3600000)
              (Py.VStr "0.0000125")]) []
     = append_items (Hyperliquid.parse_item "ETH")
         ([Scenario.hyper_entry "ETH" Scenario.start_ms (Py.VStr "0.0000125")]
          ++ [Scenario.hyper_entry "ETH" (Scenario.start_ms + 3600000)
                (Py.VStr "0.0000125")]) []
  /\ Hyperliquid.fetch_loop 5 Scenario.hyper_gap 0 "ETH"
       (Hyperliquid.extract_coin_from_symbol "ETH")
       Scenario.start_ms Scenario.end_ms [] []
     = Hyperliquid.fetch_loop 4 Scenario.hyper_gap 1 "ETH"
         (Hyperliquid.extract_coin_from_symbol "ETH")
         (Scenario.start_ms + 3600000 + 1) Scenario.end_ms
         ([] ++ Hyperliquid.page_rows "ETH"
                  (Py.VList
                     ([Scenario.hyper_entry "ETH" Scenario.start_ms
                         (Py.VStr "0.0000125")]
                      ++ [Scenario.hyper_entry "ETH"
                            (Scenario.start_ms + 3600000)
                            (Py.VStr "0.0000125")])))
         ([] ++ [Hyperliquid.request_at "ETH" Scenario.start_ms
                   Scenario.end_ms])
  /\ Binance.fetch_loop 5 Scenario.binance_gap 0 "BTCUSDT"
       Scenario.start_ms Scenario.end_ms [] []
     = Some (Binance.mkOutcome
               ([] ++ Binance.page_rows "BTCUSDT"
                        [Scenario.binance_entry "BTCUSDT" Scenario.start_ms])
               ([] ++ [Binance.mkRequest "BTCUSDT" Scenario.start_ms
                         Scenario.end_ms Binance.limit])
               StopRaised).
Proof.
  destruct C6_unreadable_entry as (P1 & P2 & P3 & P4 & P5).
  split; [|split; [|split; [|split]]].
  - apply (P1 Scenario.no_iso "BTCUSDT"%string
             [("symbol"%string, Py.VStr "BTCUSDT");
              ("fundingRate"%string, Py.VStr "0.0001")]).
    left; reflexivity.
  - apply (P2 Scenario.no_iso Scenario.bybit_gap "BTCUSDT"%string
             Scenario.start_ms 4%nat 0%nat Scenario.end_ms
             (Scenario.bybit_body
                (Scenario.bybit_newest 101 99 ++ Scenario.bybit_entry_no_time
                 :: Scenario.bybit_newest 1 100))
             [("symbol"%string, Py.VStr "BTCUSDT");
              ("fundingRate"%string, Py.VStr "0.0001")]
             (Scenario.bybit_newest 101 99) (Scenario.bybit_newest 1 100)
             (Scenario.start_ms + Scenario.eight_hours) [] []).
    + vm_compute; reflexivity.
    + vm_compute; reflexivity.
    + left; reflexivity.
    + vm_compute; reflexivity.
    + vm_compute; discriminate.
    + vm_compute; discriminate.
    + vm_compute; reflexivity.
  - apply (P3 "ETH"%string
             [("coin"%string, Py.VStr "ETH");
              ("fundingRate"%string, Py.VStr "0.0000125")]).
    reflexivity.
  - apply (P4 Scenario.hyper_gap "ETH"%string Scenario.end_ms 4%nat 0%nat
             Scenario.start_ms
             [("coin"%string, Py.VStr "ETH");
              ("fundingRate"%string, Py.VStr "0.0000125")]
             [Scenario.hyper_entry "ETH" Scenario.start_ms (Py.VStr "0.0000125")]
             [Scenario.hyper_entry "ETH" (Scenario.start_ms + 3600000)
                (Py.VStr "0.0000125")]
             (Scenario.start_ms + 3600000) [] []).
    + vm_compute; discriminate.
    + vm_compute; reflexivity.
    + reflexivity.
    + vm_compute; reflexivity.
    + discriminate.
    + vm_compute; reflexivity.
  - apply (P5 Scenario.binance_gap "BTCUSDT"%string Scenario.end_ms 4%nat
             0%nat Scenario.start_ms Scenario.binance_entry_no_time
             [Scenario.binance_entry "BTCUSDT" Scenario.start_ms]
             [Scenario.binance_entry "BTCUSDT"
                (Scenario.start_ms + Scenario.eight_hours)] [] []).
    + vm_compute; reflexivity.
    + reflexivity.
    + vm_compute; reflexivity.
Defined.

(** ** The requests and the rows of a Hyperliquid fetch *)

Section HyperTrace.

Variable srv : nat -> Hyperliquid.request -> response.
Variables (sym : string) (end_ms : Z).

Let req (cur : Z) := Hyperliquid.request_at sym cur end_ms.
Let loop (fuel n : nat) (cur : Z) :=
  Hyperliquid.fetch_loop fuel srv n sym
    (Hyperliquid.extract_coin_from_symbol sym) cur end_ms.

Lemma next_cursor_skip (cur : Z) (j : Py.value) :
  no_entries j = true ->
  Hyperliquid.next_cursor end_ms cur j
  = Z.min end_ms (cur + Hyperliquid.window_ms - 1) + 1
  /\ Hyperliquid.page_rows sym j = [].
Proof.
  destruct j as [| | | | |l|]; try (split; reflexivity).
  destruct l; [split; reflexivity|discriminate].
Qed.

Lemma next_cursor_page (cur t : Z) (items : list Py.value) :
  items <> [] -> Hyperliquid.last_time items = Some t ->
  Hyperliquid.next_cursor end_ms cur (Py.VList items) = t + 1.
Proof.
  intros Hne Ht. unfold Hyperliquid.next_cursor.
  destruct items; [congruence|]. now rewrite Ht.
Qed.

(** How a run that returns went: each request was made at the cursor the
    answer before it left, the rows are those of the answers in order,
    and the loop ended by itself, the cursor past [end_ms], or on a
    request whose answer could not be used. *)
Lemma hyper_loop_run (fuel : nat) :
  forall n cur results trace out,
  loop fuel n cur results trace = Some out ->
  exists bodies,
    Hyperliquid.answered srv sym end_ms n cur bodies
    /\ ((end_ms < Hyperliquid.cursor_after end_ms cur bodies
         /\ out = (results ++ flat_map (Hyperliquid.page_rows sym) bodies,
                   trace ++ Hyperliquid.requests_for sym end_ms cur bodies,
                   StopWindow))
        \/ (Hyperliquid.cursor_after end_ms cur bodies <= end_ms
            /\ out
               = (results ++ flat_map (Hyperliquid.page_rows sym) bodies
                    ++ Hyperliquid.rows_of_response sym
                         (srv (n + List.length bodies)%nat
                            (req (Hyperliquid.cursor_after end_ms cur bodies))),
                  trace ++ Hyperliquid.requests_for sym end_ms cur bodies
                    ++ [req (Hyperliquid.cursor_after end_ms cur bodies)],
                  StopRaised))).
Proof.
  unfold loop.
  induction fuel as [|fuel IH]; intros n cur results trace out H;
    [discriminate|].
  assert (Stop : forall rs,
            cur <= end_ms ->
            rs = Hyperliquid.rows_of_response sym (srv n (req cur)) ->
            out = (results ++ rs, trace ++ [req cur], StopRaised) ->
            exists bodies,
              Hyperliquid.answered srv sym end_ms n cur bodies
              /\ ((end_ms < Hyperliquid.cursor_after end_ms cur bodies
                   /\ out
                      = (results ++ flat_map (Hyperliquid.page_rows sym) bodies,
                         trace ++ Hyperliquid.requests_for sym end_ms cur bodies,
                         StopWindow))
                  \/ (Hyperliquid.cursor_after end_ms cur bodies <= end_ms
                      /\ out
                         = (results
                              ++ flat_map (Hyperliquid.page_rows sym) bodies
                              ++ Hyperliquid.rows_of_response sym
                                   (srv (n + List.length bodies)%nat
                                      (req (Hyperliquid.cursor_after end_ms
                                              cur bodies))),
                            trace
                              ++ Hyperliquid.requests_for sym end_ms cur bodies
                              ++ [req (Hyperliquid.cursor_after end_ms cur
                                         bodies)],
                            StopRaised)))).
  { intros rs Hc -> ->. exists []. split; [exact I|]. right.
    cbn [Hyperliquid.cursor_after fold_left flat_map List.length
         Hyperliquid.requests_for app].
    rewrite Nat.add_0_r. auto. }
  assert (Go : forall j,
            cur <= end_ms -> srv n (req cur) = Body j ->
            Hyperliquid.fetch_loop fuel srv (S n) sym
              (Hyperliquid.extract_coin_from_symbol sym)
              (Hyperliquid.next_cursor end_ms cur j) end_ms
              (results ++ Hyperliquid.page_rows sym j)
              (trace ++ [req cur]) = Some out ->
            exists bodies,
              Hyperliquid.answered srv sym end_ms n cur bodies
              /\ ((end_ms < Hyperliquid.cursor_after end_ms cur bodies
                   /\ out
                      = (results ++ flat_map (Hyperliquid.page_rows sym) bodies,
                         trace ++ Hyperliquid.requests_for sym end_ms cur bodies,
                         StopWindow))
                  \/ (Hyperliquid.cursor_after end_ms cur bodies <= end_ms
                      /\ out
                         = (results
                              ++ flat_map (Hyperliquid.page_rows sym) bodies
                              ++ Hyperliquid.rows_of_response sym
                                   (srv (n + List.length bodies)%nat
                                      (req (Hyperliquid.cursor_after end_ms
                                              cur bodies))),
                            trace
                              ++ Hyperliquid.requests_for sym end_ms cur bodies
                              ++ [req (Hyperliquid.cursor_after end_ms cur
                                         bodies)],
                            StopRaised)))).
  { intros j Hc Hj Hgo.
    destruct (IH _ _ _ _ _ Hgo) as (bodies & A & [[C E]|[C E]]);
      exists (j :: bodies);
      (split; [cbn [Hyperliquid.answered]; auto|]).
    - left. split; [exact C|]. rewrite E.
      cbn [flat_map Hyperliquid.requests_for]. now rewrite <- !app_assoc.
    - right. split; [exact C|]. rewrite E.
      cbn [flat_map Hyperliquid.requests_for List.length
           Hyperliquid.cursor_after fold_left].
      rewrite Nat.add_succ_r. cbn [Nat.add]. now rewrite <- !app_assoc. }
  destruct (Z.lt_ge_cases end_ms cur) as [Hlt|Hge].
  - rewrite (@hyper_step_done srv sym end_ms fuel n cur results trace Hlt) in H.
    injection H as <-. exists []. split; [exact I|]. left.
    cbn. rewrite !app_nil_r. auto.
  - pose proof (eq_refl (srv n (req cur))) as Hj. revert Hj.
    generalize (srv n (req cur)) at 2. intros [|j] Hj.
    + rewrite (@hyper_step_failed srv sym end_ms fuel n cur results trace
                 Hge Hj) in H.
      injection H as H. apply (Stop [] Hge); [now rewrite Hj|].
      now rewrite app_nil_r.
    + destruct (Hyperliquid.has_len j) eqn:Hlen.
      * destruct (no_entries j) eqn:Hno.
        -- rewrite (@hyper_step_skip srv sym end_ms fuel n cur j results trace
                      Hge Hj Hlen Hno) in H.
           destruct (next_cursor_skip cur j Hno) as [Ec Er].
           apply (Go j Hge Hj). now rewrite Ec, Er, app_nil_r.
        -- destruct j as [| | | | |items|]; try discriminate.
           assert (Hne : items <> []) by (intros ->; discriminate).
           rewrite (@hyper_step_page srv sym end_ms fuel n cur items results
                      trace Hge Hj Hne) in H.
           cbv zeta in H.
           destruct (negb _);
             [injection H as H;
              apply (Stop (Hyperliquid.page_rows sym (Py.VList items)) Hge);
              [now rewrite Hj|now symmetry]|].
           destruct (Hyperliquid.last_time items) as [t|] eqn:Ht;
             [|injection H as H;
               apply (Stop (Hyperliquid.page_rows sym (Py.VList items)) Hge);
               [now rewrite Hj|now symmetry]].
           apply (Go (Py.VList items) Hge Hj).
           now rewrite (next_cursor_page cur Hne Ht).
      * cbn [Hyperliquid.fetch_loop] in H.
        replace (end_ms <? cur) with false in H
          by (symmetry; apply Z.ltb_ge; lia).
        cbv zeta in H. unfold req, Hyperliquid.request_at in Hj.
        rewrite Hj, Hlen in H. cbn [negb] in H.
        injection H as H. apply (Stop [] Hge).
        -- unfold req, Hyperliquid.request_at. rewrite Hj.
           destruct j; try reflexivity; discriminate.
        -- now rewrite app_nil_r.
Qed.

(** Answers that let the loop go on until the cursor has passed [end_ms]
    make it return by itself, with the rows of all of them. *)
Lemma hyper_loop_completes (bodies : list Py.value) :
  forall fuel n cur results trace,
  Hyperliquid.completes srv sym end_ms n cur bodies ->
  (List.length bodies < fuel)%nat ->
  loop fuel n cur results trace
  = Some (results ++ flat_map (Hyperliquid.page_rows sym) bodies,
          trace ++ Hyperliquid.requests_for sym end_ms cur bodies,
          StopWindow).
Proof.
  unfold loop.
  induction bodies as [|j rest IH]; intros fuel n cur results trace Hc Hf;
    (destruct fuel as [|fuel]; [cbn [List.length] in Hf; lia|]).
  - cbn [Hyperliquid.completes] in Hc.
    rewrite (@hyper_step_done srv sym end_ms fuel n cur results trace Hc).
    cbn. now rewrite !app_nil_r.
  - cbn [Hyperliquid.completes] in Hc.
    destruct Hc as (Hge & Hj & Hlen & Hrest).
    cbn [List.length] in Hf.
    destruct (no_entries j) eqn:Hno.
    + rewrite (@hyper_step_skip srv sym end_ms fuel n cur j results trace
                 Hge Hj Hlen Hno).
      destruct (next_cursor_skip cur j Hno) as [Ec Er].
      assert (Hrest' : Hyperliquid.completes srv sym end_ms (S n)
                         (Z.min end_ms (cur + Hyperliquid.window_ms - 1) + 1)
                         rest).
      { destruct j as [| | | | |l|]; try exact Hrest.
        destruct l; [exact Hrest|discriminate]. }
      rewrite (IH fuel (S n) _ results _ Hrest') by lia.
      cbn [flat_map Hyperliquid.requests_for]. rewrite Er, Ec.
      cbn [app]. now rewrite <- app_assoc.
    + destruct j as [| | | | |items|]; try discriminate.
      destruct items as [|item more]; [discriminate|].
      destruct Hrest as (Hok & t & Ht & Hrest).
      rewrite (@hyper_step_page srv sym end_ms fuel n cur (item :: more)
                 results trace Hge Hj ltac:(discriminate)).
      cbv zeta. rewrite Hok, Ht. cbn [negb].
      rewrite (IH fuel (S n) (t + 1) _ _ Hrest) by lia.
      cbn [flat_map Hyperliquid.requests_for].
      rewrite (@next_cursor_page cur t (item :: more) ltac:(discriminate) Ht).
      now rewrite <- !app_assoc.
Qed.

End HyperTrace.

(** ** Hyperliquid: windows, deduplication and order *)

(** C7, the claim as stated fails.  The windows are not laid out before
    the loop: after an answer with entries the next request starts one
    millisecond past the last entry, so the second request of this run
    is none of the windows of a segmentation into 30-day windows.  And
    rows are deduplicated once, after the loop, over everything
    accumulated: the same entry answered to two requests gives one
    row. *)
Lemma C7_windows_follow_entries_dedup_is_global :
  (exists o,
     Hyperliquid.fetch_hyper_funding_for_symbol 5 Scenario.hyper_then_failed
       "ETH" Scenario.start_ms Scenario.end_ms = Some o
     /\ Hyperliquid.requests o
        = [Hyperliquid.request_at "ETH" Scenario.start_ms Scenario.end_ms;
           Hyperliquid.request_at "ETH" (Scenario.start_ms + 3600000 + 1)
             Scenario.end_ms]
     /\ ~ In (Hyperliquid.request_at "ETH" (Scenario.start_ms + 3600000 + 1)
                Scenario.end_ms)
            (Hyperliquid.fixed_windows 20 "ETH" Scenario.start_ms
               Scenario.end_ms))
  /\ exists o r,
     Hyperliquid.fetch_hyper_funding_for_symbol 5 Scenario.hyper_repeat
       "ETH" Scenario.start_ms Scenario.end_ms = Some o
     /\ List.length (Hyperliquid.requests o) = 3%nat
     /\ Hyperliquid.accumulated o = [r; r]
     /\ Hyperliquid.result o = Hyperliquid.Returns [r].
Proof.
  split.
  - eexists. split; [vm_compute; reflexivity|]. split; [reflexivity|].
    intros H. vm_compute in H.
    repeat (destruct H as [H|H]; [discriminate|]). exact H.
  - do 2 eexists. split; [vm_compute; reflexivity|].
    split; [reflexivity|]. split; reflexivity.
Qed.

(** C7, amended.  Each request of the Hyperliquid fetcher covers at most
    thirty days: it runs from the cursor to
    [min(end_ms, cursor + window_ms - 1)].  The cursor is [start_ms] at
    first; an answer with entries moves it one millisecond past the time
    of its last entry, an answer without entries one millisecond past
    the end of the window.  When the answers let the loop go on until
    the cursor has passed [end_ms], the fetcher returns by itself: it
    has made exactly these requests, it has accumulated the rows of all
    the answers, in order, and it returns them deduplicated by
    (funding_time_ms, funding_rate) and sorted by [funding_time_ms],
    once, after the loop.  In particular, when every answer is without
    entries the requests are the windows of the segmentation of
    [start_ms .. end_ms] into 30-day windows.  A run that returns
    otherwise stopped at a request whose answer could not be used and
    has accumulated the rows of the answers before it and those read
    from that answer.  The deduplication and sort of rows whose rates
    can be hashed returns rows in increasing time, no two with the same
    key, each of them a row given, and every row given has its key
    among them. *)
Theorem C7_hyperliquid_windows :
  (forall srv sym start_ms end_ms bodies fuel,
     Hyperliquid.completes srv sym end_ms 0 start_ms bodies ->
     (List.length bodies < fuel)%nat ->
     Hyperliquid.fetch_hyper_funding_for_symbol fuel srv sym start_ms end_ms
     = Some (Hyperliquid.mkOutcome
               (Hyperliquid.dedup_sorted
                  (flat_map (Hyperliquid.page_rows sym) bodies))
               (flat_map (Hyperliquid.page_rows sym) bodies)
               (Hyperliquid.requests_for sym end_ms start_ms bodies)
               StopWindow))
  /\ (forall sym end_ms cur bodies,
     Forall (fun q => Hyperliquid.req_type q = "fundingHistory"%string
                      /\ Hyperliquid.coin q
                         = Hyperliquid.extract_coin_from_symbol sym
                      /\ Hyperliquid.endTime q
                         = Z.min end_ms
                             (Hyperliquid.startTime q
                              + 30 * 24 * 3600 * 1000 - 1))
       (Hyperliquid.requests_for sym end_ms cur bodies)
     /\ forall j rest,
          bodies = j :: rest ->
          exists q,
            Hyperliquid.requests_for sym end_ms cur bodies
            = q :: Hyperliquid.requests_for sym end_ms
                     (Hyperliquid.next_cursor end_ms cur j) rest
            /\ Hyperliquid.startTime q = cur
            /\ (no_entries j = true ->
                Hyperliquid.next_cursor end_ms cur j
                = Hyperliquid.endTime q + 1)
            /\ (forall items t,
                  j = Py.VList items -> items <> [] ->
                  Hyperliquid.last_time items = Some t ->
                  Hyperliquid.next_cursor end_ms cur j = t + 1))
  /\ (forall srv sym start_ms end_ms count,
     (forall n q, exists j, srv n q = Body j
                            /\ Hyperliquid.has_len j = true
                            /\ no_entries j = true) ->
     end_ms - start_ms < Z.of_nat count * Hyperliquid.window_ms ->
     Hyperliquid.fetch_hyper_funding_for_symbol (S count) srv sym
       start_ms end_ms
     = Some (Hyperliquid.mkOutcome (Hyperliquid.Returns []) []
               (Hyperliquid.fixed_windows count sym start_ms end_ms)
               StopWindow))
  /\ (forall fuel srv sym start_ms end_ms o,
     Hyperliquid.fetch_hyper_funding_for_symbol fuel srv sym start_ms end_ms
     = Some o ->
     Hyperliquid.result o = Hyperliquid.dedup_sorted (Hyperliquid.accumulated o)
     /\ exists bodies,
          Hyperliquid.answered srv sym end_ms 0 start_ms bodies
          /\ ((end_ms < Hyperliquid.cursor_after end_ms start_ms bodies
               /\ Hyperliquid.why o = StopWindow
               /\ Hyperliquid.requests o
                  = Hyperliquid.requests_for sym end_ms start_ms bodies
               /\ Hyperliquid.accumulated o
                  = flat_map (Hyperliquid.page_rows sym) bodies)
              \/ (Hyperliquid.cursor_after end_ms start_ms bodies <= end_ms
                  /\ Hyperliquid.why o = StopRaised
                  /\ Hyperliquid.requests o
                     = Hyperliquid.requests_for sym end_ms start_ms bodies
                       ++ [Hyperliquid.request_at sym
                             (Hyperliquid.cursor_after end_ms start_ms bodies)
                             end_ms]
                  /\ Hyperliquid.accumulated o
                     = flat_map (Hyperliquid.page_rows sym) bodies
                       ++ Hyperliquid.rows_of_response sym
                            (srv (List.length bodies)
                               (Hyperliquid.request_at sym
                                  (Hyperliquid.cursor_after end_ms start_ms
                                     bodies) end_ms)))))
  /\ (forall l,
     Forall (fun r => Py.hashable (funding_rate r) = true) l ->
     exists rows,
       Hyperliquid.dedup_sorted l = Hyperliquid.Returns rows
       /\ StronglySorted not_later rows
       /\ ForallOrdPairs (fun a b => Hyperliquid.same_key a b = false) rows
       /\ (forall x, In x rows -> In x l)
       /\ (forall x, In x l ->
             exists x', In x' rows /\ Hyperliquid.same_key x x' = true)).
Proof.
  split; [|split; [|split; [|split]]].
  - intros srv sym start_ms end_ms bodies fuel Hc Hf.
    unfold Hyperliquid.fetch_hyper_funding_for_symbol.
    rewrite (@hyper_loop_completes srv sym end_ms bodies fuel 0%nat start_ms
               [] [] Hc Hf).
    reflexivity.
  - intros sym end_ms cur bodies. split.
    + revert cur. induction bodies as [|j rest IH]; intros cur;
        cbn [Hyperliquid.requests_for]; constructor; [|apply IH].
      unfold Hyperliquid.request_at, Hyperliquid.window_ms.
      cbn [Hyperliquid.req_type Hyperliquid.coin Hyperliquid.endTime
           Hyperliquid.startTime]. auto.
    + intros j rest ->. eexists. split; [reflexivity|].
      split; [reflexivity|]. split.
      * intros Hno.
        destruct j as [| | | | |l|]; try reflexivity.
        destruct l; [reflexivity|discriminate].
      * intros items t -> Hne Ht. unfold Hyperliquid.next_cursor.
        destruct items; [congruence|]. now rewrite Ht.
  - intros srv sym start_ms end_ms count Hsrv Hc.
    unfold Hyperliquid.fetch_hyper_funding_for_symbol.
    rewrite (@hyper_all_empty srv sym end_ms Hsrv count 0%nat start_ms [] [] Hc).
    reflexivity.
  - intros fuel srv sym start_ms end_ms o H.
    unfold Hyperliquid.fetch_hyper_funding_for_symbol in H.
    destruct (Hyperliquid.fetch_loop _ _ _ _ _ _ _ _ _) as [[[rs tr] w]|] eqn:E;
      [|discriminate].
    injection H as <-.
    cbn [Hyperliquid.result Hyperliquid.accumulated Hyperliquid.requests
         Hyperliquid.why].
    split; [reflexivity|].
    destruct (@hyper_loop_run srv sym end_ms fuel 0%nat start_ms [] []
                (rs, tr, w) E) as (bodies & A & [[C Eo]|[C Eo]]);
      exists bodies; (split; [exact A|]); injection Eo as -> -> ->;
      [left|right]; cbn [app Nat.add]; auto.
  - intros l Hh.
    destruct (dedup_sorted_returns Hh) as (rows & R1 & R2 & R3 & R4 & R5).
    exists rows. auto.
Qed.

Lemma C7_hyperliquid_windows_witness :
  (exists rows,
     Hyperliquid.fetch_hyper_funding_for_symbol 5 Scenario.hyper_six_weeks
       "ETH" Scenario.start_ms Scenario.end_40d
     = Some (Hyperliquid.mkOutcome (Hyperliquid.Returns rows) rows
               [Hyperliquid.request_at "ETH" Scenario.start_ms
                  Scenario.end_40d;
                Hyperliquid.request_at "ETH" (Scenario.start_ms + 3600000 + 1)
                  Scenario.end_40d;
                Hyperliquid.request_at "ETH"
                  (Scenario.start_ms + 3600000 + 1 + Hyperliquid.window_ms)
                  Scenario.end_40d;
                Hyperliquid.request_at "ETH"
                  (Scenario.start_ms + 35 * 86400000 + 1) Scenario.end_40d]
               StopWindow)
     /\ map funding_time_ms rows
        = [Scenario.start_ms; Scenario.start_ms + 3600000;
           Scenario.start_ms + 35 * 86400000])
  /\ Hyperliquid.fetch_hyper_funding_for_symbol 15 Scenario.hyper_always_empty
       "ETH" Scenario.start_ms Scenario.end_ms
     = Some (Hyperliquid.mkOutcome (Hyperliquid.Returns []) []
               (Hyperliquid.fixed_windows 14 "ETH" Scenario.start_ms
                  Scenario.end_ms)
               StopWindow)
  /\ (exists o bodies,
     Hyperliquid.fetch_hyper_funding_for_symbol 5 Scenario.hyper_repeat
       "ETH" Scenario.start_ms Scenario.end_ms = Some o
     /\ Hyperliquid.why o = StopRaised
     /\ Hyperliquid.answered Scenario.hyper_repeat "ETH" Scenario.end_ms
          0 Scenario.start_ms bodies
     /\ Hyperliquid.accumulated o
        = flat_map (Hyperliquid.page_rows "ETH") bodies
          ++ Hyperliquid.rows_of_response "ETH"
               (Scenario.hyper_repeat (List.length bodies)
                  (Hyperliquid.request_at "ETH"
                     (Hyperliquid.cursor_after Scenario.end_ms
                        Scenario.start_ms bodies) Scenario.end_ms))
     /\ List.length (Hyperliquid.accumulated o) = 2%nat)
  /\ exists rows,
       Hyperliquid.dedup_sorted
         [mkRecord "hyperliquid" "ETH" 2 "b" (Py.VStr "0.1");
          mkRecord "hyperliquid" "ETH" 1 "a" (Py.VStr "0.1");
          mkRecord "hyperliquid" "ETH" 2 "b" (Py.VStr "0.1")]
       = Hyperliquid.Returns rows
       /\ StronglySorted not_later rows.
Proof.
  destruct C7_hyperliquid_windows as (T1 & _ & T3 & T4 & T5).
  split; [|split; [|split]].
  - eexists. split.
    + rewrite (T1 Scenario.hyper_six_weeks "ETH"%string Scenario.start_ms
                 Scenario.end_40d
                 [Py.VList
                    [Scenario.hyper_entry "ETH" Scenario.start_ms
                       (Py.VStr "0.0000125");
                     Scenario.hyper_entry "ETH" (Scenario.start_ms + 3600000)
                       (Py.VStr "0.0000125")];
                  Py.VList [];
                  Py.VList
                    [Scenario.hyper_entry "ETH"
                       (Scenario.start_ms + 35 * 86400000)
                       (Py.VStr "0.0000250")];
                  Py.VList []] 5%nat).
      * vm_compute; reflexivity.
      * cbn [Hyperliquid.completes].
        split; [vm_compute; discriminate|].
        split; [vm_compute; reflexivity|].
        split; [reflexivity|].
        split; [vm_compute; reflexivity|].
        exists (Scenario.start_ms + 3600000).
        split; [vm_compute; reflexivity|].
        split; [vm_compute; discriminate|].
        split; [vm_compute; reflexivity|].
        split; [reflexivity|].
        split; [vm_compute; discriminate|].
        split; [vm_compute; reflexivity|].
        split; [reflexivity|].
        split; [vm_compute; reflexivity|].
        exists (Scenario.start_ms + 35 * 86400000).
        split; [vm_compute; reflexivity|].
        split; [vm_compute; discriminate|].
        split; [vm_compute; reflexivity|].
        split; [reflexivity|].
        vm_compute; reflexivity.
      * cbn [List.length]. lia.
    + vm_compute; reflexivity.
  - apply (T3 Scenario.hyper_always_empty "ETH"%string Scenario.start_ms
             Scenario.end_ms 14%nat).
    + intros n q. eexists. split; [reflexivity|]. split; reflexivity.
    + vm_compute; reflexivity.
  - eexists.
    assert (H : Hyperliquid.fetch_hyper_funding_for_symbol 5
                  Scenario.hyper_repeat "ETH" Scenario.start_ms
                  Scenario.end_ms = Some _) by (vm_compute; reflexivity).
    destruct (T4 _ _ _ _ _ _ H) as [_ (bodies & A & [(_ & W & _)|(_ & W & _ & E)])];
      [discriminate W|].
    exists bodies. split; [exact H|]. split; [exact W|]. split; [exact A|].
    split; [exact E|reflexivity].
  - destruct (T5 [mkRecord "hyperliquid" "ETH" 2 "b" (Py.VStr "0.1");
                  mkRecord "hyperliquid" "ETH" 1 "a" (Py.VStr "0.1");
                  mkRecord "hyperliquid" "ETH" 2 "b" (Py.VStr "0.1")])
      as (rows & R1 & R2 & _).
    + repeat constructor.
    + exists rows. auto.
Defined.

(** ** The ISO-8601 text of a row *)

(** C9, the claim as stated fails.  [iso_from_ms] divides by 1000.0 in
    floating point: from 2^33 seconds on, the text no longer carries the
    millisecond it was computed from, and past the year 9999 the call
    raises. *)
Lemma C9_round_trip_fails_late :
  Binance.iso_from_ms 8589934592001 = Some "2242-03-16T12:56:32.000999Z"%string
  /\ Hyperliquid.iso_from_ms 8589934592001
     = Some "2242-03-16T12:56:32.000999Z"%string
  /\ Iso8601.ms_of_iso "2242-03-16T12:56:32.000999Z" = Some 8589934592000
  /\ Binance.iso_from_ms (10 ^ 18) = None
  /\ Hyperliquid.iso_from_ms (10 ^ 18) = None.
Proof. repeat split; vm_compute; reflexivity. Qed.

(** C9, amended.  For every millisecond value [t] with
    [0 <= t < 2^33 * 1000] (instants from 1970 up to March 2242), the
    three [iso_from_ms] return the same text, and reading that text back
    as a UTC instant gives [t].  Every row the fetchers produce carries
    in [funding_time_iso] the text [iso_from_ms] returns for its
    [funding_time_ms]; so for rows with [funding_time_ms] in that range,
    reading [funding_time_iso] back gives [funding_time_ms]. *)
Theorem C9_iso_round_trip :
  (forall t, 0 <= t < 2 ^ 33 * 1000 ->
     exists s, Binance.iso_from_ms t = Some s
               /\ Bybit.iso_from_ms t = Some s
               /\ Hyperliquid.iso_from_ms t = Some s
               /\ Iso8601.ms_of_iso s = Some t)
  /\ (forall fuel srv sym start_ms end_ms o r,
     Binance.fetch_binance_funding fuel srv sym start_ms end_ms = Some o ->
     In r (Binance.results o) ->
     Binance.iso_from_ms (funding_time_ms r) = Some (funding_time_iso r)
     /\ (0 <= funding_time_ms r < 2 ^ 33 * 1000 ->
         Iso8601.ms_of_iso (funding_time_iso r) = Some (funding_time_ms r)))
  /\ (forall parser fuel srv sym start_ms end_ms o r,
     Bybit.fetch_bybit_funding_v5 parser fuel srv sym start_ms end_ms = Some o ->
     In r (Bybit.results o) ->
     Bybit.iso_from_ms (funding_time_ms r) = Some (funding_time_iso r)
     /\ (0 <= funding_time_ms r < 2 ^ 33 * 1000 ->
         Iso8601.ms_of_iso (funding_time_iso r) = Some (funding_time_ms r)))
  /\ (forall fuel srv sym start_ms end_ms o rows r,
     Hyperliquid.fetch_hyper_funding_for_symbol fuel srv sym start_ms end_ms
     = Some o ->
     Hyperliquid.result o = Hyperliquid.Returns rows ->
     In r rows ->
     Hyperliquid.iso_from_ms (funding_time_ms r) = Some (funding_time_iso r)
     /\ (0 <= funding_time_ms r < 2 ^ 33 * 1000 ->
         Iso8601.ms_of_iso (funding_time_iso r) = Some (funding_time_ms r))).
Proof.
  assert (Back : forall t, 0 <= t < 2 ^ 33 * 1000 ->
            exists s, Clock.iso_from_ms t = Some s
                      /\ Clock.iso_from_ms_aware t = Some s
                      /\ Iso8601.ms_of_iso s = Some t)
    by (intros t Ht; exact (iso_from_ms_reads_back Ht)).
  split; [|split; [|split]].
  - intros t Ht. destruct (Back t Ht) as (s & H1 & H2 & H3).
    exists s. auto.
  - intros fuel srv sym start_ms end_ms o r Ho Hin.
    pose proof (binance_fetch_rows _ _ _ _ _ Ho) as Hr.
    rewrite Forall_forall in Hr. destruct (Hr r Hin) as (_ & _ & Hi).
    split; [exact Hi|]. intros Ht.
    destruct (Back _ Ht) as (s & H1 & _ & H3).
    unfold Binance.iso_from_ms in Hi. congruence.
  - intros parser fuel srv sym start_ms end_ms o r Ho Hin.
    pose proof (bybit_fetch_rows _ _ _ _ _ _ Ho) as Hr.
    rewrite Forall_forall in Hr. destruct (Hr r Hin) as (_ & _ & Hi).
    split; [exact Hi|]. intros Ht.
    destruct (Back _ Ht) as (s & H1 & _ & H3).
    unfold Bybit.iso_from_ms in Hi. congruence.
  - intros fuel srv sym start_ms end_ms o rows r Ho Hres Hin.
    destruct (@hyper_fetch_rows _ _ _ _ _ _ rows Ho) as [_ Hr].
    specialize (Hr Hres).
    rewrite Forall_forall in Hr. destruct (Hr r Hin) as (_ & _ & Hi).
    split; [exact Hi|]. intros Ht.
    destruct (Back _ Ht) as (s & _ & H2 & H3).
    unfold Hyperliquid.iso_from_ms in Hi. congruence.
Qed.

Lemma C9_iso_round_trip_witness :
  (exists s, Binance.iso_from_ms Scenario.start_ms = Some s
             /\ Bybit.iso_from_ms Scenario.start_ms = Some s
             /\ Hyperliquid.iso_from_ms Scenario.start_ms = Some s
             /\ Iso8601.ms_of_iso s = Some Scenario.start_ms)
  /\ (exists o r rest,
        Binance.fetch_binance_funding 5 Scenario.binance_gap "BTCUSDT"
          Scenario.start_ms Scenario.end_ms = Some o
        /\ Binance.results o = r :: rest
        /\ Iso8601.ms_of_iso (funding_time_iso r) = Some (funding_time_ms r))
  /\ (exists o r rest,
        Bybit.fetch_bybit_funding_v5 Scenario.no_iso 5 Scenario.bybit_gap
          "BTCUSDT" Scenario.start_ms Scenario.end_ms = Some o
        /\ Bybit.results o = r :: rest
        /\ Iso8601.ms_of_iso (funding_time_iso r) = Some (funding_time_ms r))
  /\ (exists o r rest,
        Hyperliquid.fetch_hyper_funding_for_symbol 5 Scenario.hyper_gap "ETH"
          Scenario.start_ms Scenario.end_ms = Some o
        /\ Hyperliquid.result o = Hyperliquid.Returns (r :: rest)
        /\ Iso8601.ms_of_iso (funding_time_iso r) = Some (funding_time_ms r)).
Proof.
  destruct C9_iso_round_trip as (R1 & R2 & R3 & R4).
  split; [|split; [|split]].
  - apply (R1 Scenario.start_ms). vm_compute. split; [discriminate|reflexivity].
  - do 3 eexists. split; [vm_compute; reflexivity|]. split; [reflexivity|].
    match goal with
    | |- Iso8601.ms_of_iso (funding_time_iso ?r) = _ =>
        eapply (R2 5%nat Scenario.binance_gap "BTCUSDT"%string
                  Scenario.start_ms Scenario.end_ms _ r)
    end.
    + vm_compute; reflexivity.
    + left; reflexivity.
    + vm_compute. split; [discriminate|reflexivity].
  - do 3 eexists. split; [vm_compute; reflexivity|]. split; [reflexivity|].
    match goal with
    | |- Iso8601.ms_of_iso (funding_time_iso ?r) = _ =>
        eapply (R3 Scenario.no_iso 5%nat Scenario.bybit_gap "BTCUSDT"%string
                  Scenario.start_ms Scenario.end_ms _ r)
    end.
    + vm_compute; reflexivity.
    + left; reflexivity.
    + vm_compute. split; [discriminate|reflexivity].
  - do 3 eexists. split; [vm_compute; reflexivity|]. split; [reflexivity|].
    match goal with
    | |- Iso8601.ms_of_iso (funding_time_iso ?r) = _ =>
        eapply (R4 5%nat Scenario.hyper_gap "ETH"%string
                  Scenario.start_ms Scenario.end_ms _ _ r)
    end.
    + vm_compute; reflexivity.
    + reflexivity.
    + left; reflexivity.
    + vm_compute. split; [discriminate|reflexivity].
Defined.

(** ** The coin requested at Hyperliquid *)

(** C10, at the symbol of the claim and of the docstring of
    [extract_coin_from_symbol]: the run of letters at the head of
    ETHUSDC is the whole symbol, so the request carries the coin
    ETHUSDC, not ETH.  (A symbol without a letter at its head is sent as
    it is, and the rows carry the symbol they were asked for.) *)
Theorem C10_coin_of_ETHUSDC :
  Hyperliquid.extract_coin_from_symbol "ETHUSDC" = "ETHUSDC"%string
  /\ Hyperliquid.extract_coin_from_symbol "ETHUSDC" <> "ETH"%string
  /\ Hyperliquid.extract_coin_from_symbol "ETH-USDC" = "ETH"%string
  /\ Hyperliquid.extract_coin_from_symbol "1INCH" = "1INCH"%string
  /\ exists o,
       Hyperliquid.fetch_hyper_funding_for_symbol 5 Scenario.hyper_then_failed
         "ETHUSDC" Scenario.start_ms Scenario.end_ms = Some o
       /\ Forall (fun q => Hyperliquid.coin q = "ETHUSDC"%string)
            (Hyperliquid.requests o)
       /\ Hyperliquid.requests o <> []
       /\ Forall (fun r => symbol r = "ETHUSDC"%string)
            (Hyperliquid.accumulated o).
Proof.
  split; [reflexivity|]. split; [discriminate|].
  split; [reflexivity|]. split; [reflexivity|].
  eexists. split; [vm_compute; reflexivity|].
  split; [repeat constructor|]. split; [discriminate|repeat constructor].
Qed.

(** ** Reading the symbol files *)

Section SymbolFiles.

Let lt (a b : string) : Prop := Symbols.str_lt a b = true.

Lemma str_lt_irrefl (a : string) : Symbols.str_lt a a = false.
Proof.
  unfold Symbols.str_lt.
  destruct (String_as_OT.compare a a) eqn:E; try reflexivity.
  exfalso. exact (StrictOrder_Irreflexive (R := String_as_OT.lt) a E).
Qed.

Lemma str_lt_trans (a b c : string) :
  Symbols.str_lt a b = true -> Symbols.str_lt b c = true ->
  Symbols.str_lt a c = true.
Proof.
  unfold Symbols.str_lt.
  destruct (String_as_OT.compare a b) eqn:E1; try discriminate.
  destruct (String_as_OT.compare b c) eqn:E2; try discriminate.
  intros _ _.
  now rewrite (StrictOrder_Transitive (R := String_as_OT.lt) a b c E1 E2).
Qed.

Lemma str_lt_total (a b : string) :
  Symbols.str_lt a b = false -> a <> b -> Symbols.str_lt b a = true.
Proof.
  unfold Symbols.str_lt.
  destruct (String_as_OT.compare_spec a b) as [E|E|E]; try discriminate.
  - intros _ H. now elim H.
  - intros _ _. unfold String_as_OT.lt in E. now rewrite E.
Qed.

Lemma str_lt_empty (a : string) : a <> EmptyString -> Symbols.str_lt "" a = true.
Proof. destruct a; [congruence|reflexivity]. Qed.

Lemma insert_In (x y : string) (l : list string) :
  In y (Symbols.insert x l) <-> y = x \/ In y l.
Proof.
  induction l as [|z r IH]; simpl.
  - intuition.
  - destruct (Symbols.str_lt x z); simpl; rewrite ?IH; intuition.
Qed.

Lemma insert_sorted (x : string) (l : list string) :
  StronglySorted lt l -> ~ In x l -> StronglySorted lt (Symbols.insert x l).
Proof.
  induction 1 as [|z r Hr IH Hz]; intros Hx; simpl.
  - repeat constructor.
  - destruct (Symbols.str_lt x z) eqn:E.
    + constructor; [now constructor|].
      constructor; [exact E|].
      rewrite Forall_forall in *. intros y Hy.
      exact (str_lt_trans _ _ _ E (Hz y Hy)).
    + constructor.
      * apply IH. intros H. apply Hx. now right.
      * rewrite Forall_forall in *. intros y Hy.
        apply insert_In in Hy as [->|Hy]; [|now apply Hz].
        apply str_lt_total; [exact E|].
        intros ->. apply Hx. now left.
Qed.

Lemma sorted_fold (l : list string) :
  forall acc,
  NoDup l -> (forall y, In y l -> ~ In y acc) -> StronglySorted lt acc ->
  StronglySorted lt (fold_left (fun a x => Symbols.insert x a) l acc)
  /\ forall y, In y (fold_left (fun a x => Symbols.insert x a) l acc)
               <-> In y acc \/ In y l.
Proof.
  induction l as [|x r IH]; intros acc Hn Hd Hs; simpl.
  - split; [exact Hs|]. intuition.
  - inversion Hn as [|? ? Hx Hr]; subst.
    destruct (IH (Symbols.insert x acc)) as [S M].
    + exact Hr.
    + intros y Hy Hin. apply insert_In in Hin as [->|Hin]; [now apply Hx|].
      apply (Hd y); [now right|exact Hin].
    + apply insert_sorted; [exact Hs|]. apply Hd. now left.
    + split; [exact S|]. intros y. rewrite M, insert_In. intuition.
Qed.

Lemma sorted_strict (l : list string) :
  NoDup l ->
  StronglySorted lt (Symbols.sorted l)
  /\ forall y, In y (Symbols.sorted l) <-> In y l.
Proof.
  intros Hn. destruct (@sorted_fold l [] Hn) as [S M].
  - intros y _ [].
  - constructor.
  - split; [exact S|]. intros y. rewrite M. simpl. intuition.
Qed.

Lemma fromkeys_fold (l : list string) :
  forall d,
  NoDup d ->
  let d' := fold_left (fun d s => if existsb (String.eqb s) d then d
                                  else d ++ [s]) l d in
  NoDup d' /\ forall y, In y d' <-> In y d \/ In y l.
Proof.
  induction l as [|x r IH]; intros d Hd; simpl.
  - split; [exact Hd|]. intuition.
  - destruct (existsb (String.eqb x) d) eqn:E.
    + destruct (IH d Hd) as [N M]. split; [exact N|].
      intros y. rewrite (M y).
      apply existsb_exists in E as (z & Hz & Ez).
      apply String.eqb_eq in Ez. subst z. intuition (subst; auto).
    + assert (Hx : ~ In x d).
      { intros H. assert (existsb (String.eqb x) d = true); [|congruence].
        apply existsb_exists. exists x. split; [exact H|apply String.eqb_refl]. }
      destruct (IH (d ++ [x])) as [N M].
      * apply NoDup_app; [exact Hd|repeat constructor; intros []|].
        intros y Hy [<-|[]]. contradiction.
      * split; [exact N|]. intros y. rewrite (M y), in_app_iff. simpl.
        intuition.
Qed.

Lemma fromkeys_NoDup (l : list string) :
  NoDup (Symbols.fromkeys l)
  /\ forall y, In y (Symbols.fromkeys l) <-> In y l.
Proof.
  destruct (@fromkeys_fold l [] (NoDup_nil _)) as [N M].
  split; [exact N|]. intros y. rewrite (M y). simpl. intuition.
Qed.

Lemma clean_lines_In (s : string) (lines : list string) :
  In s (Symbols.clean_lines lines)
  <-> exists line, In line lines /\ Symbols.clean_line line = Some s.
Proof.
  induction lines as [|l r IH]; simpl.
  - split; [intros []|intros (? & [] & _)].
  - destruct (Symbols.clean_line l) as [c|] eqn:E; simpl; rewrite IH.
    + split.
      * intros [<-|(line & H1 & H2)]; [exists l; auto|exists line; auto].
      * intros (line & [<-|H1] & H2); [left; congruence|right; eauto].
    + split.
      * intros (line & H1 & H2). exists line; auto.
      * intros (line & [<-|H1] & H2); [congruence|eauto].
Qed.

(** Sorted lists without repetition are determined by their members. *)
Lemma sorted_unique (l1 l2 : list string) :
  StronglySorted lt l1 -> StronglySorted lt l2 ->
  (forall y, In y l1 <-> In y l2) -> l1 = l2.
Proof.
  intros S1. revert l2.
  induction S1 as [|a r1 Hr1 IH Ha]; intros l2 S2 M.
  - destruct l2 as [|b r2]; [reflexivity|].
    exfalso. apply (proj2 (M b)). now left.
  - destruct S2 as [|b r2 Hr2 Hb].
    + exfalso. apply (proj1 (M a)). now left.
    + rewrite Forall_forall in Ha, Hb.
      assert (a = b).
      { destruct (proj1 (M a) (or_introl eq_refl)) as [E|Hin]; [auto|].
        destruct (proj2 (M b) (or_introl eq_refl)) as [E|Hin']; [auto|].
        pose proof (str_lt_trans _ _ _ (Hb a Hin) (Ha b Hin')) as C.
        rewrite str_lt_irrefl in C. discriminate. }
      subst b. f_equal. apply IH; [exact Hr2|].
      intros y. split; intros Hy.
      * destruct (proj1 (M y) (or_intror Hy)) as [E|Hin]; [|exact Hin].
        subst y. specialize (Ha a Hy). unfold lt in Ha.
        rewrite str_lt_irrefl in Ha.
        discriminate.
      * destruct (proj2 (M y) (or_intror Hy)) as [E|Hin]; [|exact Hin].
        subst y. specialize (Hb a Hy). unfold lt in Hb.
        rewrite str_lt_irrefl in Hb.
        discriminate.
Qed.

Lemma read_symbols_spec (files : list (option (list string))) :
  StronglySorted lt (Symbols.read_symbols_from_files files)
  /\ forall s, In s (Symbols.read_symbols_from_files files)
       <-> exists lines line,
             In (Some lines) files /\ In line lines
             /\ Symbols.clean_line line = Some s.
Proof.
  unfold Symbols.read_symbols_from_files.
  set (syms := flat_map _ files).
  destruct (fromkeys_NoDup syms) as [N M].
  destruct (sorted_strict N) as [S M'].
  split; [exact S|]. intros s. rewrite M', M. unfold syms.
  rewrite in_flat_map. split.
  - intros ([lines|] & Hf & Hs); [|destruct Hs].
    apply clean_lines_In in Hs as (line & H1 & H2).
    exists lines, line. auto.
  - intros (lines & line & Hf & Hl & Hc).
    exists (Some lines). split; [exact Hf|].
    apply clean_lines_In. exists line. auto.
Qed.

End SymbolFiles.

(** ** What [read_symbols_from_files] returns *)

(** X1.  The symbols returned are in strictly increasing order of their code
    points: none is repeated. *)
Theorem read_symbols_strictly_sorted :
  forall files,
    StronglySorted (fun a b => Symbols.str_lt a b = true)
      (Symbols.read_symbols_from_files files)
    /\ NoDup (Symbols.read_symbols_from_files files).
Proof.
  intros files. destruct (read_symbols_spec files) as [S _].
  split; [exact S|].
  induction S as [|a r Hr IH Ha]; constructor.
  - intros Hin. rewrite Forall_forall in Ha. specialize (Ha a Hin).
    cbv beta in Ha. rewrite str_lt_irrefl in Ha. discriminate.
  - exact IH.
Qed.

(** X2.  A symbol is returned exactly when some line of some file that exists
    cleans to it: blank lines and missing files add nothing, and nothing
    else is added or lost. *)
Theorem read_symbols_members :
  forall files s,
    In s (Symbols.read_symbols_from_files files)
    <-> exists lines line,
          In (Some lines) files /\ In line lines
          /\ Symbols.clean_line line = Some s.
Proof. intros files s. now destruct (read_symbols_spec files) as [_ M]. Qed.

(** X3.  The order of the files, of their lines, and repetitions do not
    matter: two sets of files that clean to the same symbols give the
    same list. *)
Theorem read_symbols_canonical :
  forall files1 files2,
    (forall f, In f files1 <-> In f files2) ->
    Symbols.read_symbols_from_files files1
    = Symbols.read_symbols_from_files files2.
Proof.
  intros files1 files2 H.
  destruct (read_symbols_spec files1) as [S1 M1].
  destruct (read_symbols_spec files2) as [S2 M2].
  apply sorted_unique; [exact S1|exact S2|].
  intros y. rewrite M1, M2.
  split; intros (lines & line & Hf & Hy); exists lines, line;
    (split; [now apply H|exact Hy]).
Qed.

Lemma read_symbols_canonical_witness :
  Symbols.read_symbols_from_files
    [Some ["ETHUSDT" ++ String "010" ""; "BTCUSDT" ++ String "010" ""]%string;
     None]
  = Symbols.read_symbols_from_files
      [None;
       Some ["ETHUSDT" ++ String "010" ""; "BTCUSDT" ++ String "010" ""]%string;
       None].
Proof.
  apply read_symbols_canonical.
  intros f. simpl. tauto.
Defined.

(** X4.  A line made only of backticks and blanks, such as the fence of a
    markdown block, is not skipped: it gives the empty symbol, which
    then comes first in the list returned. *)
Theorem read_symbols_fence_line :
  forall files lines line,
    In (Some lines) files -> In line lines ->
    Symbols.strip Symbols.isspace line <> EmptyString ->
    Symbols.all_chars Symbols.fence_char (Symbols.strip Symbols.isspace line)
    = true ->
    hd_error (Symbols.read_symbols_from_files files) = Some EmptyString.
Proof.
  intros files lines line Hf Hl Hne Hall.
  assert (Hstrip : forall s, Symbols.all_chars Symbols.fence_char s = true ->
                     Symbols.strip Symbols.fence_char s = EmptyString).
  { intros s. unfold Symbols.strip. induction s as [|c r IH]; simpl; [auto|].
    intros H. apply andb_true_iff in H as [Hc Hr]. rewrite Hc. auto. }
  assert (Hc : Symbols.clean_line line = Some EmptyString).
  { unfold Symbols.clean_line.
    destruct (Symbols.strip Symbols.isspace line) as [|c r] eqn:E;
      [congruence|].
    now rewrite (Hstrip _ Hall). }
  assert (Hin : In EmptyString (Symbols.read_symbols_from_files files)).
  { apply (proj2 (read_symbols_spec files)). exists lines, line. auto. }
  destruct (read_symbols_spec files) as [S _].
  destruct (Symbols.read_symbols_from_files files) as [|h r]; [destruct Hin|].
  destruct Hin as [->|Hin]; [reflexivity|].
  inversion S as [|? ? _ Hh]; subst. rewrite Forall_forall in Hh.
  specialize (Hh _ Hin). cbv beta in Hh. destruct h; discriminate.
Qed.

Lemma read_symbols_fence_line_witness :
  hd_error
    (Symbols.read_symbols_from_files
       [Some [String "096" (String "096" (String "096" (String "010" "")));
              ("BTCUSDT" ++ String "010" "")%string]])
  = Some EmptyString.
Proof.
  apply (@read_symbols_fence_line _
           [String "096" (String "096" (String "096" (String "010" "")));
            ("BTCUSDT" ++ String "010" "")%string]
           (String "096" (String "096" (String "096" (String "010" ""))))).
  - left; reflexivity.
  - left; reflexivity.
  - vm_compute; discriminate.
  - vm_compute; reflexivity.
Defined.

(** ** File names *)

Section FileNames.

Local Open Scope string_scope.

Lemma sanitize_kept (name : string) :
  Symbols.all_chars Files.kept (Files.sanitize_filename name) = true.
Proof.
  induction name as [|c r IH];
    cbn [Files.sanitize_filename Symbols.all_chars]; [reflexivity|].
  rewrite IH. destruct (Files.kept c) eqn:E; [now rewrite E|reflexivity].
Qed.

Lemma sanitize_fixed (name : string) :
  Symbols.all_chars Files.kept name = true ->
  Files.sanitize_filename name = name.
Proof.
  induction name as [|c r IH];
    cbn [Files.sanitize_filename Symbols.all_chars]; [reflexivity|].
  intros H. apply andb_true_iff in H as [Hc Hr]. now rewrite Hc, IH.
Qed.

Lemma append_cancel_l (p a b : string) : p ++ a = p ++ b -> a = b.
Proof. induction p as [|c p IH]; simpl; [auto|]. intros [= H]. auto. Qed.

Lemma append_length (a b : string) :
  String.length (a ++ b) = (String.length a + String.length b)%nat.
Proof. induction a as [|c a IH]; simpl; [reflexivity|now rewrite IH]. Qed.

Lemma append_cancel_r (s a b : string) : a ++ s = b ++ s -> a = b.
Proof.
  revert b. induction a as [|c a IH]; intros [|d b] H; simpl in H.
  - reflexivity.
  - apply (f_equal String.length) in H. simpl in H.
    rewrite append_length in H. lia.
  - apply (f_equal String.length) in H. simpl in H.
    rewrite append_length in H. lia.
  - injection H as -> H. f_equal. auto.
Qed.

Lemma file_name_eq (exch a b : string) :
  Files.file_name exch a = Files.file_name exch b
  <-> Files.sanitize_filename a = Files.sanitize_filename b.
Proof.
  unfold Files.file_name. split; [|now intros ->].
  intros H. apply append_cancel_l in H. apply append_cancel_l in H.
  now apply append_cancel_r in H.
Qed.

Lemma find_append {A : Type} (f : A -> bool) (l1 l2 : list A) :
  find f (l1 ++ l2)
  = match find f l1 with Some x => Some x | None => find f l2 end.
Proof.
  induction l1 as [|x r IH]; simpl; [reflexivity|].
  destruct (f x); [reflexivity|exact IH].
Qed.

(** The files left by the writing loop: a path holds what the last group
    written to it holds. *)
Lemma write_all_content (exch path : string)
    (groups : list (string * list FundingRecord)) :
  forall files,
  Files.content path (Files.write_all exch groups files)
  = match find (fun g => String.eqb (Files.file_name exch (fst g)) path)
            (rev groups) with
    | Some g => Some (snd g)
    | None => Files.content path files
    end.
Proof.
  induction groups as [|[sym rows] rest IH]; intros files; simpl.
  - reflexivity.
  - rewrite IH. rewrite find_append.
    destruct (find _ (rev rest)) as [g|]; [reflexivity|].
    simpl. unfold Files.content. simpl.
    destruct (String.eqb_spec (Files.file_name exch sym) path) as [E|E];
      [reflexivity|].
    induction files as [|f r IHf]; simpl; [reflexivity|].
    destruct (String.eqb_spec (fst f) (Files.file_name exch sym)) as [E1|E1];
      simpl.
    + destruct (String.eqb_spec (fst f) path) as [E2|E2]; [congruence|].
      exact IHf.
    + destruct (String.eqb (fst f) path); [reflexivity|exact IHf].
Qed.

End FileNames.

(** X5.  [sanitize_filename] keeps the length of the name, returns only
    letters, digits, [-] and [_], changes nothing in a name made of
    these, and so does nothing when applied twice. *)
Theorem sanitize_filename_safe :
  forall name,
    String.length (Files.sanitize_filename name) = String.length name
    /\ Symbols.all_chars Files.kept (Files.sanitize_filename name) = true
    /\ Files.sanitize_filename (Files.sanitize_filename name)
       = Files.sanitize_filename name
    /\ (Symbols.all_chars Files.kept name = true ->
        Files.sanitize_filename name = name).
Proof.
  intros name. split; [|split; [|split]].
  - induction name as [|c r IH];
      cbn [Files.sanitize_filename String.length]; [reflexivity|now rewrite IH].
  - apply sanitize_kept.
  - apply sanitize_fixed, sanitize_kept.
  - apply sanitize_fixed.
Qed.

Lemma sanitize_filename_safe_witness :
  String.length (Files.sanitize_filename "BTC-USDT_1") = 10%nat
  /\ Files.sanitize_filename "BTC-USDT_1" = "BTC-USDT_1"%string.
Proof.
  destruct (sanitize_filename_safe "BTC-USDT_1") as (L & _ & _ & F).
  split; [exact L|]. apply F. vm_compute; reflexivity.
Defined.

(** X6.  Two symbols that differ only in characters [sanitize_filename]
    replaces are written to the same file: of their two groups, written
    one after the other, only the rows of the second are left.  Such
    symbols exist. *)
Theorem file_names_collide :
  (forall exch a b ra rb files,
     Files.sanitize_filename a = Files.sanitize_filename b ->
     Files.file_name exch a = Files.file_name exch b
     /\ Files.content (Files.file_name exch a)
          (Files.write_all exch [(a, ra); (b, rb)] files) = Some rb)
  /\ "BTC/USDT"%string <> "BTC_USDT"%string
  /\ Files.sanitize_filename "BTC/USDT" = Files.sanitize_filename "BTC_USDT".
Proof.
  split; [|split; [discriminate|reflexivity]].
  intros exch a b ra rb files H.
  assert (E : Files.file_name exch a = Files.file_name exch b)
    by now apply file_name_eq.
  split; [exact E|].
  rewrite write_all_content. cbn [rev app find fst snd].
  now rewrite E, String.eqb_refl.
Qed.

Lemma file_names_collide_witness :
  Files.file_name "binance" "BTC/USDT" = Files.file_name "binance" "BTC_USDT"
  /\ Files.content (Files.file_name "binance" "BTC/USDT")
       (Files.write_all "binance"
          [("BTC/USDT"%string, [mkRecord "binance" "BTC/USDT" 1 "a" Py.VNone]);
           ("BTC_USDT"%string, [])] [])
     = Some [].
Proof.
  destruct file_names_collide as [H _].
  apply (H "binance"%string "BTC/USDT"%string "BTC_USDT"%string).
  reflexivity.
Defined.

(** X7.  When the symbols of the groups are different and made of letters,
    digits, [-] and [_] only, every group is found in its own file
    after the writing loop. *)
Theorem safe_symbols_keep_their_files :
  forall exch groups sym rows,
    NoDup (map fst groups) ->
    (forall g, In g groups -> Symbols.all_chars Files.kept (fst g) = true) ->
    In (sym, rows) groups ->
    Files.content (Files.file_name exch sym) (Files.write_all exch groups [])
    = Some rows.
Proof.
  intros exch groups sym rows Hn Hs Hin.
  rewrite write_all_content.
  assert (F : forall g, In g groups ->
            String.eqb (Files.file_name exch (fst g)) (Files.file_name exch sym)
            = true -> g = (sym, rows)).
  { intros [s r] Hg E. apply String.eqb_eq, file_name_eq in E.
    pose proof (sanitize_fixed _ (Hs _ Hg)) as F1.
    pose proof (sanitize_fixed _ (Hs _ Hin)) as F2.
    cbn [fst] in E, F1, F2. rewrite F1, F2 in E. subst s. f_equal.
    clear - Hn Hg Hin. induction groups as [|[s' r'] rest IH]; [destruct Hg|].
    simpl in Hn. inversion Hn as [|? ? Hx Hr]; subst.
    destruct Hg as [Hg|Hg], Hin as [Hin|Hin].
    - congruence.
    - exfalso. apply Hx. apply in_map_iff. exists (sym, rows).
      split; [cbn [fst]; congruence|exact Hin].
    - exfalso. apply Hx. apply in_map_iff. exists (sym, r).
      split; [cbn [fst]; congruence|exact Hg].
    - now apply IH. }
  destruct (find _ (rev groups)) as [g|] eqn:E.
  - apply find_some in E as [Hg E]. apply in_rev in Hg.
    now rewrite (F g Hg E).
  - pose proof (find_none _ _ E (sym, rows) (proj1 (in_rev _ _) Hin)) as H.
    cbn [fst] in H. now rewrite String.eqb_refl in H.
Qed.

Lemma safe_symbols_keep_their_files_witness :
  Files.content (Files.file_name "bybit" "ETHUSDT")
    (Files.write_all "bybit"
       [("BTCUSDT"%string, []);
        ("ETHUSDT"%string, [mkRecord "bybit" "ETHUSDT" 1 "a" Py.VNone])] [])
  = Some [mkRecord "bybit" "ETHUSDT" 1 "a" Py.VNone].
Proof.
  apply safe_symbols_keep_their_files.
  - repeat constructor; simpl; intuition discriminate.
  - intros g [<-|[<-|[]]]; reflexivity.
  - right; left; reflexivity.
Defined.

(** ** The grouping loop in general *)

Section Grouping.

Variable F : string -> list FundingRecord.

Lemma group_add_map (r : FundingRecord) (keys : list string) :
  NoDup keys ->
  group_add r (map (fun k => (k, F k)) keys)
  = map (fun k => (k, F k ++ (if String.eqb (symbol r) k then [r] else [])))
      keys
    ++ (if existsb (String.eqb (symbol r)) keys then []
        else [(symbol r, [r])]).
Proof.
  induction keys as [|k rest IH]; intros Hn; [reflexivity|].
  inversion Hn as [|? ? Hk Hrest]; subst.
  cbn [map group_add existsb app].
  rewrite (String.eqb_sym (symbol r) k).
  destruct (String.eqb_spec k (symbol r)) as [E|E]; cbn [orb app].
  - rewrite app_nil_r. f_equal. apply map_ext_in. intros k' Hk'.
    destruct (String.eqb_spec (symbol r) k') as [E'|E'];
      [exfalso; congruence|now rewrite app_nil_r].
  - rewrite app_nil_r. f_equal. now apply IH.
Qed.

End Grouping.

Lemma fromkeys_snoc (l : list string) (x : string) :
  Symbols.fromkeys (l ++ [x])
  = if existsb (String.eqb x) (Symbols.fromkeys l) then Symbols.fromkeys l
    else Symbols.fromkeys l ++ [x].
Proof. unfold Symbols.fromkeys. now rewrite fold_left_app. Qed.

(** The groups are the symbols of the rows in order of first appearance,
    each with the rows of that symbol in the order they were fetched. *)
Lemma group_by_symbol_filter (rows : list FundingRecord) :
  group_by_symbol rows
  = map (fun k => (k, filter (fun r => String.eqb (symbol r) k) rows))
      (Symbols.fromkeys (map symbol rows)).
Proof.
  induction rows as [|r p IH] using rev_ind; [reflexivity|].
  unfold group_by_symbol in *. rewrite fold_left_app. cbn [fold_left].
  rewrite IH. rewrite map_app. cbn [map]. rewrite fromkeys_snoc.
  destruct (fromkeys_NoDup (map symbol p)) as [N M].
  rewrite (group_add_map _ r N).
  destruct (existsb (String.eqb (symbol r)) (Symbols.fromkeys (map symbol p)))
    eqn:E.
  - rewrite app_nil_r. apply map_ext. intros k.
    now rewrite filter_app.
  - rewrite map_app. cbn [map]. f_equal.
    + apply map_ext. intros k. now rewrite filter_app.
    + rewrite filter_app. cbn [filter]. rewrite String.eqb_refl.
      replace (filter (fun r0 => String.eqb (symbol r0) (symbol r)) p)
        with (@nil FundingRecord); [reflexivity|].
      assert (Hnone : forall x, In x p ->
                String.eqb (symbol x) (symbol r) = false).
      { intros x Hx.
        destruct (String.eqb_spec (symbol x) (symbol r)) as [Ex|];
          [|reflexivity].
        exfalso.
        assert (existsb (String.eqb (symbol r))
                  (Symbols.fromkeys (map symbol p)) = true); [|congruence].
        apply existsb_exists. exists (symbol r).
        split; [|apply String.eqb_refl].
        apply M. rewrite <- Ex. now apply in_map. }
      clear - Hnone. induction p as [|x q IHq]; [reflexivity|].
      cbn [filter]. rewrite (Hnone x) by now left.
      apply IHq. intros y Hy. apply Hnone. now right.
Qed.

Lemma group_add_perm (r : FundingRecord) groups :
  Permutation (flat_map snd (group_add r groups))
    (r :: flat_map snd groups).
Proof.
  induction groups as [|[k rows] rest IH]; cbn [group_add flat_map snd].
  - reflexivity.
  - destruct (String.eqb k (symbol r)); cbn [flat_map snd].
    + rewrite <- app_assoc. cbn [app].
      symmetry. apply Permutation_middle.
    + rewrite IH. symmetry. apply Permutation_middle.
Qed.

(** X8.  The grouping loop of the [main]s keeps every row exactly once: the
    groups are the distinct symbols in the order in which they first
    appear, no group is empty, the group of a symbol holds the rows of
    that symbol in the order they were collected, and together the
    groups hold the rows collected, no more and no fewer. *)
Theorem group_by_symbol_partition :
  forall rows,
    map fst (group_by_symbol rows) = Symbols.fromkeys (map symbol rows)
    /\ NoDup (map fst (group_by_symbol rows))
    /\ (forall sym rs, In (sym, rs) (group_by_symbol rows) ->
          rs <> []
          /\ rs = filter (fun r => String.eqb (symbol r) sym) rows)
    /\ Permutation (flat_map snd (group_by_symbol rows)) rows.
Proof.
  intros rows.
  destruct (fromkeys_NoDup (map symbol rows)) as [N M].
  assert (K : map fst (group_by_symbol rows)
              = Symbols.fromkeys (map symbol rows)).
  { rewrite group_by_symbol_filter, map_map. cbn [fst]. apply map_id. }
  split; [exact K|]. split; [now rewrite K|]. split.
  - intros sym rs Hin. rewrite group_by_symbol_filter in Hin.
    apply in_map_iff in Hin as (k & [= <- <-] & Hk).
    split; [|reflexivity].
    apply M, in_map_iff in Hk as (r & Hr & Hin).
    intros E.
    assert (Hf : In r (filter (fun r0 => String.eqb (symbol r0) k) rows)).
    { apply filter_In. split; [exact Hin|]. rewrite Hr. apply String.eqb_refl. }
    rewrite E in Hf. destruct Hf.
  - clear N M K. unfold group_by_symbol.
    induction rows as [|r p IH] using rev_ind; [reflexivity|].
    rewrite fold_left_app. cbn [fold_left].
    rewrite group_add_perm.
    rewrite Permutation_cons_append. apply Permutation_app_tail.
    exact IH.
Qed.

Lemma group_by_symbol_partition_witness :
  [mkRecord "binance" "ETHUSDT" 1 "a" Py.VNone;
   mkRecord "binance" "ETHUSDT" 3 "c" Py.VNone]
  <> []
  /\ [mkRecord "binance" "ETHUSDT" 1 "a" Py.VNone;
      mkRecord "binance" "ETHUSDT" 3 "c" Py.VNone]
     = filter (fun r => String.eqb (symbol r) "ETHUSDT")
         [mkRecord "binance" "ETHUSDT" 1 "a" Py.VNone;
          mkRecord "binance" "BTCUSDT" 2 "b" Py.VNone;
          mkRecord "binance" "ETHUSDT" 3 "c" Py.VNone].
Proof.
  destruct (group_by_symbol_partition
              [mkRecord "binance" "ETHUSDT" 1 "a" Py.VNone;
               mkRecord "binance" "BTCUSDT" 2 "b" Py.VNone;
               mkRecord "binance" "ETHUSDT" 3 "c" Py.VNone])
    as (_ & _ & H & _).
  apply (H "ETHUSDT"%string). left; reflexivity.
Defined.

(** ** More on the deduplication and the sort of Hyperliquid *)

Section DedupMore.

Let distinct_keys : list FundingRecord -> Prop :=
  ForallOrdPairs (fun a b => Hyperliquid.same_key a b = false).

Lemma distinct_keys_before (d : list FundingRecord) (r : FundingRecord)
    (rest : list FundingRecord) :
  distinct_keys (d ++ r :: rest) ->
  Forall (fun x => Hyperliquid.same_key x r = false) d.
Proof.
  unfold distinct_keys. induction d as [|x d IH]; intros H; [constructor|].
  cbn [app] in H. inversion H as [|? ? Hx Hd]; subst.
  constructor; [|now apply IH].
  rewrite Forall_forall in Hx. apply Hx. apply in_or_app. right. now left.
Qed.

(** Rows with different keys are left as they are by the dict. *)
Lemma dedup_fold_distinct (l : list FundingRecord) :
  forall d, distinct_keys (d ++ l) ->
  fold_left (fun d r => Hyperliquid.dict_put r d) l d = d ++ l.
Proof.
  induction l as [|r rest IH]; intros d H; simpl.
  - now rewrite app_nil_r.
  - rewrite (@dict_put_fresh r d (distinct_keys_before _ _ _ H)).
    rewrite IH; rewrite <- app_assoc; [reflexivity|exact H].
Qed.

(** Rows in increasing order, equal times allowed, are left as they are
    by the sort. *)
Lemma sorted_by_time_stays (l : list FundingRecord) :
  StronglySorted not_later l -> Hyperliquid.sorted_by_time l = l.
Proof.
  induction 1 as [|y rest Hs IH Hy]; simpl; [reflexivity|].
  rewrite IH. destruct rest as [|z rest']; [reflexivity|]. simpl.
  inversion Hy as [|? ? Hyz _]; subst. unfold not_later in Hyz.
  replace (funding_time_ms y <=? funding_time_ms z) with true
    by (symmetry; apply Z.leb_le; lia).
  reflexivity.
Qed.

Lemma dedup_sorted_again (l rows : list FundingRecord) :
  Hyperliquid.dedup_sorted l = Hyperliquid.Returns rows ->
  Hyperliquid.dedup_sorted rows = Hyperliquid.Returns rows.
Proof.
  intros H.
  assert (Hh : Forall (fun r => Py.hashable (funding_rate r) = true) l).
  { unfold Hyperliquid.dedup_sorted, Hyperliquid.dedup in H.
    destruct (forallb _ l) eqn:E; [|discriminate].
    rewrite forallb_forall in E. now apply Forall_forall. }
  destruct (dedup_sorted_returns Hh) as (rows' & R1 & R2 & R3 & R4 & _).
  rewrite R1 in H. injection H as <-.
  unfold Hyperliquid.dedup_sorted, Hyperliquid.dedup.
  replace (forallb (fun r => Py.hashable (funding_rate r)) rows') with true.
  - rewrite (dedup_fold_distinct rows' []); [|exact R3].
    cbn [app]. now rewrite sorted_by_time_stays.
  - symmetry. apply forallb_forall. intros x Hx.
    rewrite Forall_forall in Hh. apply Hh. now apply R4.
Qed.

End DedupMore.

(** X9.  What [fetch_hyper_funding_for_symbol] returns is unchanged by a
    second deduplication and sort. *)
Theorem dedup_sorted_idempotent :
  forall l rows,
    Hyperliquid.dedup_sorted l = Hyperliquid.Returns rows ->
    Hyperliquid.dedup_sorted rows = Hyperliquid.Returns rows.
Proof. exact dedup_sorted_again. Qed.

Lemma dedup_sorted_idempotent_witness :
  Hyperliquid.dedup_sorted
    [mkRecord "hyperliquid" "ETH" 1 "a" (Py.VInt 1);
     mkRecord "hyperliquid" "ETH" 2 "b" (Py.VStr "0.1")]
  = Hyperliquid.Returns
      [mkRecord "hyperliquid" "ETH" 1 "a" (Py.VInt 1);
       mkRecord "hyperliquid" "ETH" 2 "b" (Py.VStr "0.1")].
Proof.
  apply (@dedup_sorted_idempotent
           [mkRecord "hyperliquid" "ETH" 2 "b" (Py.VStr "0.1");
            mkRecord "hyperliquid" "ETH" 1 "a" (Py.VBool true);
            mkRecord "hyperliquid" "ETH" 1 "a" (Py.VInt 1)]).
  vm_compute; reflexivity.
Defined.


(** ** The two ways of writing the instant *)

(** X11.  [iso_from_ms] of fetch_hyperliquid_funding.py, which formats an
    aware datetime and replaces the offset by [Z], returns what the
    [iso_from_ms] of the other files returns, and raises when it
    raises. *)
Theorem iso_from_ms_variants_agree :
  forall ms,
    Hyperliquid.iso_from_ms ms = Binance.iso_from_ms ms
    /\ Bybit.iso_from_ms ms = Binance.iso_from_ms ms.
Proof.
  intros ms. split; [|reflexivity].
  apply iso_from_ms_aware_eq.
Qed.

(** ** What every fetched row carries *)

(** X12.  Every row a fetcher returns names its exchange and the symbol that
    was asked for, whatever symbol the entries served carry. *)
Theorem fetched_rows_are_labelled :
  (forall fuel srv sym start_ms end_ms o,
     Binance.fetch_binance_funding fuel srv sym start_ms end_ms = Some o ->
     Forall (fun r => exchange r = "binance"%string /\ symbol r = sym)
       (Binance.results o))
  /\ (forall parser fuel srv sym start_ts end_ts o,
     Bybit.fetch_bybit_funding_v5 parser fuel srv sym start_ts end_ts
     = Some o ->
     Forall (fun r => exchange r = "bybit"%string /\ symbol r = sym)
       (Bybit.results o))
  /\ (forall fuel srv sym start_ms end_ms o rows,
     Hyperliquid.fetch_hyper_funding_for_symbol fuel srv sym start_ms end_ms
     = Some o ->
     Hyperliquid.result o = Hyperliquid.Returns rows ->
     Forall (fun r => exchange r = "hyperliquid"%string /\ symbol r = sym)
       rows).
Proof.
  split; [|split].
  - intros fuel srv sym start_ms end_ms o H.
    pose proof (binance_fetch_rows _ _ _ _ _ H) as Hr.
    revert Hr. apply Forall_impl. intros r (E & S & _). auto.
  - intros parser fuel srv sym start_ts end_ts o H.
    pose proof (bybit_fetch_rows _ _ _ _ _ _ H) as Hr.
    revert Hr. apply Forall_impl. intros r (E & S & _). auto.
  - intros fuel srv sym start_ms end_ms o rows H Hres.
    destruct (@hyper_fetch_rows _ _ _ _ _ _ rows H) as [_ Hr].
    specialize (Hr Hres).
    revert Hr. apply Forall_impl. intros r (E & S & _). auto.
Qed.

Lemma fetched_rows_are_labelled_witness :
  (exists o,
     Binance.fetch_binance_funding 5 Scenario.binance_gap "ETHUSDT"
       Scenario.start_ms Scenario.end_ms = Some o
     /\ Binance.results o <> []
     /\ Forall (fun r => exchange r = "binance"%string
                         /\ symbol r = "ETHUSDT"%string)
          (Binance.results o))
  /\ (exists o,
     Bybit.fetch_bybit_funding_v5 Scenario.no_iso 5 Scenario.bybit_gap
       "ETHUSDT" Scenario.start_ms Scenario.end_ms = Some o
     /\ Bybit.results o <> []
     /\ Forall (fun r => exchange r = "bybit"%string
                         /\ symbol r = "ETHUSDT"%string)
          (Bybit.results o))
  /\ (exists o rows,
     Hyperliquid.fetch_hyper_funding_for_symbol 5 Scenario.hyper_gap
       "ETHUSDC" Scenario.start_ms Scenario.end_ms = Some o
     /\ Hyperliquid.result o = Hyperliquid.Returns rows
     /\ rows <> []
     /\ Forall (fun r => exchange r = "hyperliquid"%string
                         /\ symbol r = "ETHUSDC"%string) rows).
Proof.
  destruct fetched_rows_are_labelled as (B & Y & H).
  split; [|split].
  - eexists. split; [vm_compute; reflexivity|]. split; [discriminate|].
    eapply (B 5%nat Scenario.binance_gap "ETHUSDT"%string
              Scenario.start_ms Scenario.end_ms).
    vm_compute; reflexivity.
  - eexists. split; [vm_compute; reflexivity|]. split; [discriminate|].
    eapply (Y Scenario.no_iso 5%nat Scenario.bybit_gap "ETHUSDT"%string
              Scenario.start_ms Scenario.end_ms).
    vm_compute; reflexivity.
  - do 2 eexists. split; [vm_compute; reflexivity|].
    split; [reflexivity|]. split; [discriminate|].
    eapply (H 5%nat Scenario.hyper_gap "ETHUSDC"%string
              Scenario.start_ms Scenario.end_ms).
    + vm_compute; reflexivity.
    + reflexivity.
Defined.

(** ** Termination of the fetch loops *)

Section BinanceTermination.

Variable srv : nat -> Binance.request -> response.
Variables (sym : string) (end_ms : Z).

(** The last entry of a list in increasing time lies at least as many
    milliseconds past the start of the window as there are entries
    before it. *)
Lemma binance_last_far (data : list Py.value) :
  forall lo hi,
  Binance.ascending_within lo hi data = true -> data <> [] ->
  exists t, Binance.last_time data = Some t
            /\ lo + Z.of_nat (List.length data) - 1 <= t <= hi.
Proof.
  induction data as [|item rest IH]; intros lo hi H Hne; [congruence|].
  cbn [Binance.ascending_within] in H.
  destruct (Binance.entry_time item) as [t0|] eqn:Et; [|discriminate].
  apply andb_true_iff in H as [H Hrest]. apply andb_true_iff in H as [H1 H2].
  apply Z.leb_le in H1, H2.
  destruct rest as [|item' rest'].
  - exists t0. split; [exact Et|]. cbn [List.length]. lia.
  - destruct (IH _ _ Hrest ltac:(discriminate)) as (t & Ht & Hb).
    exists t. split; [exact Ht|].
    cbn [List.length] in *. lia.
Qed.

Hypothesis ordered :
  forall n q data, srv n q = Body (Py.VList data) ->
    Binance.ascending_within (Binance.startTime q) (Binance.endTime q) data
    = true.

Lemma binance_loop_terminates (fuel : nat) :
  forall n cur results trace,
  (1 <= fuel)%nat -> end_ms - cur + 1 <= (Z.of_nat fuel - 1) * 1000 ->
  exists o, Binance.fetch_loop fuel srv n sym cur end_ms results trace
            = Some o.
Proof.
  induction fuel as [|fuel IH]; intros n cur results trace Hf Hm; [lia|].
  destruct (srv n (Binance.mkRequest sym cur end_ms Binance.limit))
    as [|j] eqn:Hj.
  - rewrite (@binance_step_failed srv sym end_ms fuel n cur results trace Hj).
    eauto.
  - destruct (no_entries j) eqn:Hno.
    + rewrite (@binance_step_empty srv sym end_ms fuel n cur j results trace
                 Hj Hno).
      eauto.
    + destruct j as [| | | | |data|]; try discriminate.
      assert (Hne : data <> []) by (intros ->; discriminate).
      rewrite (@binance_step_page srv sym end_ms fuel n cur data results
                 trace Hj Hne).
      cbv zeta.
      destruct (negb _); [eauto|].
      destruct (Z.of_nat (List.length data) <? Binance.limit) eqn:Hlen;
        [eauto|].
      apply Z.ltb_ge in Hlen. unfold Binance.limit in Hlen.
      pose proof (@ordered _ _ _ Hj) as Ha. cbn [Binance.startTime Binance.endTime] in Ha.
      destruct (@binance_last_far data _ _ Ha Hne) as (t & Ht & Hb).
      rewrite Ht. apply IH; lia.
Qed.

End BinanceTermination.

Section BybitTermination.

Variable parser : string -> option Z.
Variable srv : nat -> Bybit.request -> response.
Variables (sym : string) (start_ts : Z).

Lemma bybit_last_far (items : list Py.value) :
  forall lo hi,
  Bybit.descending_within lo hi items = true -> items <> [] ->
  exists t, Bybit.last_time items = Some t
            /\ lo <= t <= hi - (Z.of_nat (List.length items) - 1).
Proof.
  induction items as [|item rest IH]; intros lo hi H Hne; [congruence|].
  cbn [Bybit.descending_within] in H.
  destruct (Bybit.entry_time item) as [t0|] eqn:Et; [|discriminate].
  apply andb_true_iff in H as [H Hrest]. apply andb_true_iff in H as [H1 H2].
  apply Z.leb_le in H1, H2.
  destruct rest as [|item' rest'].
  - exists t0. split; [|cbn [List.length]; lia].
    unfold Bybit.last_time, Bybit.entry_time in *. cbn [last].
    destruct item as [| | | | | |kv]; try discriminate.
    cbn [Py.get]. now destruct (Py.truthy _).
  - destruct (IH _ _ Hrest ltac:(discriminate)) as (t & Ht & Hb).
    exists t. split; [exact Ht|].
    cbn [List.length] in *. lia.
Qed.

Hypothesis ordered :
  forall n q j items, srv n q = Body j ->
    Bybit.page_list j = Py.VList items ->
    Bybit.descending_within (Bybit.startTime q) (Bybit.endTime q) items
    = true.

Lemma bybit_loop_terminates (fuel : nat) :
  forall n cur results trace,
  (1 <= fuel)%nat -> cur - start_ts + 1 <= (Z.of_nat fuel - 1) * 200 ->
  exists o, Bybit.fetch_loop parser fuel srv n sym start_ts cur results trace
            = Some o.
Proof.
  induction fuel as [|fuel IH]; intros n cur results trace Hf Hm; [lia|].
  destruct (srv n (Bybit.mkRequest "linear" sym start_ts cur Bybit.limit))
    as [|j] eqn:Hj.
  - rewrite (@bybit_step_failed parser srv sym start_ts fuel n cur results
               trace Hj).
    eauto.
  - destruct (Py.truthy (Bybit.page_list j)) eqn:Htr.
    + destruct (Bybit.page_list j) as [| | | | |items|] eqn:Hl;
        try (cbn [Bybit.fetch_loop]; rewrite Hj; cbv zeta;
             rewrite Hl; cbn [Py.truthy negb] in *; rewrite ?Htr;
             cbn [negb]; eauto; fail).
      assert (Hne : items <> []) by (intros ->; discriminate).
      rewrite (@bybit_step_page parser srv sym start_ts fuel n cur j items
                 results trace Hj Hl Hne).
      cbv zeta.
      destruct (negb _); [eauto|].
      destruct (Z.of_nat (List.length items) <? Bybit.limit) eqn:Hlen;
        [eauto|].
      apply Z.ltb_ge in Hlen. unfold Bybit.limit in Hlen.
      pose proof (@ordered _ _ _ _ Hj Hl) as Ha.
      cbn [Bybit.startTime Bybit.endTime] in Ha.
      destruct (@bybit_last_far items _ _ Ha Hne) as (t & Ht & Hb).
      rewrite Ht. apply IH; lia.
    + rewrite (@bybit_step_empty parser srv sym start_ts fuel n cur j results
                 trace Hj Htr).
      eauto.
Qed.

End BybitTermination.

Section HyperTermination.

Variable srv : nat -> Hyperliquid.request -> response.
Variables (sym : string) (end_ms : Z).

Lemma hyper_last_within (items : list Py.value) :
  forall lo hi,
  Hyperliquid.entries_within lo hi items = true -> items <> [] ->
  exists t, Hyperliquid.last_time items = Some t /\ lo <= t <= hi.
Proof.
  intros lo hi H Hne. rewrite hyper_last_time_entry.
  unfold Hyperliquid.entries_within in H. rewrite forallb_forall in H.
  assert (Hin : In (last items Py.VNone) items).
  { clear - Hne. induction items as [|x [|y r] IH]; [congruence|now left|].
    right. apply IH. discriminate. }
  specialize (H _ Hin).
  destruct (Hyperliquid.entry_time _) as [t|]; [|discriminate].
  exists t. split; [reflexivity|].
  apply andb_true_iff in H as [H1 H2]. apply Z.leb_le in H1, H2. lia.
Qed.

Hypothesis within :
  forall n q items, srv n q = Body (Py.VList items) ->
    Hyperliquid.entries_within (Hyperliquid.startTime q)
      (Hyperliquid.endTime q) items = true.

Lemma hyper_loop_terminates (fuel : nat) :
  forall n cur results trace,
  (1 <= fuel)%nat -> end_ms - cur + 1 <= Z.of_nat fuel - 1 ->
  exists out, Hyperliquid.fetch_loop fuel srv n sym
                (Hyperliquid.extract_coin_from_symbol sym) cur end_ms
                results trace = Some out.
Proof.
  induction fuel as [|fuel IH]; intros n cur results trace Hf Hm; [lia|].
  destruct (Z.lt_ge_cases end_ms cur) as [Hlt|Hge].
  - rewrite (@hyper_step_done srv sym end_ms fuel n cur results trace Hlt).
    eauto.
  - pose proof (eq_refl (srv n (Hyperliquid.request_at sym cur end_ms))) as Hj.
    revert Hj.
    generalize (srv n (Hyperliquid.request_at sym cur end_ms)) at 2.
    intros [|j] Hj.
    + rewrite (@hyper_step_failed srv sym end_ms fuel n cur results trace
                 Hge Hj).
      eauto.
    + destruct (Hyperliquid.has_len j) eqn:Hlen.
      * destruct (no_entries j) eqn:Hno.
        -- rewrite (@hyper_step_skip srv sym end_ms fuel n cur j results trace
                      Hge Hj Hlen Hno).
           apply IH; unfold Hyperliquid.window_ms; lia.
        -- destruct j as [| | | | |items|]; try discriminate.
           assert (Hne : items <> []) by (intros ->; discriminate).
           rewrite (@hyper_step_page srv sym end_ms fuel n cur items results
                      trace Hge Hj Hne).
           cbv zeta.
           destruct (negb _); [eauto|].
           pose proof (@within _ _ _ Hj) as Ha.
           unfold Hyperliquid.request_at in Ha.
           cbn [Hyperliquid.startTime Hyperliquid.endTime] in Ha.
           destruct (@hyper_last_within items _ _ Ha Hne) as (t & Ht & Hb).
           rewrite Ht. apply IH; lia.
      * cbn [Hyperliquid.fetch_loop].
        replace (end_ms <? cur) with false
          by (symmetry; apply Z.ltb_ge; lia).
        cbv zeta. unfold Hyperliquid.request_at in Hj.
        rewrite Hj, Hlen. cbn [negb]. eauto.
Qed.

End HyperTermination.

Lemma hyper_ascending_entries (items : list Py.value) :
  forall lo lo' hi,
  lo' <= lo ->
  Hyperliquid.ascending_within lo hi items = true ->
  Hyperliquid.entries_within lo' hi items = true.
Proof.
  induction items as [|item rest IH]; intros lo lo' hi Hlo H; [reflexivity|].
  cbn [Hyperliquid.ascending_within] in H.
  cbn [Hyperliquid.entries_within forallb].
  destruct (Hyperliquid.entry_time item) as [t|]; [|discriminate].
  apply andb_true_iff in H as [H Hrest]. apply andb_true_iff in H as [H1 H2].
  apply Z.leb_le in H1, H2.
  apply andb_true_iff. split.
  - apply andb_true_iff. split; apply Z.leb_le; lia.
  - apply (IH (t + 1) lo' hi); [lia|exact Hrest].
Qed.

Section NeverReturns.

Lemma binance_loop_stuck (srv : nat -> Binance.request -> response)
    (sym : string) (end_ms : Z) (page : list Py.value) (t : Z) :
  (forall n q, srv n q = Body (Py.VList page)) ->
  Binance.limit <= Z.of_nat (List.length page) ->
  snd (append_items (Binance.parse_item sym) page []) = true ->
  Binance.last_time page = Some t ->
  forall fuel n cur results trace,
    Binance.fetch_loop fuel srv n sym cur end_ms results trace = None.
Proof.
  intros Hsrv Hlen Hok Ht.
  assert (Hne : page <> []).
  { intros ->. unfold Binance.limit in Hlen. cbn in Hlen. lia. }
  induction fuel as [|fuel IH]; intros n cur results trace; [reflexivity|].
  rewrite (@binance_step_page srv sym end_ms fuel n cur page results trace
             (Hsrv _ _) Hne).
  cbv zeta. rewrite Hok, Ht. cbn [negb].
  replace (Z.of_nat (List.length page) <? Binance.limit) with false
    by (symmetry; apply Z.ltb_ge; exact Hlen).
  apply IH.
Qed.

Lemma bybit_loop_stuck (parser : string -> option Z)
    (srv : nat -> Bybit.request -> response)
    (sym : string) (start_ts : Z) (page : list Py.value) (t : Z) :
  (forall n q, exists j, srv n q = Body j
                         /\ Bybit.page_list j = Py.VList page) ->
  Bybit.limit <= Z.of_nat (List.length page) ->
  snd (append_items (Bybit.parse_item parser sym) page []) = true ->
  Bybit.last_time page = Some t ->
  forall fuel n cur results trace,
    Bybit.fetch_loop parser fuel srv n sym start_ts cur results trace = None.
Proof.
  intros Hsrv Hlen Hok Ht.
  assert (Hne : page <> []).
  { intros ->. unfold Bybit.limit in Hlen. cbn in Hlen. lia. }
  induction fuel as [|fuel IH]; intros n cur results trace; [reflexivity|].
  destruct (Hsrv n (Bybit.mkRequest "linear" sym start_ts cur Bybit.limit))
    as (j & Hj & Hl).
  rewrite (@bybit_step_page parser srv sym start_ts fuel n cur j page
             results trace Hj Hl Hne).
  cbv zeta. rewrite Hok, Ht. cbn [negb].
  replace (Z.of_nat (List.length page) <? Bybit.limit) with false
    by (symmetry; apply Z.ltb_ge; exact Hlen).
  apply IH.
Qed.

Lemma hyper_loop_stuck (srv : nat -> Hyperliquid.request -> response)
    (sym : string) (end_ms : Z) (page : list Py.value) (t : Z) :
  (forall n q, srv n q = Body (Py.VList page)) ->
  page <> [] ->
  snd (append_items (Hyperliquid.parse_item sym) page []) = true ->
  Hyperliquid.last_time page = Some t -> t < end_ms ->
  forall fuel n cur results trace,
    cur <= end_ms ->
    Hyperliquid.fetch_loop fuel srv n sym
      (Hyperliquid.extract_coin_from_symbol sym) cur end_ms results trace
    = None.
Proof.
  intros Hsrv Hne Hok Ht Hlt.
  induction fuel as [|fuel IH]; intros n cur results trace Hc; [reflexivity|].
  rewrite (@hyper_step_page srv sym end_ms fuel n cur page results trace
             Hc (Hsrv _ _) Hne).
  cbv zeta. rewrite Hok, Ht. cbn [negb].
  apply IH. lia.
Qed.

End NeverReturns.

(** X13.  With an endpoint that answers every request with entries in
    increasing time within the window asked for, [fetch_binance_funding]
    returns: a full page moves the cursor on by at least 1000
    milliseconds, so one request more than the thousands of milliseconds
    in the interval are enough. *)
Theorem binance_fetch_terminates :
  forall srv sym start_ms end_ms fuel,
    (forall n q data, srv n q = Body (Py.VList data) ->
       Binance.ascending_within (Binance.startTime q) (Binance.endTime q)
         data = true) ->
    (1 <= fuel)%nat ->
    end_ms - start_ms + 1 <= (Z.of_nat fuel - 1) * 1000 ->
    exists o,
      Binance.fetch_binance_funding fuel srv sym start_ms end_ms = Some o.
Proof.
  intros srv sym start_ms end_ms fuel Hsrv Hf Hm.
  exact (@binance_loop_terminates srv sym end_ms Hsrv fuel 0%nat start_ms
           [] [] Hf Hm).
Qed.

Lemma binance_fetch_terminates_witness :
  exists o,
    Binance.fetch_binance_funding 2 Scenario.binance_echo "BTCUSDT"
      Scenario.start_ms Scenario.short_end = Some o.
Proof.
  apply binance_fetch_terminates.
  - exact binance_echo_ordered.
  - lia.
  - vm_compute; discriminate.
Defined.

(** X14.  With an endpoint that answers every request with entries in
    decreasing time within the window asked for,
    [fetch_bybit_funding_v5] returns: a full page moves the cursor back
    by at least 200 milliseconds. *)
Theorem bybit_fetch_terminates :
  forall parser srv sym start_ts end_ts fuel,
    (forall n q j items, srv n q = Body j ->
       Bybit.page_list j = Py.VList items ->
       Bybit.descending_within (Bybit.startTime q) (Bybit.endTime q) items
       = true) ->
    (1 <= fuel)%nat ->
    end_ts - start_ts + 1 <= (Z.of_nat fuel - 1) * 200 ->
    exists o,
      Bybit.fetch_bybit_funding_v5 parser fuel srv sym start_ts end_ts
      = Some o.
Proof.
  intros parser srv sym start_ts end_ts fuel Hsrv Hf Hm.
  exact (@bybit_loop_terminates parser srv sym start_ts Hsrv fuel 0%nat
           end_ts [] [] Hf Hm).
Qed.

Lemma bybit_fetch_terminates_witness :
  exists o,
    Bybit.fetch_bybit_funding_v5 Scenario.no_iso 2 Scenario.bybit_echo
      "BTCUSDT" Scenario.start_ms Scenario.short_end = Some o.
Proof.
  apply bybit_fetch_terminates.
  - exact bybit_echo_ordered.
  - lia.
  - vm_compute; discriminate.
Defined.

(** X15.  With an endpoint whose entries lie within the window asked for,
    [fetch_hyper_funding_for_symbol] returns: every answer moves the
    cursor on by at least one millisecond, and the loop ends once the
    cursor has passed [end_ms]. *)
Theorem hyper_fetch_terminates :
  forall srv sym start_ms end_ms fuel,
    (forall n q items, srv n q = Body (Py.VList items) ->
       Hyperliquid.entries_within (Hyperliquid.startTime q)
         (Hyperliquid.endTime q) items = true) ->
    (1 <= fuel)%nat ->
    end_ms - start_ms + 1 <= Z.of_nat fuel - 1 ->
    exists o,
      Hyperliquid.fetch_hyper_funding_for_symbol fuel srv sym start_ms end_ms
      = Some o.
Proof.
  intros srv sym start_ms end_ms fuel Hsrv Hf Hm.
  unfold Hyperliquid.fetch_hyper_funding_for_symbol.
  destruct (@hyper_loop_terminates srv sym end_ms Hsrv fuel 0%nat start_ms
              [] [] Hf Hm) as [[[rs tr] w] E].
  rewrite E. eauto.
Qed.

Lemma hyper_fetch_terminates_witness :
  exists o,
    Hyperliquid.fetch_hyper_funding_for_symbol 4 Scenario.hyper_echo "ETH"
      Scenario.start_ms Scenario.short_end = Some o.
Proof.
  apply hyper_fetch_terminates.
  - intros n q items H.
    apply (@hyper_ascending_entries items (Hyperliquid.startTime q));
      [lia|].
    exact (@hyper_echo_ordered _ _ _ H).
  - lia.
  - vm_compute; discriminate.
Defined.

(** X16.  None of the three loops bounds the number of its requests: an
    endpoint that answers every request with the same full page (for
    Hyperliquid: the same entries, the last of them before [end_ms])
    keeps the fetcher asking for ever, whatever the number of
    iterations allowed. *)
Theorem fetch_never_returns_on_repeated_page :
  (forall srv sym start_ms end_ms page t,
     (forall n q, srv n q = Body (Py.VList page)) ->
     Binance.limit <= Z.of_nat (List.length page) ->
     snd (append_items (Binance.parse_item sym) page []) = true ->
     Binance.last_time page = Some t ->
     forall fuel,
       Binance.fetch_binance_funding fuel srv sym start_ms end_ms = None)
  /\ (forall parser srv sym start_ts end_ts page t,
     (forall n q, exists j, srv n q = Body j
                            /\ Bybit.page_list j = Py.VList page) ->
     Bybit.limit <= Z.of_nat (List.length page) ->
     snd (append_items (Bybit.parse_item parser sym) page []) = true ->
     Bybit.last_time page = Some t ->
     forall fuel,
       Bybit.fetch_bybit_funding_v5 parser fuel srv sym start_ts end_ts
       = None)
  /\ (forall srv sym start_ms end_ms page t,
     (forall n q, srv n q = Body (Py.VList page)) ->
     page <> [] ->
     snd (append_items (Hyperliquid.parse_item sym) page []) = true ->
     Hyperliquid.last_time page = Some t ->
     start_ms <= end_ms -> t < end_ms ->
     forall fuel,
       Hyperliquid.fetch_hyper_funding_for_symbol fuel srv sym start_ms
         end_ms = None).
Proof.
  split; [|split].
  - intros srv sym start_ms end_ms page t Hsrv Hlen Hok Ht fuel.
    exact (@binance_loop_stuck srv sym end_ms page t Hsrv Hlen Hok Ht
             fuel 0%nat start_ms [] []).
  - intros parser srv sym start_ts end_ts page t Hsrv Hlen Hok Ht fuel.
    exact (@bybit_loop_stuck parser srv sym start_ts page t Hsrv Hlen Hok Ht
             fuel 0%nat end_ts [] []).
  - intros srv sym start_ms end_ms page t Hsrv Hne Hok Ht Hs Hlt fuel.
    unfold Hyperliquid.fetch_hyper_funding_for_symbol.
    now rewrite (@hyper_loop_stuck srv sym end_ms page t Hsrv Hne Hok Ht Hlt
                   fuel 0%nat start_ms [] [] Hs).
Qed.

Lemma fetch_never_returns_on_repeated_page_witness :
  Binance.fetch_binance_funding 3 Endpoints.binance_stuck "BTCUSDT"
    Scenario.start_ms Scenario.end_ms = None
  /\ Bybit.fetch_bybit_funding_v5 Scenario.no_iso 3 Endpoints.bybit_stuck
       "BTCUSDT" Scenario.start_ms Scenario.end_ms = None
  /\ Hyperliquid.fetch_hyper_funding_for_symbol 3 Endpoints.hyper_stuck
       "ETH" Scenario.start_ms Scenario.end_ms = None.
Proof.
  destruct fetch_never_returns_on_repeated_page as (B & Y & H).
  split; [|split].
  - apply (B Endpoints.binance_stuck "BTCUSDT"%string Scenario.start_ms
             Scenario.end_ms Scenario.binance_page1000
             (Scenario.start_ms + 999 * Scenario.eight_hours)).
    + intros n q; reflexivity.
    + vm_compute; discriminate.
    + vm_compute; reflexivity.
    + vm_compute; reflexivity.
  - apply (Y Scenario.no_iso Endpoints.bybit_stuck "BTCUSDT"%string
             Scenario.start_ms Scenario.end_ms Scenario.bybit_page200
             Scenario.start_ms).
    + intros n q. eexists. split; reflexivity.
    + vm_compute; discriminate.
    + vm_compute; reflexivity.
    + vm_compute; reflexivity.
  - apply (H Endpoints.hyper_stuck "ETH"%string Scenario.start_ms
             Scenario.end_ms Scenario.hyper_page
             (Scenario.start_ms + 3600000)).
    + intros n q; reflexivity.
    + discriminate.
    + vm_compute; reflexivity.
    + vm_compute; reflexivity.
    + vm_compute; discriminate.
    + vm_compute; reflexivity.
Defined.

(** ** Hyperliquid: the windows leave no gap *)

Section HyperCoverage.

Variable srv : nat -> Hyperliquid.request -> response.
Variables (sym : string) (end_ms : Z).

Hypothesis within :
  forall n q items, srv n q = Body (Py.VList items) ->
    Hyperliquid.entries_within (Hyperliquid.startTime q)
      (Hyperliquid.endTime q) items = true.

Lemma next_cursor_near (n : nat) (cur : Z) (j : Py.value) :
  cur <= end_ms ->
  srv n (Hyperliquid.request_at sym cur end_ms) = Body j ->
  Hyperliquid.next_cursor end_ms cur j
  <= Z.min end_ms (cur + Hyperliquid.window_ms - 1) + 1.
Proof.
  intros Hc Hj. unfold Hyperliquid.window_ms.
  destruct j as [| | | | |items|]; cbn [Hyperliquid.next_cursor];
    unfold Hyperliquid.window_ms; try lia.
  destruct items as [|item more]; cbv beta iota;
    unfold Hyperliquid.window_ms; [lia|].
  destruct (Hyperliquid.last_time (item :: more)) as [t|] eqn:Ht; [|lia].
  pose proof (@within _ _ _ Hj) as Ha.
  unfold Hyperliquid.request_at in Ha.
  cbn [Hyperliquid.startTime Hyperliquid.endTime] in Ha.
  destruct (@hyper_last_within (item :: more) _ _ Ha ltac:(discriminate))
    as (t' & Ht' & Hb).
  unfold Hyperliquid.window_ms in Hb.
  rewrite Ht in Ht'. injection Ht' as <-. lia.
Qed.

Lemma requests_cover (bodies : list Py.value) :
  forall n cur x,
  Hyperliquid.answered srv sym end_ms n cur bodies ->
  end_ms < Hyperliquid.cursor_after end_ms cur bodies ->
  cur <= x <= end_ms ->
  exists q, In q (Hyperliquid.requests_for sym end_ms cur bodies)
            /\ Hyperliquid.startTime q <= x <= Hyperliquid.endTime q.
Proof.
  induction bodies as [|j rest IH]; intros n cur x Ha Hc Hx.
  - cbn in Hc. lia.
  - cbn [Hyperliquid.answered] in Ha. destruct Ha as (Hge & Hj & Hrest).
    cbn [Hyperliquid.requests_for].
    destruct (Z.le_gt_cases x (Z.min end_ms (cur + Hyperliquid.window_ms - 1)))
      as [Hin|Hout].
    + exists (Hyperliquid.request_at sym cur end_ms).
      split; [now left|].
      unfold Hyperliquid.request_at.
      cbn [Hyperliquid.startTime Hyperliquid.endTime]. lia.
    + pose proof (@next_cursor_near n cur j Hge Hj) as Hn.
      destruct (IH (S n) (Hyperliquid.next_cursor end_ms cur j) x Hrest)
        as (q & Hq & Hb); [exact Hc|lia|].
      exists q. split; [now right|exact Hb].
Qed.

End HyperCoverage.

(** X17.  When the entries served lie within the window asked for and the
    loop of [fetch_hyper_funding_for_symbol] ends by itself, every
    millisecond of [start_ms .. end_ms] lies in the window of one of the
    requests made: moving the cursor to the last entry does not skip any
    part of the interval. *)
Theorem hyper_windows_leave_no_gap :
  forall fuel srv sym start_ms end_ms o x,
    (forall n q items, srv n q = Body (Py.VList items) ->
       Hyperliquid.entries_within (Hyperliquid.startTime q)
         (Hyperliquid.endTime q) items = true) ->
    Hyperliquid.fetch_hyper_funding_for_symbol fuel srv sym start_ms end_ms
    = Some o ->
    Hyperliquid.why o = StopWindow ->
    start_ms <= x <= end_ms ->
    exists q, In q (Hyperliquid.requests o)
              /\ Hyperliquid.startTime q <= x <= Hyperliquid.endTime q.
Proof.
  intros fuel srv sym start_ms end_ms o x Hsrv H Hw Hx.
  unfold Hyperliquid.fetch_hyper_funding_for_symbol in H.
  destruct (Hyperliquid.fetch_loop _ _ _ _ _ _ _ _ _) as [[[rs tr] w]|] eqn:E;
    [|discriminate].
  injection H as <-. cbn [Hyperliquid.why Hyperliquid.requests] in *.
  destruct (@hyper_loop_run srv sym end_ms fuel 0%nat start_ms [] []
              (rs, tr, w) E) as (bodies & A & [[C Eo]|[C Eo]]);
    injection Eo as -> -> ->; [|discriminate].
  cbn [app]. exact (@requests_cover srv sym end_ms Hsrv bodies 0%nat start_ms x A C Hx).
Qed.

Lemma hyper_windows_leave_no_gap_witness :
  exists o q,
    Hyperliquid.fetch_hyper_funding_for_symbol 5 Scenario.hyper_echo "ETH"
      Scenario.start_ms Scenario.short_end = Some o
    /\ In q (Hyperliquid.requests o)
    /\ Hyperliquid.startTime q <= Scenario.start_ms + 1
       <= Hyperliquid.endTime q.
Proof.
  assert (H : exists o,
            Hyperliquid.fetch_hyper_funding_for_symbol 5 Scenario.hyper_echo
              "ETH" Scenario.start_ms Scenario.short_end = Some o
            /\ Hyperliquid.why o = StopWindow)
    by (eexists; split; [vm_compute; reflexivity|reflexivity]).
  destruct H as (o & H & W).
  assert (V : forall n q items,
            Scenario.hyper_echo n q = Body (Py.VList items) ->
            Hyperliquid.entries_within (Hyperliquid.startTime q)
              (Hyperliquid.endTime q) items = true).
  { intros n q items Hs.
    apply (@hyper_ascending_entries items (Hyperliquid.startTime q));
      [lia|].
    exact (@hyper_echo_ordered _ _ _ Hs). }
  assert (R : Scenario.start_ms <= Scenario.start_ms + 1 <= Scenario.short_end)
    by (vm_compute; split; discriminate).
  destruct (@hyper_windows_leave_no_gap 5%nat Scenario.hyper_echo
              "ETH"%string Scenario.start_ms Scenario.short_end o
              (Scenario.start_ms + 1) V H W R) as (q & Hq & Hb).
  exists o, q. split; [exact H|]. split; [exact Hq|exact Hb].
Defined.

(** ** Hyperliquid: a rate that cannot be hashed *)

(** X18.  [main] of fetch_hyperliquid_funding.py writes its files after the
    symbol loop.  A funding rate that is a JSON array or object among
    the rows accumulated for the first symbol makes the deduplication
    raise outside any [try]: [main] stops there and no file is written.
    Conversely, when [main] has written its groups, every symbol was
    fetched and returned, none of its accumulated rates being such a
    value. *)
Theorem hyper_main_unhashable_rate :
  (forall fuel srv sym rest start_ms end_ms o r,
     Hyperliquid.fetch_hyper_funding_for_symbol fuel srv sym start_ms end_ms
     = Some o ->
     In r (Hyperliquid.accumulated o) ->
     Py.hashable (funding_rate r) = false ->
     Hyperliquid.main fuel srv (sym :: rest) start_ms end_ms
     = Hyperliquid.Crashed)
  /\ (forall fuel srv syms start_ms end_ms groups sym,
     Hyperliquid.main fuel srv syms start_ms end_ms = Hyperliquid.Done groups ->
     In sym syms ->
     exists k o rows,
       Hyperliquid.fetch_hyper_funding_for_symbol fuel
         (fun i => srv (k + i)%nat) sym start_ms end_ms = Some o
       /\ Hyperliquid.result o = Hyperliquid.Returns rows
       /\ Forall (fun r => Py.hashable (funding_rate r) = true)
            (Hyperliquid.accumulated o)).
Proof.
  split.
  - intros fuel srv sym rest start_ms end_ms o r H Hin Hr.
    unfold Hyperliquid.main. cbn [Hyperliquid.fetch_all].
    change (fun i : nat => srv (0 + i)%nat) with srv. rewrite H.
    assert (E : Hyperliquid.result o = Hyperliquid.Raises).
    { unfold Hyperliquid.fetch_hyper_funding_for_symbol in H.
      destruct (Hyperliquid.fetch_loop _ _ _ _ _ _ _ _ _)
        as [[[rs tr] w]|]; [|discriminate].
      injection H as <-. cbn [Hyperliquid.result Hyperliquid.accumulated] in *.
      exact (@dedup_sorted_raises rs r Hin Hr). }
    now rewrite E.
  - intros fuel srv syms start_ms end_ms groups sym H Hin.
    unfold Hyperliquid.main in H.
    destruct (@hyper_fetch_all_blocks fuel start_ms end_ms srv syms 0%nat []
                groups H) as (blocks & _ & Hk & Hb).
    rewrite <- Hk in Hin. apply in_map_iff in Hin as (b & <- & Hin).
    rewrite Forall_forall in Hb. destruct (Hb b Hin) as (k & o & Ho & Hr).
    exists k, o, (snd b). split; [exact Ho|]. split; [exact Hr|].
    unfold Hyperliquid.fetch_hyper_funding_for_symbol in Ho.
    destruct (Hyperliquid.fetch_loop _ _ _ _ _ _ _ _ _)
      as [[[rs tr] w]|]; [|discriminate].
    injection Ho as <-. cbn [Hyperliquid.result Hyperliquid.accumulated] in *.
    unfold Hyperliquid.dedup_sorted, Hyperliquid.dedup in Hr.
    destruct (forallb _ rs) eqn:E; [|discriminate].
    rewrite forallb_forall in E. now apply Forall_forall.
Qed.

Lemma hyper_main_unhashable_rate_witness :
  Hyperliquid.main 5 Scenario.hyper_list_rate ["ETH"; "BTC"]%string
    Scenario.start_ms Scenario.end_ms = Hyperliquid.Crashed
  /\ exists k o rows,
       Hyperliquid.fetch_hyper_funding_for_symbol 5
         (fun i => Scenario.hyper_echo (k + i)%nat) "ETH"
         Scenario.start_ms Scenario.short_end = Some o
       /\ Hyperliquid.result o = Hyperliquid.Returns rows
       /\ Forall (fun r => Py.hashable (funding_rate r) = true)
            (Hyperliquid.accumulated o).
Proof.
  destruct hyper_main_unhashable_rate as [A B].
  split.
  - eapply (A 5%nat Scenario.hyper_list_rate "ETH"%string ["BTC"%string]
              Scenario.start_ms Scenario.end_ms).
    + vm_compute; reflexivity.
    + left; reflexivity.
    + reflexivity.
  - eapply (B 5%nat Scenario.hyper_echo ["ETH"%string] Scenario.start_ms
              Scenario.short_end).
    + vm_compute; reflexivity.
    + left; reflexivity.
Defined.

(** ** The lenient search of fetch_funding_rates.py *)

Section Walk.

Lemma walk_list (l : list Py.value) :
  Extract.walk (Py.VList l)
  = if Extract.is_candidate l then Some l
    else fold_right (fun y rest => match Extract.walk y with
                                   | Some c => Some c
                                   | None => rest
                                   end) None l.
Proof.
  cbn [Extract.walk]. destruct (Extract.is_candidate l); [reflexivity|].
  induction l as [|y r IH]; [reflexivity|].
  cbn [fold_right]. now rewrite <- IH.
Qed.

Lemma walk_dict (kv : list (string * Py.value)) :
  Extract.walk (Py.VDict kv)
  = fold_right (fun p rest => match Extract.walk (snd p) with
                              | Some c => Some c
                              | None => rest
                              end) None kv.
Proof.
  cbn [Extract.walk].
  induction kv as [|[k v] r IH]; [reflexivity|].
  cbn [fold_right snd]. now rewrite <- IH.
Qed.

Lemma value_nested_ind (P : Py.value -> Prop) :
  (forall v, match v with Py.VList _ | Py.VDict _ => False | _ => True end ->
             P v) ->
  (forall l, Forall P l -> P (Py.VList l)) ->
  (forall kv, Forall (fun p => P (snd p)) kv -> P (Py.VDict kv)) ->
  forall v, P v.
Proof.
  intros Hatom Hlist Hdict. fix IH 1.
  intros [| | | | |l|kv]; try (apply Hatom; exact I).
  - apply Hlist. revert l. fix IHl 1.
    intros [|x r]; constructor; [apply IH|apply IHl].
  - apply Hdict. revert kv. fix IHkv 1.
    intros [|[k v] r]; constructor; [apply IH|apply IHkv].
Qed.

Lemma first_found {A B : Type} (f : A -> option B) (l : list A) (c : B) :
  fold_right (fun p rest => match f p with
                            | Some c => Some c
                            | None => rest
                            end) None l = Some c ->
  exists p, In p l /\ f p = Some c.
Proof.
  induction l as [|p r IH]; [discriminate|].
  cbn [fold_right]. destruct (f p) as [c'|] eqn:E.
  - intros [= <-]. exists p. split; [now left|exact E].
  - intros H. destruct (IH H) as (q & Hq & Hf). exists q.
    split; [now right|exact Hf].
Qed.

Lemma first_found_some {A B : Type} (f : A -> option B) (l : list A) (p : A) :
  In p l -> f p <> None ->
  fold_right (fun p rest => match f p with
                            | Some c => Some c
                            | None => rest
                            end) None l <> None.
Proof.
  induction l as [|q r IH]; [intros []|].
  cbn [fold_right]. intros [->|Hin] Hp.
  - destruct (f p); [discriminate|congruence].
  - destruct (f q); [discriminate|now apply IH].
Qed.

(** What [walk] finds is a list it accepts, and it lies in the
    document. *)
Lemma walk_sound (obj : Py.value) :
  forall c, Extract.walk obj = Some c ->
  Extract.is_candidate c = true /\ Extract.inside (Py.VList c) obj.
Proof.
  induction obj as [v Hv|l IH|kv IH] using value_nested_ind; intros c H.
  - destruct v; try discriminate; contradiction.
  - rewrite walk_list in H.
    destruct (Extract.is_candidate l) eqn:E.
    + injection H as <-. split; [exact E|constructor].
    + apply first_found in H as (y & Hy & Hw).
      rewrite Forall_forall in IH. destruct (IH y Hy c Hw) as [C I].
      split; [exact C|]. now apply Extract.inside_list with y.
  - rewrite walk_dict in H.
    apply first_found in H as ([k v] & Hy & Hw).
    rewrite Forall_forall in IH. destruct (IH (k, v) Hy c Hw) as [C I].
    split; [exact C|]. now apply Extract.inside_dict with k v.
Qed.

(** A list [walk] would accept, anywhere in the document, makes it find
    one. *)
Lemma walk_complete (obj : Py.value) (c : list Py.value) :
  Extract.inside (Py.VList c) obj -> Extract.is_candidate c = true ->
  Extract.walk obj <> None.
Proof.
  intros I C. induction I as [|l y Hy I IH|kv k v Hy I IH].
  - rewrite walk_list, C. discriminate.
  - rewrite walk_list. destruct (Extract.is_candidate l); [discriminate|].
    now apply first_found_some with y.
  - rewrite walk_dict. now apply first_found_some with (k, v).
Qed.

End Walk.

(** X19.  [try_extract_list_from_json] returns a non-empty list exactly when
    the document holds, at any depth, a list whose first item is an
    object and one of whose objects has a key that reads [fundingrate]
    or [funding_rate] once lowered and with [-] as [_]; what it returns
    is then such a list of the document. *)
Theorem try_extract_list_finds_entries :
  forall obj,
    (Extract.try_extract_list_from_json obj <> []
     <-> exists c, Extract.inside (Py.VList c) obj
                   /\ Extract.is_candidate c = true)
    /\ (Extract.try_extract_list_from_json obj <> [] ->
        Extract.is_candidate (Extract.try_extract_list_from_json obj) = true
        /\ Extract.inside
             (Py.VList (Extract.try_extract_list_from_json obj)) obj).
Proof.
  intros obj. unfold Extract.try_extract_list_from_json.
  destruct (Extract.walk obj) as [c|] eqn:E.
  - destruct (walk_sound obj E) as [C I]. split.
    + split; [intros _; exists c; auto|].
      intros _ ->. discriminate.
    + intros _. auto.
  - split; [|intros H; now elim H].
    split; [intros H; now elim H|].
    intros (c & I & C). exfalso. exact (walk_complete I C E).
Qed.

Lemma try_extract_list_finds_entries_witness :
  Extract.is_candidate
    (Extract.try_extract_list_from_json
       (Scenario.bybit_body (Scenario.bybit_newest 0 2))) = true
  /\ Extract.inside
       (Py.VList (Extract.try_extract_list_from_json
                    (Scenario.bybit_body (Scenario.bybit_newest 0 2))))
       (Scenario.bybit_body (Scenario.bybit_newest 0 2)).
Proof.
  apply (try_extract_list_finds_entries
           (Scenario.bybit_body (Scenario.bybit_newest 0 2))).
  vm_compute; discriminate.
Defined.

(** X20.  On the bodies the two endpoints serve, a list of entries at Binance
    and the [result.list] of a v5 body at Bybit, the lenient search
    returns the entries the fetchers read, as soon as the first entry is
    an object and some entry has the key [fundingRate]. *)
Theorem try_extract_list_on_served_bodies :
  forall kv rest,
    Py.has_key "fundingRate" kv = true ->
    Extract.try_extract_list_from_json (Py.VList (Py.VDict kv :: rest))
    = Py.VDict kv :: rest
    /\ forall code msg cat,
         Extract.try_extract_list_from_json
           (Py.VDict [("retCode"%string, Py.VInt code);
                      ("retMsg"%string, Py.VStr msg);
                      ("result"%string,
                       Py.VDict [("category"%string, Py.VStr cat);
                                 ("list"%string,
                                  Py.VList (Py.VDict kv :: rest))])])
         = Py.VDict kv :: rest
         /\ Bybit.page_list
              (Py.VDict [("retCode"%string, Py.VInt code);
                         ("retMsg"%string, Py.VStr msg);
                         ("result"%string,
                          Py.VDict [("category"%string, Py.VStr cat);
                                    ("list"%string,
                                     Py.VList (Py.VDict kv :: rest))])])
            = Py.VList (Py.VDict kv :: rest).
Proof.
  intros kv rest Hk.
  assert (C : Extract.is_candidate (Py.VDict kv :: rest) = true).
  { unfold Extract.is_candidate. cbn [existsb]. apply orb_true_iff. left.
    unfold Py.has_key in Hk.
    induction kv as [|[k v] r IH]; [discriminate|].
    cbn [Py.assoc] in Hk. cbn [existsb fst].
    destruct (String.eqb_spec "fundingRate" k) as [<-|Hne].
    - reflexivity.
    - rewrite (IH Hk). apply orb_true_r. }
  unfold Extract.try_extract_list_from_json.
  split.
  - now rewrite walk_list, C.
  - intros code msg cat. split; [|reflexivity].
    rewrite walk_dict. cbn [fold_right snd].
    change (Extract.walk (Py.VInt code)) with (@None (list Py.value)).
    change (Extract.walk (Py.VStr msg)) with (@None (list Py.value)).
    rewrite walk_dict. cbn [fold_right snd].
    change (Extract.walk (Py.VStr cat)) with (@None (list Py.value)).
    now rewrite walk_list, C.
Qed.

Lemma try_extract_list_on_served_bodies_witness :
  Extract.try_extract_list_from_json (Py.VList Scenario.hyper_page)
  = Scenario.hyper_page.
Proof.
  apply (try_extract_list_on_served_bodies
           [("coin"%string, Py.VStr "ETH");
            ("fundingRate"%string, Py.VStr "0.0000125");
            ("premium"%string, Py.VStr "0.0");
            ("time"%string, Py.VInt Scenario.start_ms)]).
  reflexivity.
Defined.
